(** * nutrition5k: dataset pipeline and training script

    A shallow embedding of [nutrition5k/dataset.py] and [train.py].

    Conventions.
    - Python exceptions are values of [pyexn]; code that can raise returns
      [result A = pyexn + A] and is sequenced with [x <- c ;; k].
    - Python [int] is [Z]; list slicing follows CPython (negative bounds
      count from the end, bounds are clamped).
    - Python [float] is IEEE binary64: the configured split fractions and
      the per-epoch losses are values of [float], products are rounded as
      [SpecFloat.SFmul] rounds them, and [int(x)] truncates the exact value
      of [x] toward zero ([scaled64], [split_dataframe64], [make_splits]).
      [split_dataframe] is the same split with the two products taken over
      exact rationals ([Q]); it serves where only the sign of the products
      matters.
    - A Python [dict] with string keys is a [gmap string _]; objects that the
      code mutates live in a heap indexed by object identity.
    - Calls into numpy, skimage, torch and torchvision whose results the
      repository only passes along are fields of the class [External]. *)

From Stdlib Require Import ZArith QArith Qpower Floats List String Ascii Lia Lqa Permutation.
From stdpp Require Import gmap strings list.

#[local] Set Warnings "-inexact-float".

Local Open Scope Z_scope.
Local Open Scope nat_scope.
Local Open Scope string_scope.
Local Open Scope list_scope.

(** ** Python runtime *)

Inductive pyexn : Type :=
| AssertionError
| FileNotFoundError (path : string)
| ImportError (name : string)
| IndexError
| KeyError (key : string)
| OverflowError
| TypeError (msg : string)
| ValueError (msg : string).

(** The class name under which an exception is reported. *)
Definition exn_name (e : pyexn) : string :=
  match e with
  | AssertionError => "AssertionError"
  | FileNotFoundError _ => "FileNotFoundError"
  | ImportError _ => "ImportError"
  | IndexError => "IndexError"
  | KeyError _ => "KeyError"
  | OverflowError => "OverflowError"
  | TypeError _ => "TypeError"
  | ValueError _ => "ValueError"
  end.

Definition result (A : Type) : Type := (pyexn + A)%type.

Definition Ok {A : Type} (a : A) : result A := inr a.
Definition Raise {A : Type} (e : pyexn) : result A := inl e.

Definition bind {A B : Type} (c : result A) (k : A -> result B) : result B :=
  match c with
  | inl e => inl e
  | inr a => k a
  end.

Notation "x <- c ;; k" := (bind c (fun x => k))
  (at level 100, c at next level, right associativity).

(** [xs[i]] for a non-negative literal index. *)
Definition getitem {A : Type} (xs : list A) (i : nat) : result A :=
  match xs !! i with
  | Some a => Ok a
  | None => Raise IndexError
  end.

(** [d[k]] on a dict. *)
Definition dict_get {V : Type} (d : gmap string V) (k : string) : result V :=
  match d !! k with
  | Some v => Ok v
  | None => Raise (KeyError k)
  end.

(** [int(x)] on a finite number: truncation toward zero. *)
Definition py_int (x : Q) : Z := Z.quot (Qnum x) (Z.pos (Qden x)).

(** A slice bound, normalised as [slice.indices] does for step 1. *)
Definition slice_bound (n : nat) (i : Z) : nat :=
  if (i <? 0)%Z then Z.to_nat (Z.max 0 (Z.of_nat n + i))
  else Z.to_nat (Z.min i (Z.of_nat n)).

(** [xs[lo:hi]]; [None] is an omitted bound. *)
Definition py_slice {A : Type} (xs : list A) (lo hi : option Z) : list A :=
  let n := length xs in
  let a := match lo with Some i => slice_bound n i | None => 0 end in
  let b := match hi with Some i => slice_bound n i | None => n end in
  take (b - a) (drop a xs).

(** [s.split(sep)] for a one-character separator: never empty. *)
Fixpoint str_split (sep : ascii) (s : string) : list string :=
  match s with
  | EmptyString => [EmptyString]
  | String c rest =>
      if Ascii.eqb c sep then EmptyString :: str_split sep rest
      else match str_split sep rest with
           | hd :: tl => String c hd :: tl
           | [] => [String c EmptyString]
           end
  end.

Definition startswith_sep (s : string) : bool :=
  match s with
  | String c _ => Ascii.eqb c "/"
  | EmptyString => false
  end.

Fixpoint endswith_sep (s : string) : bool :=
  match s with
  | EmptyString => false
  | String c EmptyString => Ascii.eqb c "/"
  | String _ rest => endswith_sep rest
  end.

(** [os.path.join(a, *p)] of posixpath. *)
Definition path_join (a : string) (p : list string) : string :=
  fold_left
    (fun path b =>
       if startswith_sep b then b
       else if orb (String.eqb path "") (endswith_sep path) then (path ++ b)%string
       else (path ++ "/" ++ b)%string)
    p a.

(** [x[i], x[j] = x[j], x[i]]; both positions are in range where it is used. *)
Definition swap {A : Type} (x : list A) (i j : nat) : list A :=
  match x !! i, x !! j with
  | Some a, Some b => <[j:=a]> (<[i:=b]> x)
  | _, _ => x
  end.

(** [random.shuffle(x)]: for [i] from [len(x)-1] down to [1], swap [x[i]] with
    [x[randbelow(i+1)]].  [draw i] is the raw value the generator yields at
    step [i]; [randbelow (i+1)] is its residue. *)
Fixpoint shuffle_from {A : Type} (draw : nat -> nat) (i : nat) (x : list A) : list A :=
  match i with
  | O => x
  | S i' => shuffle_from draw i' (swap x i (draw i mod (i + 1)))
  end.

Definition random_shuffle {A : Type} (draw : nat -> nat) (x : list A) : list A :=
  shuffle_from draw (length x - 1) x.

(** ** Arrays, tensors and samples *)

(** A [numpy.ndarray] or [torch.Tensor] payload of the two ranks the code
    handles: [1x1] targets and three-axis images. *)
Inductive array : Type :=
| A2 (m : list (list Q))
| A3 (t : list (list (list Q))).

Inductive value : Type :=
| NDArray (a : array)
| Tensor (a : array).

(** The length of each axis, read off the first element along it. *)
Definition shape3 (t : list (list (list Q))) : nat * nat * nat :=
  (length t, length (hd [] t), length (hd [] (hd [] t))).

(** A well-formed [d0 x d1 x d2] array. *)
Definition has_shape3 (d0 d1 d2 : nat) (t : list (list (list Q))) : Prop :=
  length t = d0 /\
  Forall (fun plane => length plane = d1 /\ Forall (fun line => length line = d2) plane) t.

(** A sample is a Python dict; the heap maps object identities to dicts. *)
Abbreviation Sample := (gmap string value).

Record World : Type := mkWorld {
  heap : gmap nat (gmap string value);
  torch_rng : nat
}.

(** Library calls whose results the repository passes along unchanged. *)
Class External : Type := {
  (** [int(float(s))] *)
  ext_int_float : string -> result Z;
  (** interpolation of [skimage.transform.resize]: the value at row [i],
      column [j], channel [c] of the image resized to [h x w] *)
  ext_resample : list (list (list Q)) -> nat -> nat -> nat -> nat -> nat -> Q;
  (** [torchvision.transforms.functional.center_crop] *)
  ext_center_crop : value -> nat * nat -> result value;
  (** [torch.rand(1)] at a generator state; the state then advances by one *)
  ext_rand : nat -> Q;
  (** [functional.hflip], [functional.vflip] *)
  ext_hflip : value -> result value;
  ext_vflip : value -> result value;
  (** [functional.normalize] *)
  ext_normalize : value -> list Q -> list Q -> result value
}.

(** ** nutrition5k/dataset.py: metadata index and split *)

(** One row of the frame built by [create_nutrition_df]. *)
Record DishRow : Type := mkDishRow {
  dish_id : string;
  mass : string;
  calories : Z
}.

(** A [pandas.DataFrame]: rows in order, each under its index label. *)
Abbreviation DataFrame := (list (nat * DishRow)).

Definition df_index (df : DataFrame) : list nat := map fst df.

(** [dataframe.loc[labels]]: for each label in turn, the rows carrying it. *)
Definition df_loc (df : DataFrame) (labels : list nat) : DataFrame :=
  flat_map (fun lbl => filter (fun r => fst r = lbl) df) labels.

(** The [split] entry of the configuration. *)
Record SplitSpec : Type := mkSplit {
  split_train : Q;
  split_validation : Q
}.

(** [int(samples * fraction)], the product taken over exact rationals. *)
Definition scaled (samples : nat) (fraction : Q) : Z :=
  py_int (inject_Z (Z.of_nat samples) * fraction)%Q.

Record SplitIndex : Type := mkSplitIndex {
  train_index : list nat;
  val_index : list nat;
  test_index : list nat
}.

(** Lines 120-127 of [split_dataframe]: the three label lists. *)
Definition split_index (draw : nat -> nat) (df : DataFrame) (split : SplitSpec) : SplitIndex :=
  let index := df_index df in
  let samples := length index in
  let index := random_shuffle draw index in
  let train_end := scaled samples (split_train split) in
  let val_end := (train_end + scaled samples (split_validation split))%Z in
  {| train_index := py_slice index None (Some train_end);
     val_index := py_slice index (Some train_end) (Some val_end);
     test_index := py_slice index (Some val_end) None |}.



(** ** The split sizes in binary64 *)

(** [float(n)] for a Python int, as the mixed product [n * f] converts it:
    the nearest binary64 value, ties to even; beyond the range it raises. *)
Definition float_of_int (n : Z) : result spec_float :=
  match binary_normalize prec emax n 0 false with
  | S754_infinity _ => Raise OverflowError
  | x => Ok x
  end.

(** [n * f] and [f * n] for an int [n] and a float [f]. *)
Definition int_mul_float (n : Z) (f : float) : result spec_float :=
  x <- float_of_int n ;; Ok (SFmul prec emax x (Prim2SF f)).

Definition float_mul_int (f : float) (n : Z) : result spec_float :=
  x <- float_of_int n ;; Ok (SFmul prec emax (Prim2SF f) x).

(** The rational a finite float stands for; on an infinity or a NaN, what
    [int(x)] and [round(x)] raise. *)
Definition float_value (x : spec_float) : result Q :=
  match x with
  | S754_zero _ => Ok 0%Q
  | S754_finite s m e =>
      let num := if s then Z.neg m else Z.pos m in
      Ok (match e with
          | Z.neg k => Qmake num (2 ^ k)
          | _ => inject_Z (num * 2 ^ e)
          end)
  | S754_infinity _ => Raise OverflowError
  | S754_nan => Raise (ValueError "cannot convert float NaN to integer")
  end.

(** [int(x)] on a float: truncation toward zero. *)
Definition float_int (x : spec_float) : result Z :=
  q <- float_value x ;; Ok (py_int q).

(** The [split] entry of the configuration as the YAML file gives it. *)
Record Split64 : Type := mkSplit64 {
  train64 : float;
  validation64 : float
}.

(** [int(samples * fraction)]. *)
Definition scaled64 (samples : nat) (fraction : float) : result Z :=
  p <- int_mul_float (Z.of_nat samples) fraction ;; float_int p.

(** [int(fraction * n_videos)]. *)
Definition sized64 (fraction : float) (n_videos : nat) : result Z :=
  p <- float_mul_int fraction (Z.of_nat n_videos) ;; float_int p.

(** Lines 120-127 of [split_dataframe]. *)
Definition split_index64 (draw : nat -> nat) (df : DataFrame) (split : Split64)
  : result SplitIndex :=
  let index := df_index df in
  let samples := length index in
  let index := random_shuffle draw index in
  train_end <- scaled64 samples (train64 split) ;;
  val_size <- scaled64 samples (validation64 split) ;;
  let val_end := (train_end + val_size)%Z in
  Ok {| train_index := py_slice index None (Some train_end);
        val_index := py_slice index (Some train_end) (Some val_end);
        test_index := py_slice index (Some val_end) None |}.

Definition split_dataframe64 (draw : nat -> nat) (df : DataFrame) (split : Split64)
  : result (DataFrame * DataFrame * DataFrame) :=
  s <- split_index64 draw df split ;;
  Ok (df_loc df (train_index s), df_loc df (val_index s), df_loc df (test_index s)).

(** A fraction that is not negative: [0.0 <= f]. *)
Definition nonneg64 (f : float) : Prop := PrimFloat.leb 0 f = true.

(** A float that is not below zero: a zero of either sign, a positive finite
    number, the positive infinity, or (for uniformity) a NaN. *)
Definition sf_nonneg (x : spec_float) : Prop :=
  match x with
  | S754_zero _ | S754_nan => True
  | S754_infinity s | S754_finite s _ _ => s = false
  end.

(** A split specification in binary64: two finite fractions that are not
    negative and whose sum, taken exactly, is at most one. *)
Definition valid_split64 (split : Split64) : Prop :=
  exists F G : Q,
    float_value (Prim2SF (train64 split)) = Ok F /\
    float_value (Prim2SF (validation64 split)) = Ok G /\
    (0 <= F)%Q /\ (0 <= G)%Q /\ (F + G <= 1)%Q.

(** ** nutrition5k/dataset.py: [create_nutrition_df] *)

Record FileSystem : Type := mkFS {
  fs_readlines : string -> option (list string);
  fs_exists : string -> bool
}.

(** The dict of three lists that [create_nutrition_df] fills. *)
Record Metadata : Type := mkMetadata {
  md_dish_id : list string;
  md_mass : list string;
  md_calories : list Z
}.

Definition empty_metadata : Metadata := mkMetadata [] [] [].

Definition frame_path (root_dir dish : string) : string :=
  let frames_path := path_join root_dir ["imagery"; "side_angles"; dish; "camera_A"] in
  path_join frames_path ["1.jpg"].

(** The body of the loop over lines; [Ok md] unchanged is the [continue]. *)
Definition read_row `{External} (fs : FileSystem) (root_dir : string)
    (md : Metadata) (line : string) : result Metadata :=
  let parts := str_split "," line in
  dish <- getitem parts 0 ;;
  if negb (fs_exists fs (frame_path root_dir dish)) then Ok md
  else
    p0 <- getitem parts 0 ;;
    let md := mkMetadata (md_dish_id md ++ [p0]) (md_mass md) (md_calories md) in
    p1 <- getitem parts 1 ;;
    c <- ext_int_float p1 ;;
    let md := mkMetadata (md_dish_id md) (md_mass md) (md_calories md ++ [c]) in
    p2 <- getitem parts 2 ;;
    Ok (mkMetadata (md_dish_id md) (md_mass md ++ [p2]) (md_calories md)).

Fixpoint read_rows `{External} (fs : FileSystem) (root_dir : string)
    (md : Metadata) (lines : list string) : result Metadata :=
  match lines with
  | [] => Ok md
  | line :: rest => md' <- read_row fs root_dir md line ;; read_rows fs root_dir md' rest
  end.

Definition read_csv `{External} (fs : FileSystem) (root_dir : string)
    (md : Metadata) (csv_file : string) : result Metadata :=
  match fs_readlines fs csv_file with
  | None => Raise (FileNotFoundError csv_file)
  | Some lines => read_rows fs root_dir md lines
  end.

Fixpoint read_csvs `{External} (fs : FileSystem) (root_dir : string)
    (md : Metadata) (csv_files : list string) : result Metadata :=
  match csv_files with
  | [] => Ok md
  | f :: rest => md' <- read_csv fs root_dir md f ;; read_csvs fs root_dir md' rest
  end.

(** [pd.DataFrame.from_dict]: columns of one length, a fresh range index. *)
Definition from_dict (md : Metadata) : result DataFrame :=
  let n := length (md_dish_id md) in
  if Nat.eqb (length (md_mass md)) n && Nat.eqb (length (md_calories md)) n then
    Ok (zip (seq 0 n)
            (zip_with (fun d mc => mkDishRow d (fst mc) (snd mc))
                      (md_dish_id md) (zip (md_mass md) (md_calories md))))
  else Raise (ValueError "All arrays must be of the same length").

Definition csv_files (root_dir : string) : list string :=
  [path_join root_dir ["metadata"; "dish_metadata_cafe1.csv"];
   path_join root_dir ["metadata"; "dish_metadata_cafe2.csv"]].

Definition create_nutrition_df `{External} (fs : FileSystem) (root_dir : string)
  : result DataFrame :=
  md <- read_csvs fs root_dir empty_metadata (csv_files root_dir) ;;
  from_dict md.

(** Every dish collected so far has its frame on disk. *)
Definition all_imaged (fs : FileSystem) (root_dir : string) (md : Metadata) : Prop :=
  Forall (fun d => fs_exists fs (frame_path root_dir d) = true) (md_dish_id md).

(** A row with fewer fields than [dish_id, calories, mass]. *)
Definition short_row (line : string) : Prop := length (str_split "," line) < 3.

Definition has_image (fs : FileSystem) (root_dir : string) (line : string) : bool :=
  match str_split "," line with
  | dish :: _ => fs_exists fs (frame_path root_dir dish)
  | [] => false
  end.

(** ** nutrition5k/dataset.py: the sample transforms *)

(** Computations that read and update the heap and may raise; an exception
    keeps the updates made before it. *)
Definition M (A : Type) : Type := World -> result A * World.

Definition ret {A : Type} (a : A) : M A := fun w => (Ok a, w).

Definition lift {A : Type} (r : result A) : M A := fun w => (r, w).

Definition mbind {A B : Type} (c : M A) (k : A -> M B) : M B :=
  fun w => match c w with
           | (inl e, w') => (inl e, w')
           | (inr a, w') => k a w'
           end.

Notation "x <~ c ;; k" := (mbind c (fun x => k))
  (at level 100, c at next level, right associativity).

(** The dict stored under an object identity. *)
Definition obj (w : World) (loc : nat) : gmap string value :=
  default ∅ (heap w !! loc).

(** [sample[key]] *)
Definition load (loc : nat) (key : string) : M value :=
  fun w => (dict_get (obj w loc) key, w).

(** [sample[key] = v] *)
Definition store (loc : nat) (key : string) (v : value) : M unit :=
  fun w => (Ok tt, mkWorld (<[loc := <[key := v]> (obj w loc)]> (heap w)) (torch_rng w)).

(** A dict display [{...}]: a new object. *)
Definition alloc (d : gmap string value) : M nat :=
  fun w => let loc := fresh (dom (heap w)) in
           (Ok loc, mkWorld (<[loc := d]> (heap w)) (torch_rng w)).

(** [torch.rand(1)] on the process-wide generator. *)
Definition torch_rand `{External} : M Q :=
  fun w => (Ok (ext_rand (torch_rng w)), mkWorld (heap w) (S (torch_rng w))).

(** Constructor arguments as Python passes them. *)
Inductive pyobj : Type :=
| PInt (n : nat)
| PTuple (xs : list nat)
| PList (xs : list nat).

Inductive Transform : Type :=
| Resize (output_size : pyobj)
| CenterCrop (output_size : nat * nat)
| RandomHorizontalFlip (probability : Q)
| RandomVerticalFlip (probability : Q)
| ToTensor
| Normalize (means stds : list Q) (mass_max calories_max : Q).

(** [Resize.__init__]: the assertion admits an int or a tuple. *)
Definition Resize_init (output_size : pyobj) : result Transform :=
  match output_size with
  | PInt _ | PTuple _ => Ok (Resize output_size)
  | PList _ => Raise AssertionError
  end.

(** [new_h, new_w = self.output_size] *)
Definition unpack2 (o : pyobj) : result (nat * nat) :=
  match o with
  | PInt _ => Raise (TypeError "cannot unpack non-iterable int object")
  | PTuple [h; w] | PList [h; w] => Ok (h, w)
  | PTuple (_ :: _ :: _ :: _) | PList (_ :: _ :: _ :: _) =>
      Raise (ValueError "too many values to unpack (expected 2)")
  | PTuple _ | PList _ => Raise (ValueError "not enough values to unpack (expected 2)")
  end.

(** [.astype('uint8')] *)
Definition to_uint8 (x : Q) : Q := inject_Z (py_int x mod 256).

Definition payload (v : value) : array :=
  match v with NDArray a | Tensor a => a end.

(** [transform.resize(image, (new_h, new_w), preserve_range=True).astype('uint8')]
    for positive [new_h] and [new_w]: an array of exactly [new_h] rows and
    [new_w] columns, the trailing axis kept. *)
Definition sk_resize `{External} (image : value) (new_h new_w : nat) : value :=
  match payload image with
  | A3 t =>
      let channels := length (hd [] (hd [] t)) in
      NDArray (A3 (map (fun i => map (fun j => map (fun c =>
                     to_uint8 (ext_resample t new_h new_w i j c))
                   (seq 0 channels)) (seq 0 new_w)) (seq 0 new_h)))
  | A2 m =>
      let t := map (map (fun x => [x])) m in
      NDArray (A2 (map (fun i => map (fun j =>
                     to_uint8 (ext_resample t new_h new_w i j 0))
                   (seq 0 new_w)) (seq 0 new_h)))
  end.

(** The call of [transform.resize]: with a target dimension of zero the
    anti-aliasing filter is handed an infinite width and raises. *)
Definition transform_resize `{External} (image : value) (new_h new_w : nat) : result value :=
  if Nat.eqb new_h 0 || Nat.eqb new_w 0 then Raise OverflowError
  else Ok (sk_resize image new_h new_w).

(** [image.transpose((2, 0, 1))] on an ndarray. *)
Definition transpose_201 (t : list (list (list Q))) : list (list (list Q)) :=
  let channels := length (hd [] (hd [] t)) in
  map (fun c => map (fun row => map (fun px => nth c px 0%Q) row) t) (seq 0 channels).

Definition np_transpose_201 (v : value) : result value :=
  match v with
  | NDArray (A3 t) => Ok (NDArray (A3 (transpose_201 t)))
  | NDArray (A2 _) => Raise (ValueError "axes don't match array")
  | Tensor _ => Raise (TypeError "transpose() received an invalid combination of arguments")
  end.

(** [torch.from_numpy] *)
Definition from_numpy (v : value) : result value :=
  match v with
  | NDArray a => Ok (Tensor a)
  | Tensor _ => Raise (TypeError "expected np.ndarray (got Tensor)")
  end.

(** [x / c], element by element; [c] is a non-zero constant. *)
Definition value_div (v : value) (c : Q) : value :=
  let scale := fun a =>
    match a with
    | A2 m => A2 (map (map (fun x => x / c)%Q) m)
    | A3 t => A3 (map (map (map (fun x => x / c)%Q)) t)
    end in
  match v with
  | NDArray a => NDArray (scale a)
  | Tensor a => Tensor (scale a)
  end.

(** [transforms.RandomHorizontalFlip(p)(img)] and its vertical twin:
    [if torch.rand(1) < p: return flip(img)]; [return img]. *)
Definition random_flip `{External} (flip : value -> result value) (p : Q) (img : value) : M value :=
  r <~ torch_rand ;;
  if Qlt_le_dec r p then lift (flip img) else ret img.

(** [t(sample)]: the returned object identity. *)
Definition call `{External} (t : Transform) (sample : nat) : M nat :=
  match t with
  | Resize output_size =>
      hw <~ lift (unpack2 output_size) ;;
      image <~ load sample "image" ;;
      resized <~ lift (transform_resize image (fst hw) (snd hw)) ;;
      _ <~ store sample "image" resized ;;
      ret sample
  | CenterCrop output_size =>
      image <~ load sample "image" ;;
      cropped <~ lift (ext_center_crop image output_size) ;;
      _ <~ store sample "image" cropped ;;
      ret sample
  | RandomHorizontalFlip p =>
      image <~ load sample "image" ;;
      flipped <~ random_flip ext_hflip p image ;;
      _ <~ store sample "image" flipped ;;
      ret sample
  | RandomVerticalFlip p =>
      image <~ load sample "image" ;;
      flipped <~ random_flip ext_vflip p image ;;
      _ <~ store sample "image" flipped ;;
      ret sample
  | ToTensor =>
      image0 <~ load sample "image" ;;
      image <~ lift (np_transpose_201 image0) ;;
      timage <~ lift (from_numpy image) ;;
      mass0 <~ load sample "mass" ;;
      tmass <~ lift (from_numpy mass0) ;;
      calories0 <~ load sample "calories" ;;
      tcalories <~ lift (from_numpy calories0) ;;
      alloc (<["image" := timage]> (<["mass" := tmass]> (<["calories" := tcalories]> ∅)))
  | Normalize means stds mass_max calories_max =>
      mass0 <~ load sample "mass" ;;
      _ <~ store sample "mass" (value_div mass0 mass_max) ;;
      calories0 <~ load sample "calories" ;;
      _ <~ store sample "calories" (value_div calories0 calories_max) ;;
      image <~ load sample "image" ;;
      normalized <~ lift (ext_normalize image means stds) ;;
      _ <~ store sample "image" normalized ;;
      ret sample
  end.

(** [torchvision.transforms.Compose]: the constructor keeps the list as given;
    calling it applies the transforms in order. *)
Record Compose : Type := mkCompose { transforms : list Transform }.

Definition Compose_init (ts : list Transform) : result Compose := Ok (mkCompose ts).

Fixpoint call_all `{External} (ts : list Transform) (sample : nat) : M nat :=
  match ts with
  | [] => ret sample
  | t :: rest => sample' <~ call t sample ;; call_all rest sample'
  end.

Definition Compose_call `{External} (c : Compose) (sample : nat) : M nat :=
  call_all (transforms c) sample.

(** Evaluating the argument list of a [Compose([...])] call: the element
    constructors run left to right, then [Compose.__init__]. *)
Fixpoint construct_all (elems : list (result Transform)) : result (list Transform) :=
  match elems with
  | [] => Ok []
  | e :: rest => t <- e ;; ts <- construct_all rest ;; Ok (t :: ts)
  end.

Definition build_pipeline (elems : list (result Transform)) : result Compose :=
  ts <- construct_all elems ;; Compose_init ts.

(** ** train.py *)

(** The names bound at the top level of [nutrition5k/dataset.py]. *)
Definition dataset_py_names : list string :=
  ["os"; "random"; "np"; "Image"; "asarray"; "pd"; "torch"; "transform";
   "Dataset"; "transforms"; "functional";
   "Resize"; "CenterCrop"; "RandomHorizontalFlip"; "RandomVerticalFlip";
   "ToTensor"; "Normalize"; "create_nutrition_df"; "split_dataframe";
   "Nutrition5kDataset"].

(** [from module import n1, n2, ...] *)
Fixpoint import_from (module_names names : list string) : result unit :=
  match names with
  | [] => Ok tt
  | n :: rest =>
      if bool_decide (n ∈ module_names) then import_from module_names rest
      else Raise (ImportError n)
  end.

(** The parameters of a function after [self]: those without a default,
    then those with one. *)
Record Signature : Type := mkSignature {
  required : list string;
  optional : list string
}.

(** [def __init__(self, dish_calories, root_dir, transform=None)] *)
Definition Nutrition5kDataset_init : Signature :=
  mkSignature ["dish_calories"; "root_dir"] ["transform"].

(** Binding the arguments of a call: [npos] positional arguments, then the
    keywords [kw]. *)
Definition bind_call (sig : Signature) (npos : nat) (kw : list string) : result unit :=
  let params := required sig ++ optional sig in
  if Nat.ltb (length params) npos then Raise (TypeError "too many positional arguments")
  else
    let by_position := take npos params in
    match filter (fun k => k ∉ params) kw with
    | k :: _ => Raise (TypeError ("got an unexpected keyword argument " ++ k))
    | [] =>
        match filter (fun k => k ∈ by_position) kw with
        | k :: _ => Raise (TypeError ("got multiple values for argument " ++ k))
        | [] =>
            match filter (fun p => p ∉ by_position ++ kw) (required sig) with
            | [] => Ok tt
            | missing =>
                Raise (TypeError ("missing required positional arguments: "
                                  ++ String.concat ", " missing))
            end
        end
    end.

Record Config : Type := mkConfig {
  dataset_dir : string;
  split : Split64;
  batch_size : nat;
  epochs : nat;
  save_best_model_only : bool
}.

(** [torch.utils.data.random_split(dataset, lengths)]; [perm] is the
    [randperm] drawn for it. Lengths that sum to 1 are read as fractions of
    the dataset: each must lie between 0 and 1 and stands for that share of
    the [n] elements (whole shares leave no remainder to hand out). Each
    subset is its list of dataset positions,
    [indices[offset - length : offset]] for the running sum [offset]. *)
Fixpoint subsets (perm : list nat) (offset : Z) (lengths : list Z) : list (list nat) :=
  match lengths with
  | [] => []
  | len :: rest =>
      let offset := (offset + len)%Z in
      py_slice perm (Some (offset - len)%Z) (Some offset) :: subsets perm offset rest
  end.

Definition random_split (perm : list nat) (n : nat) (lengths : list Z)
  : result (list (list nat)) :=
  lengths <-
    (if (fold_right Z.add 0%Z lengths =? 1)%Z then
       if existsb (fun frac => (frac <? 0)%Z || (1 <? frac)%Z) lengths
       then Raise (ValueError "Fraction is not between 0 and 1")
       else Ok (map (fun frac => (Z.of_nat n * frac)%Z) lengths)
     else Ok lengths) ;;
  if (fold_right Z.add 0%Z lengths =? Z.of_nat n)%Z then Ok (subsets perm 0%Z lengths)
  else Raise (ValueError "Sum of input lengths does not equal the length of the input dataset!").

Record DataLoader : Type := mkDataLoader {
  dl_dataset : list nat;
  dl_batch_size : nat;
  dl_shuffle : bool
}.

(** [DataLoader(dataset, batch_size=..., shuffle=...)]: a shuffling loader
    builds a [RandomSampler], which refuses an empty dataset; the batch
    sampler then refuses a batch size of zero. *)
Definition DataLoader_init (dataset : list nat) (batch_size : nat) (shuffle : bool)
  : result DataLoader :=
  if shuffle && Nat.eqb (length dataset) 0 then
    Raise (ValueError "num_samples should be a positive integer value, but got num_samples=0")
  else
    match batch_size with
    | O => Raise (ValueError "batch_size should be a positive integer value")
    | S _ => Ok (mkDataLoader dataset batch_size shuffle)
    end.

Fixpoint chunks {A : Type} (fuel k : nat) (xs : list A) : list (list A) :=
  match fuel, xs with
  | S fuel', _ :: _ => take k xs :: chunks fuel' k (drop k xs)
  | _, _ => []
  end.

(** The batches an unshuffled loader yields, in order. *)
Definition batches (dl : DataLoader) : list (list nat) :=
  chunks (length (dl_dataset dl)) (dl_batch_size dl) (dl_dataset dl).

(** The dataset positions an unshuffled loader iterates. *)
Definition iterated (dl : DataLoader) : list nat := concat (batches dl).

Record Splits : Type := mkSplits {
  train_set : list nat;
  val_set : list nat;
  test_set : list nat
}.

(** Lines 47-52. *)
Definition make_splits (config : Config) (perm : list nat) (n_videos : nat) : result Splits :=
  train_size <- sized64 (train64 (split config)) n_videos ;;
  val_size <- sized64 (validation64 (split config)) n_videos ;;
  let test_size := (Z.of_nat n_videos - train_size - val_size)%Z in
  parts <- random_split perm n_videos [train_size; val_size; test_size] ;;
  match parts with
  | [a; b; c] => Ok (mkSplits a b c)
  | _ => Raise (ValueError "not enough values to unpack (expected 3)")
  end.

(** Lines 54-61: the dict of loaders. *)
Definition make_dataloaders (config : Config) (s : Splits) : result (gmap string DataLoader) :=
  train <- DataLoader_init (train_set s) (batch_size config) true ;;
  val <- DataLoader_init (val_set s) (batch_size config) false ;;
  test <- DataLoader_init (val_set s) (batch_size config) false ;;
  Ok (<["train" := train]> (<["val" := val]> (<["test" := test]> ∅))).

(** Line 75: [torch.save(dataloaders['test'], .../test_loader.pt)]; the result
    is the directory of saved objects. *)
Definition save_test_loader (log_dir : string) (dataloaders : gmap string DataLoader)
  : result (gmap string DataLoader) :=
  loader <- match dataloaders !! "test" with
            | Some l => Ok l
            | None => Raise (KeyError "test")
            end ;;
  Ok (<[path_join log_dir ["test_loader.pt"] := loader]> ∅).

(** The loop-carried variables of lines 85-120, and the epochs at which a
    checkpoint was written. *)
Record LoopState : Type := mkLoop {
  best_val_loss : float;
  best_training_loss : float;
  checkpoints : list nat
}.

Definition loop_init : LoopState := mkLoop infinity infinity [].

(** Lines 116-120 after the two phases of [epoch] returned their average
    losses. *)
Definition epoch_end (save_best_model_only : bool) (st : LoopState) (epoch : nat)
    (training_loss val_loss : float) : LoopState :=
  let st :=
    if PrimFloat.ltb val_loss (best_val_loss st) || negb save_best_model_only
    then mkLoop val_loss (best_training_loss st) (checkpoints st ++ [epoch])
    else st in
  if PrimFloat.ltb training_loss (best_val_loss st)
  then mkLoop (best_val_loss st) training_loss (checkpoints st)
  else st.

(** The epoch loop; [history] lists, per epoch, the average training and
    validation loss that [run_epoch] returned. *)
Fixpoint epoch_loop (save_best_model_only : bool) (st : LoopState) (epoch : nat)
    (history : list (float * float)) : LoopState :=
  match history with
  | [] => st
  | (training_loss, val_loss) :: rest =>
      epoch_loop save_best_model_only
        (epoch_end save_best_model_only st epoch training_loss val_loss) (S epoch) rest
  end.

(** What [add_hparams] records at the end: best training loss, best
    validation loss. *)
Definition reported (config : Config) (history : list (float * float)) : float * float :=
  let st := epoch_loop (save_best_model_only config) loop_init 0
                       (take (epochs config) history) in
  (best_training_loss st, best_val_loss st).

(** The least value of a loss history ([inf] when empty). *)
Definition min_loss (xs : list float) : float :=
  fold_right (fun x acc => if PrimFloat.ltb x acc then x else acc) infinity xs.

(** The script from top to bottom. *)
Inductive Stage : Type :=
| AtImports | AtParseArgs | AtLoadConfig | AtDataset | AtSplit | AtLoaders
| AtSaveLoader | AtEpochLoop | AtHparams.

Record Inputs : Type := mkInputs {
  in_config : option Config;           (** the parsed configuration file, if readable *)
  in_perm : list nat;                  (** the permutation [random_split] draws *)
  in_n_videos : nat;                   (** [len(transformed_dataset)] *)
  in_log_dir : string;                 (** [tensorboard.log_dir] *)
  in_history : list (float * float)    (** the losses [run_epoch] returns *)
}.

Record Report : Type := mkReport {
  saved : gmap string DataLoader;
  hparams : float * float
}.

(** The [__main__] block: the stages entered, and the report or the first
    exception. Past the import, [Rescale] is read as the class [Resize], the
    only resize transform [dataset.py] defines. *)
Definition main (inp : Inputs) : list Stage * result Report :=
  match in_config inp with
  | None => ([AtParseArgs; AtLoadConfig], Raise (FileNotFoundError "config"))
  | Some config =>
      let dataset :=
        _ <- build_pipeline [Resize_init (PTuple [299; 299]); Ok ToTensor] ;;
        bind_call Nutrition5kDataset_init 1 ["transform"] in
      match dataset with
      | inl e => ([AtParseArgs; AtLoadConfig; AtDataset], inl e)
      | inr _ =>
          match make_splits config (in_perm inp) (in_n_videos inp) with
          | inl e => ([AtParseArgs; AtLoadConfig; AtDataset; AtSplit], inl e)
          | inr s =>
              match make_dataloaders config s with
              | inl e => ([AtParseArgs; AtLoadConfig; AtDataset; AtSplit; AtLoaders], inl e)
              | inr dataloaders =>
                  match save_test_loader (in_log_dir inp) dataloaders with
                  | inl e => ([AtParseArgs; AtLoadConfig; AtDataset; AtSplit; AtLoaders;
                               AtSaveLoader], inl e)
                  | inr files =>
                      ([AtParseArgs; AtLoadConfig; AtDataset; AtSplit; AtLoaders;
                        AtSaveLoader; AtEpochLoop; AtHparams],
                       Ok (mkReport files (reported config (in_history inp))))
                  end
              end
          end
      end
  end.

(** Line 32, then the [__main__] block. *)
Definition train_py (inp : Inputs) : list Stage * result Report :=
  match import_from dataset_py_names ["Rescale"; "ToTensor"; "Nutrition5kDataset"] with
  | inl e => ([AtImports], inl e)
  | inr _ => let '(stages, r) := main inp in (AtImports :: stages, r)
  end.

(** ** The specification's wording of the split sizes *)

(** Python's [round(x)] to an integer: nearest, ties to even. The code does not
    call it; the specification's wording of the split sizes does. *)
Definition py_round (x : Q) : Z :=
  let fl := (Qnum x / Z.pos (Qden x))%Z in
  let twice_rem := (2 * (Qnum x mod Z.pos (Qden x)))%Z in
  if (twice_rem <? Z.pos (Qden x))%Z then fl
  else if (Z.pos (Qden x) <? twice_rem)%Z then (fl + 1)%Z
  else if Z.even fl then fl else (fl + 1)%Z.

(** [round(x)] on a float. *)
Definition float_round (x : spec_float) : result Z :=
  q <- float_value x ;; Ok (py_round q).

(** [round(samples * fraction)]. *)
Definition rounded64 (samples : nat) (fraction : float) : result Z :=
  p <- int_mul_float (Z.of_nat samples) fraction ;; float_round p.


(** ** Concrete inputs *)

Definition demo_rows : DataFrame :=
  [(0, mkDishRow "D1" "100.5" 250); (1, mkDishRow "D2" "150.0" 400)].

Definition four_rows : DataFrame :=
  [(0, mkDishRow "D1" "100.5" 250); (1, mkDishRow "D2" "150.0" 400);
   (2, mkDishRow "D3" "80.0" 120); (3, mkDishRow "D4" "60.0" 90)].

(** A library double for concrete runs: [int(float(s))] on plain literals
    (digits, an optional fraction, an optional trailing newline),
    nearest-neighbour resampling, flips and normalisation of channel-first
    tensors. *)
Definition digit (c : ascii) : option Z :=
  let n := nat_of_ascii c in
  if Nat.leb 48 n && Nat.leb n 57 then Some (Z.of_nat (n - 48)) else None.

Fixpoint read_digits (s : string) (acc : Z) : Z * string :=
  match s with
  | String c rest =>
      match digit c with
      | Some d => read_digits rest (10 * acc + d)%Z
      | None => (acc, s)
      end
  | EmptyString => (acc, EmptyString)
  end.

Definition at_end (s : string) : bool :=
  String.eqb s "" || String.eqb s (String "010" "").

Definition plain_int_float (s : string) : result Z :=
  let bad := Raise (ValueError "could not convert string to float") in
  match s with
  | String c _ =>
      match digit c with
      | None => bad
      | Some _ =>
          let '(n, rest) := read_digits s 0%Z in
          match rest with
          | String "." frac =>
              if at_end (snd (read_digits frac 0%Z)) then Ok n else bad
          | _ => if at_end rest then Ok n else bad
          end
      end
  | EmptyString => bad
  end.

Definition nearest (t : list (list (list Q))) (h w i j c : nat) : Q :=
  let row := nth (i * length t / h) t [] in
  let px := nth (j * length (hd [] t) / w) row [] in
  nth c px 0%Q.

Definition crop_axis {A : Type} (k : nat) (xs : list A) : list A :=
  take k (drop ((length xs - k) / 2) xs).

Definition plain_center_crop (v : value) (size : nat * nat) : result value :=
  match v with
  | Tensor (A3 t) => Ok (Tensor (A3 (map (fun plane => map (crop_axis (snd size))
                                                          (crop_axis (fst size) plane)) t)))
  | _ => Raise (TypeError "Unexpected type")
  end.

Definition plain_hflip (v : value) : result value :=
  match v with
  | Tensor (A3 t) => Ok (Tensor (A3 (map (map (@rev Q)) t)))
  | _ => Raise (TypeError "img should be PIL Image")
  end.

Definition plain_vflip (v : value) : result value :=
  match v with
  | Tensor (A3 t) => Ok (Tensor (A3 (map (@rev (list Q)) t)))
  | _ => Raise (TypeError "img should be PIL Image")
  end.

Definition plain_normalize (v : value) (means stds : list Q) : result value :=
  match v with
  | Tensor (A3 t) =>
      Ok (Tensor (A3 (zip_with (fun plane ms =>
                        map (map (fun x => (x - fst ms) / snd ms)%Q) plane)
                      t (zip means stds))))
  | _ => Raise (TypeError "img should be Tensor Image")
  end.

Definition plain : External := {|
  ext_int_float := plain_int_float;
  ext_resample := nearest;
  ext_center_crop := plain_center_crop;
  ext_rand := fun state => (Z.of_nat (state mod 10) # 10)%Q;
  ext_hflip := plain_hflip;
  ext_vflip := plain_vflip;
  ext_normalize := plain_normalize
|}.

Definition newline : string := String "010" "".

(** A dataset root [data] whose first metadata file holds [rows] and whose
    second is empty; the dishes in [imaged] have their frame on disk. *)
Definition fs_of (rows : list string) (imaged : list string) : FileSystem :=
  mkFS (fun p => if String.eqb p "data/metadata/dish_metadata_cafe1.csv" then Some rows
                 else if String.eqb p "data/metadata/dish_metadata_cafe2.csv" then Some []
                 else None)
       (fun p => bool_decide (p ∈ map (frame_path "data") imaged)).

Definition two_dishes : list string :=
  [("D1,250.0,100.5" ++ newline)%string; ("D2,400.0,150.0" ++ newline)%string].

Definition short_line : string := ("D9,250.0" ++ newline)%string.

Definition unimaged_line : string := ("D3,10.0,5.0" ++ newline)%string.

Definition short_fs : FileSystem := fs_of (two_dishes ++ [short_line]) ["D1"; "D2"; "D9"].

Definition unimaged_fs : FileSystem := fs_of (two_dishes ++ [unimaged_line]) ["D1"; "D2"].

(** Ten records split 0.6 / 0.2 in batches of two, best-only checkpoints. *)
Definition ten_config : Config :=
  mkConfig "data" (mkSplit64 0.6 0.2) 2 2 true.

Definition every_epoch_config : Config :=
  mkConfig "data" (mkSplit64 0.6 0.2) 2 2 false.

Definition ten_splits : Splits :=
  mkSplits [0; 1; 2; 3; 4; 5] [6; 7] [8; 9].

(** Two epochs: training loss 1 then 5 under a validation loss of 10. *)
Definition rising_training : list (float * float) :=
  [(1%float, 10%float); (5%float, 10%float)].

(** Two epochs: validation loss 1 then 2 under a training loss of 1. *)
Definition rising_validation : list (float * float) :=
  [(1%float, 1%float); (1%float, 2%float)].

(** The keys a transform's [__call__] assigns in the sample it is given. *)
Definition assigned (t : Transform) : list string :=
  match t with
  | Resize _ | CenterCrop _ | RandomHorizontalFlip _ | RandomVerticalFlip _ => ["image"]
  | Normalize _ _ _ _ => ["mass"; "calories"; "image"]
  | ToTensor => []
  end.

(** The draws a transform takes from the process-wide generator. *)
Definition draws (t : Transform) : nat :=
  match t with
  | RandomHorizontalFlip _ | RandomVerticalFlip _ => 1
  | _ => 0
  end.

(** [w'] differs from [w] at most in the keys [keys] of the dict [sample]
    and in [n] draws from the generator. *)
Definition only_assigns (keys : list string) (sample n : nat) (w w' : World) : Prop :=
  torch_rng w' = torch_rng w + n /\
  (forall loc, loc <> sample -> heap w' !! loc = heap w !! loc) /\
  (forall k, k ∉ keys -> obj w' sample !! k = obj w sample !! k) /\
  (is_Some (heap w !! sample) -> is_Some (heap w' !! sample)).

(** What holds of the value and heap a computation returns, if it returns. *)
Definition post {A : Type} (c : M A) (w : World) (Q : A -> World -> Prop) : Prop :=
  forall a w', c w = (Ok a, w') -> Q a w'.

(** Section 4.4: a transform returns a new sample and leaves the one it was
    given as it was. *)
Definition spec_pure `{External} (t : Transform) : Prop :=
  forall (w w' : World) (sample out : nat),
    is_Some (heap w !! sample) ->
    call t sample w = (Ok out, w') ->
    out <> sample /\ heap w' !! sample = heap w !! sample.

(** Section 4.4: [ToTensor] precedes every [Normalize]. *)
Fixpoint spec_ordered (seen_to_tensor : bool) (ts : list Transform) : bool :=
  match ts with
  | [] => true
  | ToTensor :: rest => spec_ordered true rest
  | Normalize _ _ _ _ :: rest => seen_to_tensor && spec_ordered seen_to_tensor rest
  | _ :: rest => spec_ordered seen_to_tensor rest
  end.

(** Section 4.4: a misordered pipeline fails at construction with
    [PipelineOrderError]. *)
Definition spec_order_checked (ts : list Transform) (outcome : result Compose) : Prop :=
  spec_ordered false ts = false ->
  exists e, outcome = Raise e /\ exn_name e = "PipelineOrderError".

(** A raw sample as [__getitem__] builds it: a [2 x 2 x 3] image and two
    [1 x 1] targets, stored as object 0. *)
Definition raw_image : list (list (list Q)) :=
  [[[10; 20; 30]; [40; 50; 60]]; [[70; 80; 90]; [100; 110; 120]]]%Q.

Definition raw_sample : gmap string value :=
  <["image" := NDArray (A3 raw_image)]>
    (<["mass" := NDArray (A2 [[(201#2)%Q]])]>
       (<["calories" := NDArray (A2 [[250%Q]])]> ∅)).

Definition raw_world : World := mkWorld (<[0 := raw_sample]> ∅) 0.

Definition misordered : list Transform :=
  [Normalize [0; 0; 0]%Q [1; 1; 1]%Q 1000 4000; ToTensor].

(** Section 4.1 on a row with the wrong column count: the build either
    fails with [ParseError] (strict) or goes on without the row (lenient). *)
Definition spec_malformed_row_policy (outcome : result DataFrame) : Prop :=
  (exists e, outcome = Raise e /\ exn_name e = "ParseError") \/
  (exists df, outcome = Ok df).


(** ** Reading the index back *)

(** The rows held by the three lists of [dish_metadata], position by
    position, as [from_dict] lays them out. *)
Definition md_rows (md : Metadata) : list DishRow :=
  zip_with (fun d mc => mkDishRow d (fst mc) (snd mc))
           (md_dish_id md) (zip (md_mass md) (md_calories md)).

(** The three lists have one length. *)
Definition md_aligned (md : Metadata) : Prop :=
  length (md_mass md) = length (md_dish_id md) /\
  length (md_calories md) = length (md_dish_id md).

(** The record that a line of three or more fields yields once its
    calories convert. *)
Definition line_record `{External} (line : string) : option DishRow :=
  match str_split "," line with
  | d :: p1 :: p2 :: _ =>
      match ext_int_float p1 with
      | inr c => Some (mkDishRow d p2 c)
      | inl _ => None
      end
  | _ => None
  end.


Definition three_rows : DataFrame :=
  [(0, mkDishRow "D1" "100.5" 250); (1, mkDishRow "D2" "150.0" 400);
   (2, mkDishRow "D3" "80.0" 120)].


Definition two_samples : World :=
  mkWorld (<[1 := raw_sample]> (<[0 := raw_sample]> ∅)) 0.


(** ** nutrition5k/dataset.py: [Nutrition5kDataset] *)

(** Decoding done by PIL and numpy. *)
Class Decoders : Type := {
  (** [asarray(Image.open(path))] *)
  dec_image : string -> result array;
  (** the float a string converts to under [astype('float')] *)
  dec_float : string -> result Q
}.

(** [df.iloc[idx]]: a row by position, negative positions counting from the
    end. *)
Definition iloc (df : DataFrame) (idx : Z) : result DishRow :=
  let n := Z.of_nat (length df) in
  if ((idx <? - n) || (n <=? idx))%Z then Raise IndexError
  else
    let pos := if (idx <? 0)%Z then (idx + n)%Z else idx in
    match df !! Z.to_nat pos with
    | Some (_, row) => Ok row
    | None => Raise IndexError
    end.

Module Nutrition5kDataset.

Record t : Type := new {
  dish_calories : DataFrame;
  root_dir : string;
  transform : option Compose
}.

(** [__len__] *)
Definition len (self : t) : nat := length (dish_calories self).

(** [__getitem__] for an integer index: the identity of the sample built. *)
Definition getitem `{External} `{Decoders} (self : t) (idx : Z) : M nat :=
  row <~ lift (iloc (dish_calories self) idx) ;;
  let frame := frame_path (root_dir self) (dish_id row) in
  image <~ lift (dec_image frame) ;;
  row <~ lift (iloc (dish_calories self) idx) ;;
  mass1 <~ lift (dec_float (mass row)) ;;
  row <~ lift (iloc (dish_calories self) idx) ;;
  let calories1 := inject_Z (calories row) in
  sample <~ alloc (<["image" := NDArray image]>
                     (<["mass" := NDArray (A2 [[mass1]])]>
                        (<["calories" := NDArray (A2 [[calories1]])]> ∅))) ;;
  match transform self with
  | Some c => Compose_call c sample
  | None => ret sample
  end.

End Nutrition5kDataset.

(** A decoding double: every frame decodes to [raw_image]; plain literals
    convert to the rational they spell. *)
Definition plain_float (s : string) : result Q :=
  let bad := Raise (ValueError "could not convert string to float") in
  match s with
  | String c _ =>
      match digit c with
      | None => bad
      | Some _ =>
          let '(n, rest) := read_digits s 0%Z in
          match rest with
          | String "." frac =>
              let '(m, rest') := read_digits frac 0%Z in
              let k := String.length frac - String.length rest' in
              if at_end rest'
              then Ok (inject_Z n + (m # Pos.of_nat (10 ^ k)))%Q
              else bad
          | _ => if at_end rest then Ok (inject_Z n) else bad
          end
      end
  | EmptyString => bad
  end.

Definition plain_decoders : Decoders := {|
  dec_image := fun _ => Ok (A3 raw_image);
  dec_float := plain_float
|}.

Definition demo_dataset : Nutrition5kDataset.t :=
  Nutrition5kDataset.new demo_rows "data" None.

Definition demo_dataset_resized : Nutrition5kDataset.t :=
  Nutrition5kDataset.new demo_rows "data"
    (Some (mkCompose [Resize (PTuple [1; 1]); ToTensor])).


(** The training loss of the last epoch whose training loss was below its
    own validation loss, [init] if there is none. *)
Definition last_training_below_validation (history : list (float * float)) (init : float)
  : float :=
  fold_left (fun acc tv => if PrimFloat.ltb (fst tv) (snd tv) then fst tv else acc)
            history init.

Definition three_epochs : list (float * float) :=
  [(3%float, 4%float); (5%float, 2%float); (1%float, 6%float)].


Definition grey_world : World :=
  mkWorld (<[0 := <["image" := NDArray (A2 [[10; 20]; [30; 40]]%Q)]> raw_sample]> ∅) 0.


(** ** The specification's wording of the image file *)

(** Section 4.1: the expected image of a dish, under the dataset root. *)
Definition spec_image_file (root_dir dish : string) : string :=
  (root_dir ++ "/imagery/side_angles/" ++ dish ++ "/camera_A/1.jpg")%string.

(** Section 4.1: every record of a finished index has its image at that
    place. *)
Definition spec_images_under_root `{External} (fs : FileSystem) (root_dir : string) : Prop :=
  forall df, create_nutrition_df fs root_dir = Ok df ->
  forall i row, (i, row) ∈ df -> fs_exists fs (spec_image_file root_dir (dish_id row)) = true.

(** A path component that [os.path.join] appends after a single separator:
    not empty, no separator at either end. *)
Definition plain_name (s : string) : Prop :=
  s <> "" /\ startswith_sep s = false /\ endswith_sep s = false.

(** A dataset root: not empty, no trailing separator. *)
Definition plain_root (s : string) : Prop :=
  s <> "" /\ endswith_sep s = false.

(** A metadata row whose dish id is an absolute path; the only image on disk
    is the one under that path. *)
Definition absolute_line : string := ("/tmp/x,250.0,100.5" ++ newline)%string.

Definition absolute_fs : FileSystem :=
  mkFS (fun p => if String.eqb p "data/metadata/dish_metadata_cafe1.csv" then Some [absolute_line]
                 else if String.eqb p "data/metadata/dish_metadata_cafe2.csv" then Some []
                 else None)
       (fun p => String.eqb p "/tmp/x/camera_A/1.jpg").

(** A dataset root whose second metadata file ends in a two-field row. *)
Definition short_second_fs : FileSystem :=
  mkFS (fun p => if String.eqb p "data/metadata/dish_metadata_cafe1.csv" then Some two_dishes
                 else if String.eqb p "data/metadata/dish_metadata_cafe2.csv"
                      then Some [short_line]
                 else None)
       (fun p => bool_decide (p ∈ map (frame_path "data") ["D1"; "D2"; "D9"])).

(** ** What the transforms assign *)

(** What an in-place transform leaves in the dict [d] it was given; [rng] is
    the state of the generator at the call. *)
Definition assigned_values `{External} (t : Transform) (rng : nat) (d d' : gmap string value)
  : Prop :=
  match t with
  | Resize output_size =>
      exists new_h new_w image,
        unpack2 output_size = Ok (new_h, new_w) /\ d !! "image" = Some image /\
        0 < new_h /\ 0 < new_w /\
        d' = <["image" := sk_resize image new_h new_w]> d
  | CenterCrop output_size =>
      exists image cropped,
        d !! "image" = Some image /\ ext_center_crop image output_size = Ok cropped /\
        d' = <["image" := cropped]> d
  | RandomHorizontalFlip p =>
      exists image flipped,
        d !! "image" = Some image /\
        (if Qlt_le_dec (ext_rand rng) p then ext_hflip image = Ok flipped
         else flipped = image) /\
        d' = <["image" := flipped]> d
  | RandomVerticalFlip p =>
      exists image flipped,
        d !! "image" = Some image /\
        (if Qlt_le_dec (ext_rand rng) p then ext_vflip image = Ok flipped
         else flipped = image) /\
        d' = <["image" := flipped]> d
  | ToTensor => d' = d
  | Normalize means stds mass_max calories_max =>
      exists mass0 calories0 image normalized,
        d !! "mass" = Some mass0 /\ d !! "calories" = Some calories0 /\
        d !! "image" = Some image /\
        ext_normalize image means stds = Ok normalized /\
        d' = <["image" := normalized]>
               (<["calories" := value_div calories0 calories_max]>
                  (<["mass" := value_div mass0 mass_max]> d))
  end.

(** The sample [ToTensor] builds from the dict [d]. *)
Definition tensor_sample (d d' : gmap string value) : Prop :=
  exists t m c,
    d !! "image" = Some (NDArray (A3 t)) /\
    d !! "mass" = Some (NDArray m) /\
    d !! "calories" = Some (NDArray c) /\
    d' = <["image" := Tensor (A3 (transpose_201 t))]>
           (<["mass" := Tensor m]> (<["calories" := Tensor c]> ∅)).


(** ** Slices, swaps and the shuffle *)

Lemma slice_bound_nonneg (n : nat) (i : Z) :
  (0 <= i)%Z -> slice_bound n i = Z.to_nat i `min` n.
Proof.
  intros Hi. unfold slice_bound.
  destruct (Z.ltb_spec i 0); [lia|]. lia.
Qed.

Lemma py_slice_prefix {A : Type} (xs : list A) (a : Z) :
  (0 <= a)%Z -> py_slice xs None (Some a) = take (Z.to_nat a) xs.
Proof.
  intros Ha. unfold py_slice. rewrite slice_bound_nonneg by done.
  rewrite drop_0, Nat.sub_0_r.
  destruct (decide (Z.to_nat a <= length xs)) as [Hle|Hgt].
  - by rewrite Nat.min_l.
  - rewrite Nat.min_r by lia. by rewrite !take_ge by lia.
Qed.

Lemma py_slice_middle {A : Type} (xs : list A) (a b : Z) :
  (0 <= a <= b)%Z ->
  py_slice xs (Some a) (Some b) = take (Z.to_nat b - Z.to_nat a) (drop (Z.to_nat a) xs).
Proof.
  intros Hab. unfold py_slice. rewrite !slice_bound_nonneg by lia.
  destruct (decide (Z.to_nat a <= length xs)) as [Ha|Ha].
  - rewrite (Nat.min_l (Z.to_nat a)) by lia.
    destruct (decide (Z.to_nat b <= length xs)) as [Hb|Hb].
    + by rewrite Nat.min_l.
    + rewrite Nat.min_r by lia.
      rewrite !take_ge; [done| |]; rewrite length_drop; lia.
  - rewrite !Nat.min_r by lia. rewrite Nat.sub_diag.
    rewrite !drop_ge by lia. by rewrite !take_nil.
Qed.

Lemma py_slice_suffix {A : Type} (xs : list A) (b : Z) :
  (0 <= b)%Z -> py_slice xs (Some b) None = drop (Z.to_nat b) xs.
Proof.
  intros Hb. unfold py_slice. rewrite slice_bound_nonneg by done.
  destruct (decide (Z.to_nat b <= length xs)) as [Hle|Hgt].
  - rewrite Nat.min_l by lia. apply take_ge. rewrite length_drop. lia.
  - rewrite Nat.min_r by lia. rewrite Nat.sub_diag, take_0.
    by rewrite drop_ge by lia.
Qed.


Lemma swap_perm {A : Type} (x : list A) (i j : nat) : swap x i j ≡ₚ x.
Proof.
  unfold swap.
  destruct (x !! i) as [a|] eqn:Hi; [|done].
  destruct (x !! j) as [b|] eqn:Hj; [|done].
  by apply Permutation_insert_swap.
Qed.

Lemma shuffle_from_perm {A : Type} (draw : nat -> nat) (i : nat) (x : list A) :
  shuffle_from draw i x ≡ₚ x.
Proof.
  revert x. induction i as [|i IH]; intros x; simpl; [done|].
  rewrite IH. apply swap_perm.
Qed.

Lemma random_shuffle_perm {A : Type} (draw : nat -> nat) (x : list A) :
  random_shuffle draw x ≡ₚ x.
Proof. apply shuffle_from_perm. Qed.

(** ** The shuffle reaches every order, each in one way *)

Lemma swap_length {A : Type} (x : list A) (i j : nat) : length (swap x i j) = length x.
Proof.
  unfold swap. destruct (x !! i), (x !! j); try done.
  by rewrite !length_insert.
Qed.

Lemma swap_lookup_other {A : Type} (x : list A) (i j k : nat) :
  k <> i -> k <> j -> swap x i j !! k = x !! k.
Proof.
  intros Hi Hj. unfold swap. destruct (x !! i), (x !! j); try done.
  by rewrite !list_lookup_insert_ne by done.
Qed.

Lemma swap_lookup_l {A : Type} (x : list A) (i j : nat) :
  i < length x -> j < length x -> swap x i j !! i = x !! j.
Proof.
  intros Hi Hj. unfold swap.
  destruct (lookup_lt_is_Some_2 x i Hi) as [a Ha].
  destruct (lookup_lt_is_Some_2 x j Hj) as [b Hb].
  rewrite Ha, Hb. destruct (decide (i = j)) as [->|Hne].
  - rewrite list_lookup_insert_eq by (by rewrite length_insert). congruence.
  - rewrite list_lookup_insert_ne by done.
    by rewrite list_lookup_insert_eq.
Qed.

Lemma shuffle_from_length {A : Type} (draw : nat -> nat) (i : nat) (x : list A) :
  length (shuffle_from draw i x) = length x.
Proof.
  revert x. induction i as [|i IH]; intros x; simpl; [done|].
  by rewrite IH, swap_length.
Qed.

Lemma shuffle_from_lookup_above {A : Type} (draw : nat -> nat) (i k : nat) (x : list A) :
  i < k -> shuffle_from draw i x !! k = x !! k.
Proof.
  revert x. induction i as [|i IH]; intros x Hk; cbn [shuffle_from]; [done|].
  rewrite IH by lia. apply swap_lookup_other; [lia|].
  pose proof (Nat.mod_upper_bound (draw (S i)) (S i + 1)). lia.
Qed.

Lemma shuffle_from_lookup_top {A : Type} (draw : nat -> nat) (i : nat) (x : list A) :
  S i < length x ->
  shuffle_from draw (S i) x !! S i = x !! (draw (S i) mod (S i + 1)).
Proof.
  intros Hi. cbn [shuffle_from]. rewrite shuffle_from_lookup_above by lia.
  apply swap_lookup_l; [done|].
  pose proof (Nat.mod_upper_bound (draw (S i)) (S i + 1)). lia.
Qed.






(** ** Truncated products *)



(** ** Signs of binary64 products *)

Lemma binary_round_aux_sign (sx : bool) (mx ex : Z) (lx : location) :
  match binary_round_aux prec emax sx mx ex lx with
  | S754_zero s | S754_infinity s | S754_finite s _ _ => s = sx
  | S754_nan => True
  end.
Proof.
  unfold binary_round_aux.
  destruct (shr_fexp prec emax mx ex lx) as [mrs' e'].
  destruct (shr_fexp prec emax _ e' loc_Exact) as [mrs'' e''].
  destruct (shr_m mrs''); [done| |done].
  by destruct (Z.leb e'' (emax - prec)).
Qed.

Lemma float_of_int_nonneg (n : nat) (x : spec_float) :
  float_of_int (Z.of_nat n) = Ok x -> sf_nonneg x.
Proof.
  unfold float_of_int, binary_normalize.
  destruct (Z.of_nat n) as [|m|m] eqn:Hn; [by intros [= <-]| |lia].
  unfold binary_round.
  destruct (shl_align m 0 _) as [mz ez].
  pose proof (binary_round_aux_sign false (Z.pos mz) ez loc_Exact) as Hs.
  destruct (binary_round_aux prec emax false (Z.pos mz) ez loc_Exact);
    intros [= <-]; done.
Qed.

Lemma nonneg64_sign (f : float) : nonneg64 f -> sf_nonneg (Prim2SF f).
Proof.
  unfold nonneg64. rewrite leb_spec.
  change (Prim2SF 0) with (S754_zero false).
  unfold SFleb, SFcompare.
  destruct (Prim2SF f) as [s|s| |s m e]; simpl; try done; by destruct s.
Qed.

Lemma SFmul_nonneg (x y : spec_float) :
  sf_nonneg x -> sf_nonneg y -> sf_nonneg (SFmul prec emax x y).
Proof.
  destruct x as [sx|sx| |sx mx ex], y as [sy|sy| |sy my ey]; simpl; try done;
    try (by intros -> ->); try (by intros ->); try (by intros _ ->).
  intros -> ->.
  pose proof (binary_round_aux_sign (xorb false false) (Z.pos (mx * my)) (ex + ey) loc_Exact) as Hs.
  by destruct (binary_round_aux _ _ _ _ _ _).
Qed.

Lemma float_int_nonneg (x : spec_float) (a : Z) :
  sf_nonneg x -> float_int x = Ok a -> (0 <= a)%Z.
Proof.
  unfold float_int, float_value.
  destruct x as [s|s| |s m e]; simpl; try discriminate.
  - by intros _ [= <-].
  - intros -> [= <-]. unfold py_int.
    destruct e as [|k|k]; simpl; apply Z.quot_pos; lia.
Qed.

Lemma scaled64_nonneg (n : nat) (f : float) (a : Z) :
  nonneg64 f -> scaled64 n f = Ok a -> (0 <= a)%Z.
Proof.
  intros Hf. unfold scaled64, int_mul_float.
  destruct (float_of_int (Z.of_nat n)) as [e|x] eqn:Hx; [discriminate|].
  cbn [bind Ok]. apply float_int_nonneg, SFmul_nonneg; [|by apply nonneg64_sign].
  by eapply float_of_int_nonneg.
Qed.

(** The product of a float and an int does not depend on the order of the
    factors. *)
Lemma SFmul_comm (x y : spec_float) : SFmul prec emax x y = SFmul prec emax y x.
Proof.
  destruct x as [sx|sx| |sx mx ex], y as [sy|sy| |sy my ey]; simpl;
    try done; try (by rewrite xorb_comm).
  by rewrite xorb_comm, Pos.mul_comm, Z.add_comm.
Qed.

Lemma sized64_scaled64 (f : float) (n : nat) : sized64 f n = scaled64 n f.
Proof.
  unfold sized64, scaled64, float_mul_int, int_mul_float.
  destruct (float_of_int (Z.of_nat n)) as [e|x]; [done|].
  cbn [bind Ok]. by rewrite SFmul_comm.
Qed.

Example scaled64_samples :
  scaled64 50 0.58 = Ok 28%Z /\ scaled64 10 0.7 = Ok 7%Z /\ scaled64 4 0.7 = Ok 2%Z /\
  scaled64 3 0.3333333333333333 = Ok 1%Z /\
  scaled64 2 1e308 = Raise OverflowError /\
  rounded64 4 0.7 = Ok 3%Z.
Proof. repeat split; vm_compute; reflexivity. Qed.

(** ** Rounding of binary64 products *)

Section Rounding.
Local Open Scope Z_scope.

Lemma iter_pos_nat {A : Type} (f : A -> A) (p : positive) (x : A) :
  SpecFloat.iter_pos f p x = Nat.iter (Pos.to_nat p) f x.
Proof.
  revert x. induction p as [p IH|p IH|]; intros x; cbn [SpecFloat.iter_pos].
  - rewrite !IH, Pos2Nat.inj_xI.
    replace (S (2 * Pos.to_nat p))%nat with (Pos.to_nat p + S (Pos.to_nat p))%nat by lia.
    rewrite Nat.iter_add, Nat.iter_succ_r. reflexivity.
  - rewrite !IH, Pos2Nat.inj_xO.
    replace (2 * Pos.to_nat p)%nat with (Pos.to_nat p + Pos.to_nat p)%nat by lia.
    rewrite Nat.iter_add. reflexivity.
  - reflexivity.
Qed.

Lemma shr_1_nonneg (m : Z) (r s : bool) :
  0 <= m ->
  shr_1 (Build_shr_record m r s) = Build_shr_record (m / 2) (Z.odd m) (r || s).
Proof.
  intros Hm. rewrite <- Z.div2_div.
  destruct m as [|p|p]; [reflexivity| |lia].
  destruct p; reflexivity.
Qed.

(** [k + 1] shifts divide the mantissa by [2^(k+1)]; the round bit is the
    last bit shifted out. *)
Lemma iter_shr_1 (k : nat) (m : Z) (r s : bool) :
  0 <= m ->
  shr_m (Nat.iter (S k) shr_1 (Build_shr_record m r s)) = m / 2 ^ Z.of_nat (S k) /\
  shr_r (Nat.iter (S k) shr_1 (Build_shr_record m r s)) = Z.odd (m / 2 ^ Z.of_nat k).
Proof.
  intros Hm. induction k as [|k [IHm IHr]].
  - change (Nat.iter 1 shr_1 (Build_shr_record m r s))
      with (shr_1 (Build_shr_record m r s)).
    rewrite shr_1_nonneg by done. cbn [shr_m shr_r].
    change (2 ^ Z.of_nat 1) with 2. change (2 ^ Z.of_nat 0) with 1.
    by rewrite Z.div_1_r.
  - change (Nat.iter (S (S k)) shr_1 (Build_shr_record m r s))
      with (shr_1 (Nat.iter (S k) shr_1 (Build_shr_record m r s))).
    destruct (Nat.iter (S k) shr_1 (Build_shr_record m r s)) as [q r' s'].
    simpl in IHm, IHr. subst q.
    rewrite shr_1_nonneg by (apply Z.div_pos; lia). simpl shr_m. simpl shr_r.
    split; [|reflexivity].
    rewrite Z.div_div by lia. f_equal.
    rewrite (Nat2Z.inj_succ (S k)), Z.pow_succ_r by lia. lia.
Qed.

Lemma round_nearest_even_bound (q : Z) (r s : bool) :
  let m1 := round_nearest_even q (loc_of_shr_record (Build_shr_record q r s)) in
  (r = false -> m1 = q) /\ q <= m1 <= q + 1.
Proof.
  destruct r, s; simpl; try destruct (Z.even q); split; (done || lia || intros; lia).
Qed.

(** The first shift of [binary_round_aux] and the rounding after it. *)
Lemma shr_fexp_round (m : positive) (e : Z) (mrs : shr_record) (e' : Z) :
  shr_fexp prec emax (Z.pos m) e loc_Exact = (mrs, e') ->
  let m1 := round_nearest_even (shr_m mrs) (loc_of_shr_record mrs) in
  let E := fexp prec emax (Z.pos (digits2_pos m) + e) in
  (E <= e -> e' = e /\ m1 = Z.pos m) /\
  (e < E -> e' = E /\ 0 <= m1 <= Z.pos m / 2 ^ (E - e) + 1 /\
            2 * m1 * 2 ^ (E - e) <= 2 * Z.pos m + 2 ^ (E - e)).
Proof.
  unfold shr_fexp, shr. cbn [Zdigits2 shr_record_of_loc].
  set (E := fexp prec emax (Z.pos (digits2_pos m) + e)).
  destruct (E - e) as [|p|p] eqn:Hk.
  - intros [= <- <-]. cbv zeta. split; [intros _; split; reflexivity|lia].
  - rewrite iter_pos_nat.
    destruct (Pos2Nat.is_succ p) as [k Hp]. rewrite Hp.
    destruct (iter_shr_1 k (Z.pos m) false false ltac:(lia)) as [Hq Hr].
    destruct (Nat.iter (S k) shr_1 (Build_shr_record (Z.pos m) false false)) as [q r s].
    cbn [shr_m shr_r] in Hq, Hr.
    intros [= <- <-]. cbv zeta. split; [lia|]. intros _.
    split; [lia|]. cbn [shr_m].
    destruct (round_nearest_even_bound q r s) as [Hexact Hbound]. cbv zeta in *.
    assert (Hpk : Z.pos p = Z.of_nat (S k)) by lia.
    rewrite Hpk in *.
    assert (Hpow : 2 ^ Z.of_nat (S k) = 2 * 2 ^ Z.of_nat k)
      by (rewrite Nat2Z.inj_succ, Z.pow_succ_r by lia; reflexivity).
    assert (Hpos : 0 < 2 ^ Z.of_nat k) by (apply Z.pow_pos_nonneg; lia).
    assert (Hq0 : 0 <= q) by (subst q; apply Z.div_pos; lia).
    pose proof (Z.mul_div_le (Z.pos m) (2 ^ Z.of_nat (S k)) ltac:(lia)) as Hfloor.
    rewrite <- Hq in Hfloor.
    split; [lia|].
    destruct r.
    + (* the bit shifted out last is set *)
      symmetry in Hr. apply Z.odd_spec in Hr as [h Hh].
      pose proof (Z.mul_div_le (Z.pos m) (2 ^ Z.of_nat k) ltac:(lia)) as Hfl.
      assert (Hqh : q = h).
      { subst q.
        replace (Z.pos m / 2 ^ Z.of_nat (S k)) with (Z.pos m / 2 ^ Z.of_nat k / 2)
          by (rewrite Z.div_div by lia; f_equal; lia).
        rewrite Hh, (Z.mul_comm 2 h), Z.div_add_l by lia.
        change (1 / 2) with 0. lia. }
      nia.
    + rewrite (Hexact eq_refl). nia.
  - intros [= <- <-]. cbv zeta. split; [intros _; split; reflexivity|lia].
Qed.

(** The second shift is exact or loses low bits. *)
Lemma shr_fexp_floor (m1 e' : Z) (mrs : shr_record) (e'' : Z) :
  0 <= m1 ->
  shr_fexp prec emax m1 e' loc_Exact = (mrs, e'') ->
  0 <= shr_m mrs /\ e' <= e'' /\ shr_m mrs * 2 ^ (e'' - e') <= m1 /\
  (e'' = e' \/ e'' = fexp prec emax (Zdigits2 m1 + e')).
Proof.
  intros Hm1. unfold shr_fexp, shr. cbn [shr_record_of_loc].
  set (E := fexp prec emax (Zdigits2 m1 + e')).
  destruct (E - e') as [|p|p] eqn:Hk.
  - intros [= <- <-]. cbn [shr_m]. rewrite Z.sub_diag. simpl. lia.
  - rewrite iter_pos_nat.
    destruct (Pos2Nat.is_succ p) as [k Hp]. rewrite Hp.
    destruct (iter_shr_1 k m1 false false Hm1) as [Hq _].
    destruct (Nat.iter (S k) shr_1 (Build_shr_record m1 false false)) as [q r s].
    cbn [shr_m] in Hq.
    intros [= <- <-]. cbn [shr_m]. rewrite Hq.
    assert (Hpk : Z.pos p = Z.of_nat (S k)) by lia.
    replace (e' + Z.pos p - e') with (Z.of_nat (S k)) by lia.
    assert (Hpos : 0 < 2 ^ Z.of_nat (S k)) by (apply Z.pow_pos_nonneg; lia).
    split; [apply Z.div_pos; lia|]. split; [lia|]. split; [|right; lia].
    rewrite Z.mul_comm. apply Z.mul_div_le. lia.
  - intros [= <- <-]. cbn [shr_m]. rewrite Z.sub_diag. simpl. lia.
Qed.

Lemma digits2_pos_size (p : positive) : digits2_pos p = Pos.size p.
Proof. induction p as [p IH|p IH|]; simpl; by rewrite ?IH. Qed.

(** A mantissa of [d] digits lies in [[2^(d-1), 2^d)]. *)
Lemma digits2_pos_bounds (p : positive) :
  2 ^ (Z.pos (digits2_pos p) - 1) <= Z.pos p < 2 ^ Z.pos (digits2_pos p).
Proof.
  rewrite digits2_pos_size.
  pose proof (Pos.size_gt p) as Hgt. pose proof (Pos.size_le p) as Hle.
  apply Pos2Z.pos_lt_pos in Hgt. apply Pos2Z.pos_le_pos in Hle.
  rewrite Pos2Z.inj_pow in Hgt, Hle.
  replace (Z.pos (Pos.size p)) with (Z.succ (Z.pos (Pos.size p) - 1)) in Hle at 1 by lia.
  rewrite Z.pow_succ_r in Hle by lia. lia.
Qed.

Lemma Zdigits2_le (x j : Z) : 0 <= j -> 0 <= x <= 2 ^ j -> Zdigits2 x <= j + 1.
Proof.
  intros Hj [Hx0 Hx]. destruct x as [|p|p]; simpl; [lia| |lia].
  pose proof (digits2_pos_bounds p) as [Hlo _].
  assert (Hpow : 2 ^ (Z.pos (digits2_pos p) - 1) <= 2 ^ j) by lia.
  apply Z.pow_le_mono_r_iff in Hpow; lia.
Qed.

(** The rounding of a small exact product: the result is a zero or a finite
    number whose mantissa, scaled back, exceeds the exact one by at most a
    quarter of a unit. *)
Lemma binary_round_aux_small (m : positive) (e : Z) :
  Z.pos (digits2_pos m) + e <= 52 ->
  binary_round_aux prec emax false (Z.pos m) e loc_Exact = S754_zero false \/
  exists m2 e2,
    binary_round_aux prec emax false (Z.pos m) e loc_Exact = S754_finite false m2 e2 /\
    e <= e2 /\
    2 * Z.pos m2 * 2 ^ (e2 - e) <= 2 * Z.pos m + (if e <? -1 then 2 ^ (-1 - e) else 0).
Proof.
  intros Hsmall. unfold binary_round_aux.
  destruct (shr_fexp prec emax (Z.pos m) e loc_Exact) as [mrs1 e1] eqn:H1.
  pose proof (shr_fexp_round m e mrs1 e1 H1) as [Hstay Hshift]. cbv zeta in Hstay, Hshift.
  set (m1 := round_nearest_even (shr_m mrs1) (loc_of_shr_record mrs1)) in *.
  set (d := Z.pos (digits2_pos m)) in *.
  pose proof (digits2_pos_bounds m) as [Hdlo Hdhi]. fold d in Hdlo, Hdhi.
  assert (Hd : 1 <= d) by (unfold d; lia).
  set (E := fexp prec emax (d + e)) in *.
  assert (HE : E = Z.max (d + e - 53) (-1074)) by reflexivity.
  assert (Hdm : Zdigits2 (Z.pos m) = d) by reflexivity.
  clearbody E d.
  assert (Hfacts : 0 <= m1 /\ e <= e1 <= 51 /\ Zdigits2 m1 + e1 <= 53 /\
                   2 * m1 * 2 ^ (e1 - e)
                   <= 2 * Z.pos m + (if e <? -1 then 2 ^ (-1 - e) else 0)).
  { destruct (Z.le_gt_cases E e) as [Hle|Hgt].
    - destruct (Hstay Hle) as [-> ->]. rewrite Z.sub_diag, Z.pow_0_r.
      rewrite Hdm.
      destruct (Z.ltb_spec e (-1)); [|lia].
      assert (0 < 2 ^ (-1 - e)) by (apply Z.pow_pos_nonneg; lia). lia.
    - destruct (Hshift Hgt) as (-> & [Hm1 Hm1up] & Hround).
      assert (He : (e <? -1) = true) by (apply Z.ltb_lt; lia). rewrite He.
      assert (Hmono : 2 ^ (E - e) <= 2 ^ (-1 - e)) by (apply Z.pow_le_mono_r; lia).
      split; [done|]. split; [lia|]. split; [|lia].
      (* the rounded mantissa has at most one digit more than the shifted one *)
      destruct (Z.le_gt_cases (E - e) d) as [Hk|Hk].
      + assert (Hdiv : Z.pos m / 2 ^ (E - e) < 2 ^ (d - (E - e))).
        { apply Z.div_lt_upper_bound; [apply Z.pow_pos_nonneg; lia|].
          rewrite <- Z.pow_add_r by lia. replace (E - e + (d - (E - e))) with d by lia.
          done. }
        pose proof (Zdigits2_le m1 (d - (E - e)) ltac:(lia) ltac:(lia)). lia.
      + assert (Hdiv : Z.pos m / 2 ^ (E - e) = 0).
        { apply Z.div_small. split; [lia|].
          eapply Z.lt_le_trans; [exact Hdhi|]. apply Z.pow_le_mono_r; lia. }
        pose proof (Zdigits2_le m1 0 ltac:(lia) ltac:(simpl; lia)). lia. }
  destruct Hfacts as (Hm1 & He1 & Hdig & Hround).
  destruct (shr_fexp prec emax m1 e1 loc_Exact) as [mrs2 e2] eqn:H2.
  destruct (shr_fexp_floor m1 e1 mrs2 e2 Hm1 H2) as (Hm2 & He2 & Hfloor & Hcases).
  assert (He2up : e2 <= 51).
  { destruct Hcases as [->| ->]; [lia|].
    change (fexp prec emax (Zdigits2 m1 + e1))
      with (Z.max (Zdigits2 m1 + e1 - 53) (-1074)). lia. }
  destruct (shr_m mrs2) as [|m2|m2] eqn:Hm; [by left| |lia].
  right. exists m2, e2.
  assert (Hfin : (e2 <=? emax - prec) = true)
    by (apply Z.leb_le; change (emax - prec) with 971; lia).
  rewrite Hfin. split; [reflexivity|]. split; [lia|].
  replace (e2 - e) with ((e2 - e1) + (e1 - e)) by lia.
  rewrite Z.pow_add_r by lia.
  assert (0 <= 2 ^ (e1 - e)) by (apply Z.pow_nonneg; lia).
  nia.
Qed.

(** A mantissa that needs no shift is kept as it is. *)
Lemma binary_round_aux_exact (s : bool) (m : positive) (e : Z) :
  fexp prec emax (Z.pos (digits2_pos m) + e) <= e -> e <= 971 ->
  binary_round_aux prec emax s (Z.pos m) e loc_Exact = S754_finite s m e.
Proof.
  intros Hfexp He. unfold binary_round_aux, shr_fexp, shr.
  cbn [Zdigits2 shr_record_of_loc].
  destruct (fexp prec emax (Z.pos (digits2_pos m) + e) - e) as [|p|p] eqn:Hk; [|lia|];
    cbn [shr_m loc_of_shr_record round_nearest_even Zdigits2 shr_record_of_loc];
    rewrite Hk; cbn [shr_m];
    (replace (e <=? emax - prec) with true
       by (symmetry; apply Z.leb_le; change (emax - prec) with 971; lia));
    reflexivity.
Qed.

Lemma iter_xO_digits (m d : positive) :
  digits2_pos (Pos.iter xO m d) = (digits2_pos m + d)%positive.
Proof.
  apply (Pos.iter_ind _ xO m (fun p a => digits2_pos a = (digits2_pos m + p)%positive)).
  - simpl. lia.
  - intros p a IH. simpl. rewrite IH. lia.
Qed.

Lemma iter_xO_value (m d : positive) :
  Z.pos (Pos.iter xO m d) = Z.pos m * 2 ^ Z.pos d.
Proof.
  apply (Pos.iter_ind _ xO m (fun p a => Z.pos a = Z.pos m * 2 ^ Z.pos p)).
  - rewrite Z.pow_1_r. lia.
  - intros p a IH. rewrite Pos2Z.inj_succ, Z.pow_succ_r by lia.
    rewrite Pos2Z.inj_xO, IH. lia.
Qed.

(** [float(n)] is exact below [2^53]. *)
Lemma float_of_int_exact (n : positive) :
  Z.pos n < 2 ^ 53 ->
  exists mx ex,
    float_of_int (Z.pos n) = Ok (S754_finite false mx ex) /\
    ex <= 0 /\ Z.pos mx = Z.pos n * 2 ^ (- ex).
Proof.
  intros Hn. unfold float_of_int, binary_normalize, binary_round.
  pose proof (digits2_pos_bounds n) as [Hlo Hhi].
  set (d := Z.pos (digits2_pos n)) in *.
  assert (Hd : 1 <= d <= 53).
  { split; [unfold d; lia|].
    assert (Hp : 2 ^ (d - 1) < 2 ^ 53) by lia.
    apply Z.pow_lt_mono_r_iff in Hp; lia. }
  assert (HE : fexp prec emax (d + 0) = d - 53).
  { change (fexp prec emax (d + 0)) with (Z.max (d + 0 - 53) (-1074)). lia. }
  rewrite HE. unfold shl_align.
  destruct (d - 53 - 0) as [|p|p] eqn:Hk; [|lia|].
  - rewrite binary_round_aux_exact; [|fold d; rewrite HE; lia|lia].
    exists n, 0. split; [reflexivity|]. split; [lia|]. simpl. lia.
  - rewrite binary_round_aux_exact.
    + exists (Pos.iter xO n p), (d - 53). split; [reflexivity|]. split; [lia|].
      rewrite iter_xO_value. f_equal. f_equal. lia.
    + rewrite iter_xO_digits, Pos2Z.inj_add. fold d.
      change (fexp prec emax (d + Z.pos p + (d - 53)))
        with (Z.max (d + Z.pos p + (d - 53) - 53) (-1074)). lia.
    + lia.
Qed.

Lemma pos_pow_1_l (p : positive) : (1 ^ p = 1)%positive.
Proof. apply Pos2Z.inj. rewrite Pos2Z.inj_pow. apply Z.pow_1_l. lia. Qed.

Lemma float_value_finite (s : bool) (m : positive) (e : Z) (q : Q) :
  float_value (S754_finite s m e) = Ok q ->
  (q == inject_Z (if s then Z.neg m else Z.pos m) * 2 ^ e)%Q.
Proof.
  unfold float_value. intros [= <-]. destruct e as [|p|p].
  - rewrite Z.pow_0_r, Z.mul_1_r. change (2 ^ 0)%Q with 1%Q. ring.
  - rewrite inject_Z_mult, Zpower_Qpower by lia. reflexivity.
  - change (2 ^ Z.neg p)%Q with (/ Qpower_positive (2 # 1) p)%Q.
    rewrite Qpower_decomp_positive, pos_pow_1_l, <- Pos2Z.inj_pow.
    unfold Qeq, Qinv, Qmult, inject_Z. simpl. lia.
Qed.

Lemma py_int_floor (q : Q) :
  (0 <= q)%Q -> 0 <= py_int q /\ (inject_Z (py_int q) <= q)%Q.
Proof.
  destruct q as [a b]. unfold Qle, py_int. simpl. intros Ha.
  rewrite Z.quot_div_nonneg by lia. split; [apply Z.div_pos; lia|].
  rewrite Z.mul_1_r in *. rewrite Z.mul_comm. apply Z.mul_div_le. lia.
Qed.

Lemma Qpow2_pos (e : Z) : (0 < 2 ^ e)%Q.
Proof. by apply Qpower_0_lt. Qed.

Lemma Qpow2_add (a b : Z) : (2 ^ (a + b) == 2 ^ a * 2 ^ b)%Q.
Proof. by apply Qpower_plus. Qed.

Lemma Qpow2_inject (a : Z) : 0 <= a -> (inject_Z (2 ^ a) == 2 ^ a)%Q.
Proof. intros Ha. by rewrite Zpower_Qpower. Qed.

(** A product below [2^52] has at most 52 digits before the binary point. *)
Lemma digits_of_small_value (m : positive) (e : Z) :
  (inject_Z (Z.pos m) * 2 ^ e < inject_Z (2 ^ 52))%Q ->
  Z.pos (digits2_pos m) + e <= 52.
Proof.
  intros Hv. destruct (Z.le_gt_cases (Z.pos (digits2_pos m) + e) 52) as [|Hbig]; [done|].
  exfalso. apply (Qlt_not_le _ _ Hv).
  pose proof (digits2_pos_bounds m) as [Hlo _].
  set (d := Z.pos (digits2_pos m)) in *.
  assert (Hd : 1 <= d) by (unfold d; lia).
  rewrite Qpow2_inject by lia.
  apply Qle_trans with (2 ^ (d - 1 + e))%Q.
  - apply Qpower_le_compat_l; [lia|done].
  - rewrite Qpow2_add. apply Qmult_le_compat_r; [|apply Qlt_le_weak, Qpow2_pos].
    rewrite <- Qpow2_inject by lia. by rewrite <- Zle_Qle.
Qed.

(** The bound of [binary_round_aux_small], read on the values. *)
Lemma rounded_value_bound (m m2 : positive) (e e2 : Z) :
  e <= e2 ->
  2 * Z.pos m2 * 2 ^ (e2 - e) <= 2 * Z.pos m + (if e <? -1 then 2 ^ (-1 - e) else 0) ->
  (inject_Z (Z.pos m2) * 2 ^ e2 <= inject_Z (Z.pos m) * 2 ^ e + (1 # 4))%Q.
Proof.
  intros He Hz. rewrite Zle_Qle in Hz.
  rewrite inject_Z_plus, !inject_Z_mult in Hz.
  rewrite Qpow2_inject in Hz by lia.
  pose proof (Qpow2_pos e) as HP.
  assert (Hb : (inject_Z (if e <? -1 then 2 ^ (-1 - e) else 0) * 2 ^ e <= 1 # 2)%Q).
  { destruct (Z.ltb_spec e (-1)).
    - rewrite Qpow2_inject by lia. rewrite <- Qpow2_add.
      replace (-1 - e + e) with (-1) by lia. done.
    - change (inject_Z 0) with 0%Q. rewrite Qmult_0_l. done. }
  set (b := inject_Z (if e <? -1 then 2 ^ (-1 - e) else 0)) in *.
  apply (Qmult_le_compat_r _ _ (2 ^ e)%Q) in Hz; [|by apply Qlt_le_weak].
  replace e2 with ((e2 - e) + e) at 1 by lia. rewrite Qpow2_add.
  set (P := (2 ^ e)%Q) in *. set (K := (2 ^ (e2 - e))%Q) in *.
  set (x := inject_Z (Z.pos m2)) in *. set (y := inject_Z (Z.pos m)) in *.
  assert (H1 : (inject_Z 2 * x * K * P == 2 * (x * (K * P)))%Q) by (change (inject_Z 2) with 2%Q; ring).
  assert (H2 : ((inject_Z 2 * y + b) * P == 2 * (y * P) + b * P)%Q) by (change (inject_Z 2) with 2%Q; ring).
  rewrite H1, H2 in Hz.
  set (u := (x * (K * P))%Q) in *. set (v := (y * P)%Q) in *. set (w := (b * P)%Q) in *.
  lra.
Qed.

(** [int(n * f)] for a proportion [f] and fewer than [2^52] records: the
    product is finite, and its truncation lies at most a quarter above
    [n * f]. *)
Lemma scaled64_bound (n : nat) (f : float) (F : Q) :
  Z.of_nat n < 2 ^ 52 ->
  float_value (Prim2SF f) = Ok F -> (0 <= F)%Q -> (F <= 1)%Q ->
  exists a, scaled64 n f = Ok a /\ 0 <= a /\
            (inject_Z a <= inject_Z (Z.of_nat n) * F + (1 # 4))%Q.
Proof.
  intros Hn HF HF0 HF1. unfold scaled64, int_mul_float.
  assert (Hzero : exists a, Ok 0 = Ok a /\ 0 <= a /\
                    (inject_Z a <= inject_Z (Z.of_nat n) * F + (1 # 4))%Q).
  { exists 0. split; [done|]. split; [done|].
    assert (0 <= inject_Z (Z.of_nat n) * F)%Q.
    { apply Qmult_le_0_compat; [|done]. rewrite <- (Zle_Qle 0). lia. }
    change (inject_Z 0) with 0%Q. lra. }
  destruct (Z.of_nat n) as [|p|p] eqn:Hp; [| |lia].
  - change (float_of_int 0) with (@Ok spec_float (S754_zero false)). cbn [bind Ok].
    destruct (Prim2SF f) as [s|s| |s my ey]; try discriminate HF; exact Hzero.
  - destruct (float_of_int_exact p ltac:(lia)) as (mx & ex & Hx & Hex & Hmx).
    rewrite Hx. cbn [bind Ok].
    destruct (Prim2SF f) as [s|s| |s my ey]; try discriminate HF; [exact Hzero|].
    pose proof (float_value_finite _ _ _ _ HF) as HFv.
    destruct s.
    { exfalso. rewrite HFv in HF0.
      assert (Hneg : (inject_Z (Z.neg my) * 2 ^ ey == - (inject_Z (Z.pos my) * 2 ^ ey))%Q)
        by (change (Z.neg my) with (- Z.pos my); rewrite inject_Z_opp; ring).
      rewrite Hneg in HF0.
      assert (0 < inject_Z (Z.pos my) * 2 ^ ey)%Q; [|lra].
      apply Qmult_lt_0_compat; [|apply Qpow2_pos]. by rewrite <- (Zlt_Qlt 0). }
    cbn [SFmul xorb].
    (* the exact product is [n * F] *)
    assert (Hxv : (inject_Z (Z.pos mx) * 2 ^ ex == inject_Z (Z.pos p))%Q).
    { rewrite Hmx, inject_Z_mult, Qpow2_inject by lia.
      rewrite <- Qmult_assoc, <- Qpow2_add. replace (- ex + ex) with 0 by lia.
      change (2 ^ 0)%Q with 1%Q. ring. }
    assert (Hv : (inject_Z (Z.pos (mx * my)) * 2 ^ (ex + ey) == inject_Z (Z.pos p) * F)%Q).
    { rewrite Pos2Z.inj_mul, inject_Z_mult, Qpow2_add, HFv, <- Hxv. ring. }
    assert (Hsmall : Z.pos (digits2_pos (mx * my)) + (ex + ey) <= 52).
    { apply digits_of_small_value. rewrite Hv.
      apply Qle_lt_trans with (inject_Z (Z.pos p)).
      - assert (0 <= inject_Z (Z.pos p))%Q by (by rewrite <- (Zle_Qle 0)).
        assert (Hone : (F * inject_Z (Z.pos p) <= 1 * inject_Z (Z.pos p))%Q)
          by (apply Qmult_le_compat_r; done).
        by rewrite Qmult_1_l, Qmult_comm in Hone.
      - rewrite <- Zlt_Qlt. lia. }
    destruct (binary_round_aux_small (mx * my) (ex + ey) Hsmall)
      as [-> | (m2 & e2 & -> & He2 & Hbound)]; [exact Hzero|].
    unfold float_int.
    destruct (float_value (S754_finite false m2 e2)) as [err|q] eqn:Hq; [discriminate Hq|].
    cbn [bind Ok].
    pose proof (float_value_finite _ _ _ _ Hq) as Hqv.
    pose proof (rounded_value_bound _ _ _ _ He2 Hbound) as Hup.
    rewrite Hv, <- Hqv in Hup.
    assert (Hq0 : (0 <= q)%Q).
    { rewrite Hqv. apply Qmult_le_0_compat; [by rewrite <- (Zle_Qle 0)|].
      apply Qlt_le_weak, Qpow2_pos. }
    destruct (py_int_floor q Hq0) as [Ha0 Ha].
    exists (py_int q). split; [done|]. split; [done|]. lra.
Qed.

End Rounding.

(** The two truncated products of a valid split are defined, are not
    negative and leave a remainder that is not negative. *)
Lemma scaled64_valid (n : nat) (split : Split64) :
  (Z.of_nat n < 2 ^ 52)%Z -> valid_split64 split ->
  exists a b : Z,
    scaled64 n (train64 split) = Ok a /\
    scaled64 n (validation64 split) = Ok b /\
    (0 <= a)%Z /\ (0 <= b)%Z /\ (a + b <= Z.of_nat n)%Z.
Proof.
  intros Hn (F & G & HF & HG & HF0 & HG0 & Hsum).
  destruct (scaled64_bound n _ F Hn HF HF0 ltac:(lra)) as (a & Ha & Ha0 & Hau).
  destruct (scaled64_bound n _ G Hn HG HG0 ltac:(lra)) as (b & Hb & Hb0 & Hbu).
  exists a, b. split; [done|]. split; [done|]. split; [done|]. split; [done|].
  assert (Hn0 : (0 <= inject_Z (Z.of_nat n))%Q) by (rewrite <- (Zle_Qle 0); lia).
  assert (Hprod : (inject_Z (Z.of_nat n) * F + inject_Z (Z.of_nat n) * G
                   <= inject_Z (Z.of_nat n))%Q).
  { assert (H : ((F + G) * inject_Z (Z.of_nat n) <= 1 * inject_Z (Z.of_nat n))%Q)
      by (by apply Qmult_le_compat_r).
    assert (Heq : ((F + G) * inject_Z (Z.of_nat n)
                   == inject_Z (Z.of_nat n) * F + inject_Z (Z.of_nat n) * G)%Q) by ring.
    rewrite Heq, Qmult_1_l in H. exact H. }
  assert (Hlt : (inject_Z (a + b) < inject_Z (Z.of_nat n + 1))%Q).
  { rewrite !inject_Z_plus. change (inject_Z 1) with 1%Q.
    set (x := (inject_Z (Z.of_nat n) * F)%Q) in *.
    set (y := (inject_Z (Z.of_nat n) * G)%Q) in *. lra. }
  rewrite <- Zlt_Qlt in Hlt. lia.
Qed.

(** ** Selecting rows by label *)

Lemma filter_absent (df : DataFrame) (lbl : nat) :
  lbl ∉ df_index df -> filter (fun r : nat * DishRow => fst r = lbl) df = [].
Proof.
  induction df as [|[l r] df IH]; intros Hnot; [done|].
  unfold df_index in *. simpl in Hnot. rewrite not_elem_of_cons in Hnot.
  destruct Hnot as [Hne Hnot].
  rewrite filter_cons_False by (simpl; congruence). by apply IH.
Qed.

Lemma df_loc_app (df : DataFrame) (l1 l2 : list nat) :
  df_loc df (l1 ++ l2) = df_loc df l1 ++ df_loc df l2.
Proof. unfold df_loc. apply flat_map_app. Qed.

Lemma df_loc_cons_fresh (df : DataFrame) (l : nat) (r : DishRow) (labels : list nat) :
  l ∉ labels -> df_loc ((l, r) :: df) labels = df_loc df labels.
Proof.
  induction labels as [|lbl labels IH]; intros Hnot; [done|].
  rewrite not_elem_of_cons in Hnot. destruct Hnot as [Hne Hnot].
  unfold df_loc in *. simpl. rewrite IH by done.
  by rewrite filter_cons_False by (simpl; congruence).
Qed.

Lemma df_loc_index (df : DataFrame) :
  NoDup (df_index df) -> df_loc df (df_index df) = df.
Proof.
  induction df as [|[l r] df IH]; intros Hnd; [done|].
  unfold df_index in *. simpl in Hnd. rewrite NoDup_cons in Hnd.
  destruct Hnd as [Hnot Hnd].
  change (map fst ((l, r) :: df)) with (l :: map fst df).
  change (df_loc ((l, r) :: df) (l :: map fst df))
    with (filter (fun x : nat * DishRow => fst x = l) ((l, r) :: df)
          ++ df_loc ((l, r) :: df) (map fst df)).
  rewrite filter_cons_True by done.
  rewrite (filter_absent df l Hnot).
  rewrite df_loc_cons_fresh by done. simpl. by rewrite IH.
Qed.

Lemma df_loc_perm (df : DataFrame) (l1 l2 : list nat) :
  l1 ≡ₚ l2 -> df_loc df l1 ≡ₚ df_loc df l2.
Proof.
  intros Hp. unfold df_loc.
  induction Hp as [|x l l' _ IH|x y l|l l' l'' _ IH1 _ IH2]; simpl.
  - done.
  - by rewrite IH.
  - rewrite !app_assoc. f_equiv. apply Permutation_app_comm.
  - by rewrite IH1.
Qed.

Lemma df_loc_labels (df : DataFrame) (labels : list nat) :
  NoDup (df_index df) -> labels ⊆ df_index df -> df_index (df_loc df labels) = labels.
Proof.
  intros Hnd. induction labels as [|lbl labels IH]; intros Hsub; [done|].
  change (df_loc df (lbl :: labels))
    with (filter (fun x : nat * DishRow => fst x = lbl) df ++ df_loc df labels).
  unfold df_index in *. rewrite map_app.
  rewrite IH by set_solver.
  assert (lbl ∈ map fst df) as Hin by set_solver.
  clear IH Hsub. f_equal.
  induction df as [|[l r] df IHdf]; [by inversion Hin|].
  simpl in Hnd. rewrite NoDup_cons in Hnd. destruct Hnd as [Hnot Hnd].
  destruct (decide (l = lbl)) as [->|Hne].
  - rewrite filter_cons_True by done.
    by rewrite (filter_absent df lbl Hnot).
  - rewrite filter_cons_False by (simpl; congruence).
    apply IHdf; [done|]. simpl in Hin.
    apply elem_of_cons in Hin as [Heq|Hin]; [congruence|done].
Qed.

(** The index of a frame built by [from_dict] is [0 .. n-1]: labels are
    distinct. *)
Lemma from_dict_index (md : Metadata) (df : DataFrame) :
  from_dict md = Ok df -> df_index df = seq 0 (length df) /\ NoDup (df_index df).
Proof.
  unfold from_dict.
  destruct (Nat.eqb_spec (length (md_mass md)) (length (md_dish_id md))) as [Hm|];
    [|discriminate].
  destruct (Nat.eqb_spec (length (md_calories md)) (length (md_dish_id md))) as [Hc|];
    [|discriminate].
  simpl. intros [= <-].
  set (rows := zip_with (fun d mc => mkDishRow d (fst mc) (snd mc))
                        (md_dish_id md) (zip (md_mass md) (md_calories md))).
  assert (Hrows : length rows = length (md_dish_id md)).
  { unfold rows. rewrite !length_zip_with. lia. }
  assert (Hidx : df_index (zip (seq 0 (length (md_dish_id md))) rows)
                 = seq 0 (length (md_dish_id md))).
  { unfold df_index. rewrite <- Hrows. clear. generalize 0.
    induction rows as [|r rows IH]; intros k; simpl; [done|]. by rewrite IH. }
  split.
  - rewrite Hidx. f_equal. rewrite length_zip_with, length_seq. lia.
  - rewrite Hidx. apply NoDup_seq.
Qed.

Lemma create_nutrition_df_index `{External} (fs : FileSystem) (root_dir : string)
    (df : DataFrame) :
  create_nutrition_df fs root_dir = Ok df -> NoDup (df_index df).
Proof.
  unfold create_nutrition_df.
  destruct (read_csvs fs root_dir empty_metadata (csv_files root_dir)) as [e|md];
    simpl; [discriminate|].
  intros Hdf. by apply from_dict_index in Hdf as [_ Hnd].
Qed.

Lemma df_index_length (df : DataFrame) : length (df_index df) = length df.
Proof. unfold df_index. apply length_map. Qed.

(** ** The split *)



Lemma df_loc_length (df : DataFrame) (labels : list nat) :
  NoDup (df_index df) -> labels ⊆ df_index df -> length (df_loc df labels) = length labels.
Proof.
  intros Hnd Hsub. rewrite <- (df_loc_labels df labels Hnd Hsub) at 2.
  unfold df_index. by rewrite length_map.
Qed.


(** ** The split with binary64 sizes *)

Lemma split_dataframe64_raise (draw : nat -> nat) (df : DataFrame) (split : Split64) :
  match scaled64 (length df) (train64 split), scaled64 (length df) (validation64 split) with
  | inr a, inr b =>
      split_dataframe64 draw df split
      = let index := random_shuffle draw (df_index df) in
        Ok (df_loc df (py_slice index None (Some a)),
            df_loc df (py_slice index (Some a) (Some (a + b)%Z)),
            df_loc df (py_slice index (Some (a + b)%Z) None))
  | inl e, _ | inr _, inl e => split_dataframe64 draw df split = Raise e
  end.
Proof.
  unfold split_dataframe64, split_index64. rewrite df_index_length.
  destruct (scaled64 (length df) (train64 split)) as [e|a]; [done|].
  destruct (scaled64 (length df) (validation64 split)) as [e|b]; done.
Qed.

(** The labels of the three frames for sizes that are not negative. *)
Lemma split_frames64 (draw : nat -> nat) (df : DataFrame) (split : Split64) (a b : Z) :
  NoDup (df_index df) ->
  scaled64 (length df) (train64 split) = Ok a ->
  scaled64 (length df) (validation64 split) = Ok b ->
  (0 <= a)%Z -> (0 <= b)%Z ->
  let shuffled := random_shuffle draw (df_index df) in
  exists train val test,
    split_dataframe64 draw df split = Ok (train, val, test) /\
    df_index train = take (Z.to_nat a) shuffled /\
    df_index val = take (Z.to_nat b) (drop (Z.to_nat a) shuffled) /\
    df_index test = drop (Z.to_nat a + Z.to_nat b) shuffled /\
    length shuffled = length df /\
    train ++ val ++ test ≡ₚ df.
Proof.
  intros Hnd Ha Hb Ha0 Hb0. cbv zeta.
  pose proof (split_dataframe64_raise draw df split) as Hrun.
  rewrite Ha, Hb in Hrun. cbn [Ok] in Hrun. cbv zeta in Hrun.
  pose proof (random_shuffle_perm draw (df_index df)) as Hperm.
  set (shuffled := random_shuffle draw (df_index df)) in *.
  rewrite py_slice_prefix, py_slice_middle, py_slice_suffix in Hrun by lia.
  replace (Z.to_nat (a + b) - Z.to_nat a) with (Z.to_nat b) in Hrun by lia.
  replace (Z.to_nat (a + b)) with (Z.to_nat a + Z.to_nat b) in Hrun by lia.
  do 3 eexists. split; [exact Hrun|].
  assert (Hsub : forall l, l ⊆ shuffled -> l ⊆ df_index df).
  { intros l Hl x Hx. rewrite <- Hperm. by apply Hl. }
  assert (H1 : take (Z.to_nat a) shuffled ⊆ df_index df)
    by apply Hsub, subseteq_take.
  assert (H2 : take (Z.to_nat b) (drop (Z.to_nat a) shuffled) ⊆ df_index df)
    by (apply Hsub; etrans; [apply subseteq_take|apply subseteq_drop]).
  assert (H3 : drop (Z.to_nat a + Z.to_nat b) shuffled ⊆ df_index df)
    by apply Hsub, subseteq_drop.
  rewrite !df_loc_labels by done.
  split; [done|]. split; [done|]. split; [done|].
  split; [by rewrite (Permutation_length Hperm), df_index_length|].
  rewrite <- !df_loc_app.
  replace (drop (Z.to_nat a + Z.to_nat b) shuffled)
    with (drop (Z.to_nat b) (drop (Z.to_nat a) shuffled))
    by (rewrite drop_drop; f_equal; lia).
  rewrite !take_drop. rewrite (df_loc_perm df _ _ Hperm). by rewrite df_loc_index.
Qed.





Example two_dishes_index :
  create_nutrition_df (H := plain) (fs_of two_dishes ["D1"; "D2"]) "data"
  = Ok [(0, mkDishRow "D1" ("100.5" ++ newline) 250);
        (1, mkDishRow "D2" ("150.0" ++ newline) 400)].
Proof. vm_compute. reflexivity. Qed.

(** ** Paths *)

Lemma endswith_sep_app (s t : string) :
  t <> "" -> endswith_sep (s ++ t) = endswith_sep t.
Proof.
  intros Ht. induction s as [|c s IH]; [done|].
  simpl. rewrite IH. destruct (s ++ t)%string eqn:Hst; [|done].
  destruct s; simpl in Hst; [done|discriminate].
Qed.

Lemma app_nonempty (s t : string) : t <> "" -> (s ++ t)%string <> "".
Proof. destruct s; simpl; [done|discriminate]. Qed.

Lemma string_app_assoc (s t u : string) : ((s ++ t) ++ u = s ++ t ++ u)%string.
Proof.
  induction s as [|c s IH]; [reflexivity|].
  change (String c ((s ++ t) ++ u) = String c (s ++ t ++ u))%string. by f_equal.
Qed.

Lemma path_join_cons (a b : string) (p : list string) :
  path_join a (b :: p) = path_join (path_join a [b]) p.
Proof. reflexivity. Qed.

Lemma path_join_step (path b : string) :
  path <> "" -> endswith_sep path = false -> startswith_sep b = false ->
  path_join path [b] = (path ++ "/" ++ b)%string.
Proof.
  intros Hp He Hb. unfold path_join. simpl.
  apply String.eqb_neq in Hp. by rewrite Hb, Hp, He.
Qed.

Lemma path_join_step_plain (path b : string) :
  b <> "" -> endswith_sep b = false ->
  (path ++ "/" ++ b)%string <> "" /\ endswith_sep (path ++ "/" ++ b) = false.
Proof.
  intros Hb He. split.
  - apply app_nonempty. discriminate.
  - rewrite endswith_sep_app by discriminate.
    change ("/" ++ b)%string with (String "/" b). simpl. by destruct b.
Qed.

(** The five joins of [frame_path] each add one separator when the root and
    the dish id are plain. *)
Lemma frame_path_under_root (root_dir dish : string) :
  plain_root root_dir -> plain_name dish ->
  frame_path root_dir dish = spec_image_file root_dir dish.
Proof.
  intros [Hr Hre] (Hd & Hds & Hde). unfold frame_path, spec_image_file.
  destruct (path_join_step_plain root_dir "imagery") as [N1 E1];
    [discriminate|reflexivity|].
  destruct (path_join_step_plain (root_dir ++ "/" ++ "imagery") "side_angles")
    as [N2 E2]; [discriminate|reflexivity|].
  destruct (path_join_step_plain
              ((root_dir ++ "/" ++ "imagery") ++ "/" ++ "side_angles") dish)
    as [N3 E3]; [exact Hd|exact Hde|].
  destruct (path_join_step_plain
              (((root_dir ++ "/" ++ "imagery") ++ "/" ++ "side_angles") ++ "/" ++ dish)
              "camera_A") as [N4 E4]; [discriminate|reflexivity|].
  rewrite (path_join_cons root_dir "imagery"), (path_join_step root_dir "imagery") by done.
  rewrite (path_join_cons _ "side_angles"), (path_join_step _ "side_angles") by done.
  rewrite (path_join_cons _ dish), (path_join_step _ dish) by done.
  rewrite (path_join_step _ "camera_A") by done.
  rewrite (path_join_step _ "1.jpg") by done.
  rewrite !string_app_assoc. reflexivity.
Qed.

(** X25. For a root and a dish id that are non-empty and neither start nor
    end with a separator where that matters, the frame looked up is
    [root/imagery/side_angles/<dish_id>/camera_A/1.jpg]. *)
Lemma frame_path_plain (root_dir dish : string) :
  root_dir <> "" -> endswith_sep root_dir = false ->
  dish <> "" -> startswith_sep dish = false -> endswith_sep dish = false ->
  frame_path root_dir dish
  = (root_dir ++ "/imagery/side_angles/" ++ dish ++ "/camera_A/1.jpg")%string.
Proof.
  intros Hr Hre Hd Hds Hde. unfold frame_path.
  destruct (path_join_step_plain root_dir "imagery") as [N1 E1];
    [discriminate|reflexivity|].
  destruct (path_join_step_plain (root_dir ++ "/" ++ "imagery") "side_angles")
    as [N2 E2]; [discriminate|reflexivity|].
  destruct (path_join_step_plain
              ((root_dir ++ "/" ++ "imagery") ++ "/" ++ "side_angles") dish)
    as [N3 E3]; [exact Hd|exact Hde|].
  destruct (path_join_step_plain
              (((root_dir ++ "/" ++ "imagery") ++ "/" ++ "side_angles") ++ "/" ++ dish)
              "camera_A") as [N4 E4]; [discriminate|reflexivity|].
  rewrite (path_join_cons root_dir "imagery"), (path_join_step root_dir "imagery") by done.
  rewrite (path_join_cons _ "side_angles"), (path_join_step _ "side_angles") by done.
  rewrite (path_join_cons _ dish), (path_join_step _ dish) by done.
  rewrite (path_join_step _ "camera_A") by done.
  rewrite (path_join_step _ "1.jpg") by done.
  rewrite !string_app_assoc. reflexivity.
Qed.

(** A row of three or more fields whose frame exists is read from its first
    three fields; the others are ignored. *)
Lemma read_row_three_fields `{External} (fs : FileSystem) (root_dir : string)
    (md : Metadata) (line d p1 p2 : string) (extra : list string) :
  str_split "," line = d :: p1 :: p2 :: extra ->
  fs_exists fs (frame_path root_dir d) = true ->
  read_row fs root_dir md line
  = (c <- ext_int_float p1 ;;
     Ok (mkMetadata (md_dish_id md ++ [d]) (md_mass md ++ [p2]) (md_calories md ++ [c]))).
Proof.
  intros Hparts Himg. unfold read_row. rewrite Hparts. simpl. rewrite Himg. simpl.
  by destruct (ext_int_float p1).
Qed.

(** ** Building the metadata index *)

Lemma str_split_cons (sep : ascii) (s : string) :
  exists hd tl, str_split sep s = hd :: tl.
Proof.
  destruct s as [|c rest]; simpl; [by eauto|].
  destruct (Ascii.eqb c sep); [by eauto|].
  destruct (str_split sep rest); by eauto.
Qed.

Section MetadataIndex.
Context `{External}.
Variables (fs : FileSystem) (root_dir : string).

Lemma read_row_without_image (md : Metadata) (line : string) :
  has_image fs root_dir line = false -> read_row fs root_dir md line = Ok md.
Proof.
  unfold has_image, read_row.
  destruct (str_split_cons "," line) as (dish & tl & ->). simpl.
  by intros ->.
Qed.

Lemma read_rows_app (md : Metadata) (l1 l2 : list string) :
  read_rows fs root_dir md (l1 ++ l2)
  = (md1 <- read_rows fs root_dir md l1 ;; read_rows fs root_dir md1 l2).
Proof.
  revert md. induction l1 as [|line l1 IH]; intros md; simpl; [done|].
  destruct (read_row fs root_dir md line) as [e|md']; simpl; [done|apply IH].
Qed.

Lemma read_row_short_with_image (md : Metadata) (line : string) :
  short_row line -> has_image fs root_dir line = true ->
  exists e, read_row fs root_dir md line = Raise e /\
            (e = IndexError \/
             exists p1, str_split "," line !! 1 = Some p1 /\ ext_int_float p1 = Raise e).
Proof.
  unfold short_row, has_image, read_row.
  destruct (str_split "," line) as [|dish [|p1 [|p2 tl]]]; simpl; intros Hlen Himg;
    try discriminate; try lia; rewrite Himg; simpl.
  - exists IndexError. by split; [|left].
  - destruct (ext_int_float p1) as [e|c] eqn:Hc; simpl.
    + exists e. split; [done|]. right. by exists p1.
    + exists IndexError. by split; [|left].
Qed.

(** Rows whose frame is missing do not take part in the build. *)
Lemma read_rows_filter (md : Metadata) (lines : list string) :
  read_rows fs root_dir md lines
  = read_rows fs root_dir md (filter (fun l => has_image fs root_dir l = true) lines).
Proof.
  revert md. induction lines as [|line lines IH]; intros md; [done|].
  destruct (has_image fs root_dir line) eqn:Himg.
  - rewrite filter_cons_True by done. simpl.
    destruct (read_row fs root_dir md line); simpl; [done|apply IH].
  - rewrite filter_cons_False by (rewrite Himg; discriminate). simpl.
    rewrite read_row_without_image by done. simpl. apply IH.
Qed.

Lemma read_row_imaged (md md' : Metadata) (line : string) :
  all_imaged fs root_dir md -> read_row fs root_dir md line = Ok md' -> all_imaged fs root_dir md'.
Proof.
  unfold read_row, all_imaged. intros Hall.
  destruct (str_split "," line) as [|dish [|p1 [|p2 tl]]]; simpl; try discriminate;
    destruct (fs_exists fs (frame_path root_dir dish)) eqn:Himg; simpl;
    try (intros [= <-]; done); try discriminate.
  - destruct (ext_int_float p1); simpl; discriminate.
  - destruct (ext_int_float p1); simpl; [discriminate|].
    intros [= <-]. simpl. apply Forall_app. split; [done|]. by constructor.
Qed.

Lemma read_rows_imaged (md md' : Metadata) (lines : list string) :
  all_imaged fs root_dir md -> read_rows fs root_dir md lines = Ok md' -> all_imaged fs root_dir md'.
Proof.
  revert md. induction lines as [|line lines IH]; intros md Hall; simpl.
  - by intros [= <-].
  - destruct (read_row fs root_dir md line) as [e|md1] eqn:Hrow; simpl; [discriminate|].
    apply IH. by eapply read_row_imaged.
Qed.

Lemma read_csvs_imaged (md md' : Metadata) (files : list string) :
  all_imaged fs root_dir md -> read_csvs fs root_dir md files = Ok md' -> all_imaged fs root_dir md'.
Proof.
  revert md. induction files as [|f files IH]; intros md Hall; simpl.
  - by intros [= <-].
  - unfold read_csv. destruct (fs_readlines fs f) as [lines|]; simpl; [|discriminate].
    destruct (read_rows fs root_dir md lines) as [e|md1] eqn:Hrows; simpl; [discriminate|].
    apply IH. by eapply read_rows_imaged.
Qed.

Lemma from_dict_dish_ids (md : Metadata) (df : DataFrame) :
  from_dict md = Ok df ->
  forall i row, (i, row) ∈ df -> dish_id row ∈ md_dish_id md.
Proof.
  unfold from_dict.
  destruct (_ && _); [|discriminate]. intros [= <-] i row Hin.
  apply elem_of_zip_r in Hin.
  generalize dependent (zip (md_mass md) (md_calories md)).
  induction (md_dish_id md) as [|d ds IH]; intros l Hin; [by inversion Hin|].
  destruct l as [|mc l]; [by inversion Hin|]. simpl in Hin.
  apply elem_of_cons in Hin as [->|Hin]; [by left|].
  right. by eapply IH.
Qed.

(** C7 (amended). The file looked up for a row is
    [os.path.join(root, 'imagery', 'side_angles', dish_id, 'camera_A', '1.jpg')].
    A row for which it is missing is passed over without an exception and
    leaves no record: reading any list of rows gives the outcome of reading
    only those with that file, and every record of the finished index has
    it on disk. For a dataset root that is not empty and has no trailing
    separator, and a dish id that is not empty and has no separator at
    either end, that file is
    [<root>/imagery/side_angles/<dish_id>/camera_A/1.jpg]: a row with such a
    dish id whose image is missing under the root is passed over, and every
    record with such a dish id has its image under the root. For a dish id
    that starts with a separator the file looked up is
    [<dish_id>/camera_A/1.jpg], whatever the root. *)
Theorem missing_image_excluded :
  (forall md line,
      has_image fs root_dir line = false -> read_row fs root_dir md line = Ok md) /\
  (forall md lines,
      read_rows fs root_dir md lines
      = read_rows fs root_dir md (filter (fun l => has_image fs root_dir l = true) lines)) /\
  (forall df, create_nutrition_df fs root_dir = Ok df ->
              forall i row, (i, row) ∈ df ->
                            fs_exists fs (frame_path root_dir (dish_id row)) = true) /\
  (plain_root root_dir ->
   (forall dish, plain_name dish ->
                 frame_path root_dir dish = spec_image_file root_dir dish) /\
   (forall md line dish rest,
       str_split "," line = dish :: rest -> plain_name dish ->
       fs_exists fs (spec_image_file root_dir dish) = false ->
       read_row fs root_dir md line = Ok md) /\
   (forall df, create_nutrition_df fs root_dir = Ok df ->
               forall i row, (i, row) ∈ df -> plain_name (dish_id row) ->
                             fs_exists fs (spec_image_file root_dir (dish_id row)) = true)) /\
  (forall dish, startswith_sep dish = true ->
                frame_path root_dir dish = path_join dish ["camera_A"; "1.jpg"]).
Proof.
  assert (Hkept : forall df, create_nutrition_df fs root_dir = Ok df ->
                    forall i row, (i, row) ∈ df ->
                                  fs_exists fs (frame_path root_dir (dish_id row)) = true).
  { intros df. unfold create_nutrition_df.
    destruct (read_csvs fs root_dir empty_metadata (csv_files root_dir)) as [e|md] eqn:Hmd;
      simpl; [discriminate|].
    intros Hdf i row Hin.
    assert (Hall : all_imaged fs root_dir md).
    { eapply read_csvs_imaged; [|exact Hmd]. constructor. }
    unfold all_imaged in Hall. rewrite Forall_forall in Hall.
    apply Hall. by eapply from_dict_dish_ids. }
  split; [apply read_row_without_image|]. split; [apply read_rows_filter|].
  split; [exact Hkept|]. split.
  - intros Hroot. split; [intros dish Hdish; by apply frame_path_under_root|]. split.
    + intros md line dish rest Hparts Hdish Hmissing.
      apply read_row_without_image. unfold has_image. rewrite Hparts.
      by rewrite frame_path_under_root.
    + intros df Hdf i row Hin Hdish.
      rewrite <- frame_path_under_root by done. by eapply Hkept.
  - intros dish Hdish. unfold frame_path.
    rewrite (path_join_cons root_dir "imagery"), (path_join_cons _ "side_angles"),
      (path_join_cons _ dish).
    assert (Hstep : forall p, path_join p [dish] = dish)
      by (intros p; unfold path_join; simpl; by rewrite Hdish).
    rewrite Hstep. by rewrite (path_join_cons dish "camera_A").
Qed.

(** C6 (amended). There is no [ParseError] and no lenient skip of malformed
    rows. A row with fewer than three fields, read after the rows [pre] of
    its file, is passed over without error when its frame is missing; when
    its frame exists, reading stops at it with an uncaught [IndexError], or
    with the exception of the calories conversion when the row has two
    fields, and then no index is built: [create_nutrition_df] raises that
    exception, whether the row stands in [dish_metadata_cafe1.csv] or, the
    first file having been read, in [dish_metadata_cafe2.csv]. In neither
    case does the row leave a record. *)
Theorem short_row_outcome (md md1 : Metadata) (pre post : list string) (line : string) :
  short_row line ->
  read_rows fs root_dir md pre = Ok md1 ->
  (has_image fs root_dir line = false ->
     read_row fs root_dir md1 line = Ok md1 /\
     read_rows fs root_dir md (pre ++ line :: post) = read_rows fs root_dir md1 post) /\
  (has_image fs root_dir line = true ->
     exists e,
       read_rows fs root_dir md (pre ++ line :: post) = Raise e /\
       (e = IndexError \/
        exists p1, str_split "," line !! 1 = Some p1 /\ ext_int_float p1 = Raise e) /\
       (md = empty_metadata ->
        fs_readlines fs (path_join root_dir ["metadata"; "dish_metadata_cafe1.csv"])
          = Some (pre ++ line :: post) ->
        create_nutrition_df fs root_dir = Raise e) /\
       (forall first : list string,
           fs_readlines fs (path_join root_dir ["metadata"; "dish_metadata_cafe1.csv"])
             = Some first ->
           read_rows fs root_dir empty_metadata first = Ok md ->
           fs_readlines fs (path_join root_dir ["metadata"; "dish_metadata_cafe2.csv"])
             = Some (pre ++ line :: post) ->
           create_nutrition_df fs root_dir = Raise e)).
Proof.
  intros Hshort Hpre. split; intros Himg.
  - rewrite read_rows_app, Hpre. simpl.
    by rewrite read_row_without_image.
  - destruct (read_row_short_with_image md1 line Hshort Himg) as (e & Hrow & He).
    exists e.
    assert (Hall : read_rows fs root_dir md (pre ++ line :: post) = Raise e).
    { rewrite read_rows_app, Hpre. simpl. by rewrite Hrow. }
    split; [done|]. split; [done|]. split.
    + intros -> Hfile. unfold create_nutrition_df, csv_files.
      cbn [read_csvs]. unfold read_csv. rewrite Hfile, Hall. done.
    + intros first Hfirst Hmd Hsecond. unfold create_nutrition_df, csv_files.
      cbn [read_csvs]. unfold read_csv. rewrite Hfirst, Hmd. cbn [bind Ok].
      rewrite Hsecond, Hall. done.
Qed.
End MetadataIndex.

Lemma missing_image_excluded_witness :
  plain_root "data" /\ plain_name "D3" /\
  fs_exists unimaged_fs "data/imagery/side_angles/D3/camera_A/1.jpg" = false /\
  read_row (H := plain) unimaged_fs "data" empty_metadata unimaged_line = Ok empty_metadata /\
  exists df, create_nutrition_df (H := plain) unimaged_fs "data" = Ok df /\ length df = 2 /\
             forall i row, (i, row) ∈ df ->
                           fs_exists unimaged_fs (frame_path "data" (dish_id row)) = true.
Proof.
  set (fs := unimaged_fs).
  assert (Hroot : plain_root "data") by (split; [discriminate|reflexivity]).
  assert (Hdish : plain_name "D3") by (split; [discriminate|split; reflexivity]).
  assert (Hmissing : fs_exists fs "data/imagery/side_angles/D3/camera_A/1.jpg" = false)
    by (vm_compute; reflexivity).
  destruct (missing_image_excluded (H := plain) fs "data") as (_ & _ & Hdf & Hplain & _).
  destruct (Hplain Hroot) as (_ & Hrow & _).
  split; [exact Hroot|]. split; [exact Hdish|]. split; [exact Hmissing|].
  split.
  { apply (Hrow empty_metadata unimaged_line "D3" ["10.0"; ("5.0" ++ newline)%string]);
      [reflexivity|exact Hdish|exact Hmissing]. }
  destruct (create_nutrition_df (H := plain) fs "data") as [e|df] eqn:Hc.
  - vm_compute in Hc. discriminate Hc.
  - exists df. split; [reflexivity|]. split.
    + vm_compute in Hc. injection Hc as <-. reflexivity.
    + exact (Hdf df eq_refl).
Defined.

(** C7 as worded fails: for the dish id [/tmp/x] the file
    [data/imagery/side_angles//tmp/x/camera_A/1.jpg] is missing under the
    dataset root, yet the record is kept, because the path looked up is
    [/tmp/x/camera_A/1.jpg]. *)
Lemma absolute_dish_is_kept :
  fs_exists absolute_fs (spec_image_file "data" "/tmp/x") = false /\
  frame_path "data" "/tmp/x" = "/tmp/x/camera_A/1.jpg" /\
  create_nutrition_df (H := plain) absolute_fs "data"
  = Ok [(0, mkDishRow "/tmp/x" ("100.5" ++ newline) 250)] /\
  ~ spec_images_under_root (H := plain) absolute_fs "data".
Proof.
  assert (Hc : create_nutrition_df (H := plain) absolute_fs "data"
               = Ok [(0, mkDishRow "/tmp/x" ("100.5" ++ newline) 250)])
    by (vm_compute; reflexivity).
  assert (Hmissing : fs_exists absolute_fs (spec_image_file "data" "/tmp/x") = false)
    by (vm_compute; reflexivity).
  split; [exact Hmissing|]. split; [reflexivity|]. split; [exact Hc|].
  intros Hspec.
  specialize (Hspec _ Hc 0 (mkDishRow "/tmp/x" ("100.5" ++ newline) 250)
                ltac:(by left)).
  cbn [dish_id] in Hspec. rewrite Hmissing in Hspec. discriminate Hspec.
Qed.

Lemma short_row_outcome_witness :
  short_row short_line /\
  has_image short_fs "data" short_line = true /\
  has_image short_second_fs "data" short_line = true /\
  (exists e, create_nutrition_df (H := plain) short_fs "data" = Raise e /\
             (e = IndexError \/
              exists p1, str_split "," short_line !! 1 = Some p1 /\
                         plain_int_float p1 = Raise e)) /\
  (exists e, create_nutrition_df (H := plain) short_second_fs "data" = Raise e /\
             (e = IndexError \/
              exists p1, str_split "," short_line !! 1 = Some p1 /\
                         plain_int_float p1 = Raise e)).
Proof.
  assert (Hshort : short_row short_line) by (unfold short_row; vm_compute; lia).
  assert (Himg : has_image short_fs "data" short_line = true) by (vm_compute; reflexivity).
  assert (Himg2 : has_image short_second_fs "data" short_line = true)
    by (vm_compute; reflexivity).
  split; [exact Hshort|]. split; [exact Himg|]. split; [exact Himg2|].
  destruct (read_rows (H := plain) short_fs "data" empty_metadata two_dishes)
    as [e0|md1] eqn:Hpre; [vm_compute in Hpre; discriminate Hpre|].
  destruct (read_rows (H := plain) short_second_fs "data" empty_metadata two_dishes)
    as [e0|md2] eqn:Hfirst; [vm_compute in Hfirst; discriminate Hfirst|].
  split.
  - destruct (short_row_outcome (H := plain) short_fs "data" empty_metadata md1 two_dishes []
                short_line Hshort Hpre) as (_ & Hraise).
    destruct (Hraise Himg) as (e & _ & He & Hcreate & _).
    exists e. split; [|exact He].
    apply Hcreate; reflexivity.
  - destruct (short_row_outcome (H := plain) short_second_fs "data" md2 md2 [] []
                short_line Hshort eq_refl) as (_ & Hraise).
    destruct (Hraise Himg2) as (e & _ & He & _ & Hcreate).
    exists e. split; [|exact He].
    apply (Hcreate two_dishes); [reflexivity|exact Hfirst|reflexivity].
Defined.

(** C6 as worded fails: a two-field row whose frame exists ends the build
    with [IndexError], which is neither a [ParseError] nor a skip. *)
Lemma short_row_raises_index_error :
  short_row short_line /\
  create_nutrition_df (H := plain) short_fs "data" = Raise IndexError /\
  ~ spec_malformed_row_policy (create_nutrition_df (H := plain) short_fs "data").
Proof.
  set (fs := short_fs).
  assert (Hc : create_nutrition_df (H := plain) fs "data" = Raise IndexError)
    by (vm_compute; reflexivity).
  split; [unfold short_row; vm_compute; lia|]. split; [exact Hc|].
  rewrite Hc. intros [(e & [= <-] & Hname)|(df & Hdf)]; discriminate.
Qed.

(** ** The training script *)

Lemma chunks_concat {A : Type} (fuel k : nat) (xs : list A) :
  0 < k -> length xs <= fuel -> concat (chunks fuel k xs) = xs.
Proof.
  intros Hk. revert xs. induction fuel as [|fuel IH]; intros xs Hlen.
  - destruct xs; [done|simpl in Hlen; lia].
  - destruct xs as [|x xs]; [done|].
    change (chunks (S fuel) k (x :: xs))
      with (take k (x :: xs) :: chunks fuel k (drop k (x :: xs))).
    simpl concat. rewrite IH; [apply take_drop|].
    rewrite length_drop. simpl in *. lia.
Qed.

Lemma iterated_dataset (dl : DataLoader) :
  0 < dl_batch_size dl -> iterated dl = dl_dataset dl.
Proof. intros Hk. unfold iterated, batches. by apply chunks_concat. Qed.

(** Whatever the configuration, the loader stored under ['test'] is built
    over [val_set]. *)
Lemma test_loader_over_val_set (config : Config) (s : Splits)
    (dataloaders : gmap string DataLoader) :
  make_dataloaders config s = Ok dataloaders ->
  exists loader, dataloaders !! "test" = Some loader /\ iterated loader = val_set s.
Proof.
  unfold make_dataloaders, DataLoader_init.
  destruct (Nat.eqb (length (train_set s)) 0); simpl; [discriminate|].
  destruct (batch_size config) as [|k] eqn:Hk; simpl; [discriminate|].
  intros [= <-].
  exists (mkDataLoader (val_set s) (S k) false). split.
  - rewrite lookup_insert_ne by done. rewrite lookup_insert_ne by done.
    by rewrite lookup_insert_eq.
  - apply iterated_dataset. simpl. lia.
Qed.

(** C1 at a failing input: ten records, split 0.6 / 0.2, the identity
    permutation. The test split is records 8 and 9; the loader saved as
    [test_loader.pt] iterates records 6 and 7, the validation split. *)
Theorem saved_test_loader_iterates_validation :
  make_splits ten_config (seq 0 10) 10 = Ok ten_splits /\
  exists dataloaders files loader,
    make_dataloaders ten_config ten_splits = Ok dataloaders /\
    save_test_loader "runs" dataloaders = Ok files /\
    files !! "runs/test_loader.pt" = Some loader /\
    iterated loader = val_set ten_splits /\
    iterated loader <> test_set ten_splits.
Proof.
  split; [vm_compute; reflexivity|].
  destruct (make_dataloaders ten_config ten_splits) as [e|dataloaders] eqn:Hd;
    [vm_compute in Hd; discriminate Hd|].
  destruct (test_loader_over_val_set _ _ _ Hd) as (loader & Hl & Hit).
  exists dataloaders, (<[path_join "runs" ["test_loader.pt"] := loader]> ∅), loader.
  split; [done|]. split; [unfold save_test_loader; by rewrite Hl|].
  split; [apply lookup_insert_eq|]. split; [done|].
  rewrite Hit. discriminate.
Qed.

(** C2 at two failing inputs. With best-only checkpoints and training losses
    1 then 5 under a validation loss of 10, the reported best training loss is
    5, above the minimum 1. With a checkpoint every epoch and validation
    losses 1 then 2, the reported best validation loss is 2, above the
    minimum 1. *)
Theorem reported_best_losses_above_minimum :
  (reported ten_config rising_training = (5%float, 10%float) /\
   min_loss (map fst rising_training) = 1%float /\
   PrimFloat.ltb (min_loss (map fst rising_training))
                 (fst (reported ten_config rising_training)) = true) /\
  (reported every_epoch_config rising_validation = (1%float, 2%float) /\
   min_loss (map snd rising_validation) = 1%float /\
   PrimFloat.ltb (min_loss (map snd rising_validation))
                 (snd (reported every_epoch_config rising_validation)) = true).
Proof. repeat split; vm_compute; reflexivity. Qed.

(** C3. Every run of [train.py] stops at line 32: [Rescale] is not a name of
    [nutrition5k/dataset.py] (the class is [Resize]), so the import raises
    before arguments or configuration are read. Were the import to pass, the
    [__main__] block would stop at the construction of [Nutrition5kDataset],
    called with one positional argument and [transform], for want of
    [root_dir]; the epoch loop is never entered. *)
Theorem train_py_never_trains :
("Rescale" ∉ dataset_py_names) /\
  ("Resize" ∈ dataset_py_names) /\
  (forall inp : Inputs, train_py inp = ([AtImports], Raise (ImportError "Rescale"))) /\
  bind_call Nutrition5kDataset_init 1 ["transform"]
    = Raise (TypeError "missing required positional arguments: root_dir") /\
  (forall inp : Inputs,
      (AtEpochLoop ∉ fst (main inp)) /\
      match in_config inp with
      | Some _ =>
          main inp = ([AtParseArgs; AtLoadConfig; AtDataset],
                      Raise (TypeError "missing required positional arguments: root_dir"))
      | None => main inp = ([AtParseArgs; AtLoadConfig], Raise (FileNotFoundError "config"))
      end).
Proof.
  assert (Hbind : bind_call Nutrition5kDataset_init 1 ["transform"]
                  = Raise (TypeError "missing required positional arguments: root_dir"))
    by (vm_compute; reflexivity).
  split; [apply (bool_decide_unpack _); vm_compute; reflexivity|].
  split; [apply (bool_decide_unpack _); vm_compute; reflexivity|].
  split; [intros inp; vm_compute; reflexivity|].
  split; [exact Hbind|].
  assert (Hdataset :
            (_ <- build_pipeline [Resize_init (PTuple [299; 299]); Ok ToTensor] ;;
             bind_call Nutrition5kDataset_init 1 ["transform"])
            = Raise (TypeError "missing required positional arguments: root_dir"))
    by (vm_compute; reflexivity).
  intros inp. unfold main. destruct (in_config inp) as [config|]; cbv zeta.
  - rewrite Hdataset. split; [|done]. simpl.
    repeat (apply not_elem_of_cons; split; [discriminate|]). apply not_elem_of_nil.
  - split; [|done]. simpl.
    repeat (apply not_elem_of_cons; split; [discriminate|]). apply not_elem_of_nil.
Qed.

(** ** Shapes *)

Lemma sk_resize_shape `{External} (t : list (list (list Q))) (channels new_h new_w : nat)
    (tag : array -> value) :
  (tag = NDArray \/ tag = Tensor) ->
  length (hd [] (hd [] t)) = channels ->
  exists r, sk_resize (tag (A3 t)) new_h new_w = NDArray (A3 r) /\
            has_shape3 new_h new_w channels r.
Proof.
  intros Htag Hch. eexists. split.
  - destruct Htag as [-> | ->]; reflexivity.
  - rewrite Hch. split; [by rewrite length_map, length_seq|].
    apply Forall_map, Forall_forall. intros i _. simpl.
    split; [by rewrite length_map, length_seq|].
    apply Forall_map, Forall_forall. intros j _. simpl.
    by rewrite length_map, length_seq.
Qed.

Lemma has_shape3_channels (d0 d1 d2 : nat) (t : list (list (list Q))) :
  has_shape3 d0 d1 d2 t -> 0 < d0 -> 0 < d1 -> length (hd [] (hd [] t)) = d2.
Proof.
  intros [Hlen Hall] H0 H1.
  destruct t as [|plane t]; [simpl in Hlen; lia|].
  apply Forall_cons in Hall as [[Hp Hlines] _]. simpl.
  destruct plane as [|line plane]; [simpl in Hp; lia|].
  apply Forall_cons in Hlines as [Hl _]. done.
Qed.

Lemma transpose_201_shape (d0 d1 d2 : nat) (t : list (list (list Q))) :
  has_shape3 d0 d1 d2 t -> 0 < d0 -> 0 < d1 ->
  has_shape3 d2 d0 d1 (transpose_201 t).
Proof.
  intros Hs H0 H1. pose proof (has_shape3_channels _ _ _ _ Hs H0 H1) as Hch.
  destruct Hs as [Hlen Hall]. unfold transpose_201. rewrite Hch.
  split; [by rewrite length_map, length_seq|].
  apply Forall_map, Forall_forall. intros c _. simpl.
  split; [by rewrite length_map|].
  apply Forall_map. eapply Forall_impl; [exact Hall|].
  intros plane [Hp _]. simpl. by rewrite length_map.
Qed.

(** Entry [(c, i, j)] of the transposed array is entry [(i, j, c)] of the
    original. *)
Lemma transpose_201_entry (t : list (list (list Q))) (c i j : nat) :
  c < length (hd [] (hd [] t)) ->
  nth j (nth i (nth c (transpose_201 t) []) []) 0%Q
  = nth c (nth j (nth i t []) []) 0%Q.
Proof.
  intros Hc. unfold transpose_201.
  set (g := fun (c0 : nat) (row : list (list Q)) => map (fun px : list Q => nth c0 px 0%Q) row).
  set (f := fun c0 : nat => map (g c0) t).
  change (nth j (nth i (nth c (map f (seq 0 (length (hd [] (hd [] t))))) []) []) 0%Q
          = nth c (nth j (nth i t []) []) 0%Q).
  rewrite (nth_indep _ [] (f 0)) by (by rewrite length_map, length_seq).
  rewrite (map_nth f), seq_nth by done. simpl. unfold f.
  assert (Hrow : nth i (map (g c) t) [] = g c (nth i t []))
    by exact (map_nth (g c) t [] i).
  rewrite Hrow. unfold g.
  destruct (decide (j < length (nth i t []))) as [Hj|Hj].
  - rewrite (nth_indep _ 0%Q (nth c [] 0%Q)) by (by rewrite length_map).
    by rewrite (map_nth (fun px : list Q => nth c px 0%Q)).
  - rewrite nth_overflow by (rewrite length_map; lia).
    rewrite (nth_overflow (nth i t [])) by lia. by destruct c.
Qed.

(** ** What each transform does to the heap *)

Lemma mbind_Ok {A B : Type} (c : M A) (k : A -> M B) (w w' : World) (a : A) :
  c w = (Ok a, w') -> mbind c k w = k a w'.
Proof. intros Hc. unfold mbind. by rewrite Hc. Qed.

Lemma mbind_Raise {A B : Type} (c : M A) (k : A -> M B) (w w' : World) (e : pyexn) :
  c w = (Raise e, w') -> mbind c k w = (Raise e, w').
Proof. intros Hc. unfold mbind. by rewrite Hc. Qed.

Lemma call_Resize `{External} (w : World) (sample : nat) (d : gmap string value)
    (img : value) (new_h new_w : nat) :
  heap w !! sample = Some d -> d !! "image" = Some img ->
  0 < new_h -> 0 < new_w ->
  call (Resize (PTuple [new_h; new_w])) sample w
  = (Ok sample,
     mkWorld (<[sample := <["image" := sk_resize img new_h new_w]> d]> (heap w))
             (torch_rng w)).
Proof.
  intros Hd Himg Hh Hw.
  unfold call, mbind, lift, load, store, ret, obj, dict_get, transform_resize.
  simpl. rewrite Hd. simpl. rewrite Himg.
  destruct new_h; [lia|]. destruct new_w; [lia|]. reflexivity.
Qed.

Lemma call_Resize_zero `{External} (w : World) (sample : nat) (d : gmap string value)
    (img : value) (new_h new_w : nat) :
  heap w !! sample = Some d -> d !! "image" = Some img ->
  new_h = 0 \/ new_w = 0 ->
  call (Resize (PTuple [new_h; new_w])) sample w = (Raise OverflowError, w).
Proof.
  intros Hd Himg Hz.
  unfold call, mbind, lift, load, store, ret, obj, dict_get, transform_resize.
  simpl. rewrite Hd. simpl. rewrite Himg.
  destruct Hz as [-> | ->]; [reflexivity|]. by rewrite orb_true_r.
Qed.

Lemma call_ToTensor `{External} (w : World) (sample : nat) (d : gmap string value)
    (t : list (list (list Q))) (m c : array) :
  heap w !! sample = Some d ->
  d !! "image" = Some (NDArray (A3 t)) ->
  d !! "mass" = Some (NDArray m) ->
  d !! "calories" = Some (NDArray c) ->
  call ToTensor sample w
  = (Ok (fresh (dom (heap w))),
     mkWorld (<[fresh (dom (heap w)) :=
                  <["image" := Tensor (A3 (transpose_201 t))]>
                    (<["mass" := Tensor m]> (<["calories" := Tensor c]> ∅))]> (heap w))
             (torch_rng w)).
Proof.
  intros Hd Himg Hmass Hcal.
  unfold call, mbind, lift, load, alloc, obj, dict_get.
  rewrite Hd. simpl. by rewrite Himg, Hmass, Hcal.
Qed.

(** C10. For a sample holding an [h0 x w0 x 3] ndarray image (all
    dimensions positive) and ndarray targets, [Resize((th, tw))] followed by
    [ToTensor] returns a sample whose image is a tensor of shape
    [(3, th, tw)], entry [(c, i, j)] being entry [(i, j, c)] of the
    [th x tw x 3] resized array, and whose mass and calories are the same
    values as tensors. *)
Theorem resize_to_tensor_shape `{External} (w : World) (sample : nat)
    (d : gmap string value) (t : list (list (list Q))) (m c : array)
    (h0 w0 th tw : nat) :
  heap w !! sample = Some d ->
  d !! "image" = Some (NDArray (A3 t)) ->
  d !! "mass" = Some (NDArray m) ->
  d !! "calories" = Some (NDArray c) ->
  has_shape3 h0 w0 3 t -> 0 < h0 -> 0 < w0 -> 0 < th -> 0 < tw ->
  exists out w' r,
    Compose_call (mkCompose [Resize (PTuple [th; tw]); ToTensor]) sample w = (Ok out, w') /\
    sk_resize (NDArray (A3 t)) th tw = NDArray (A3 r) /\
    has_shape3 th tw 3 r /\
    heap w' !! out
    = Some (<["image" := Tensor (A3 (transpose_201 r))]>
              (<["mass" := Tensor m]> (<["calories" := Tensor c]> ∅))) /\
    has_shape3 3 th tw (transpose_201 r) /\
    shape3 (transpose_201 r) = (3, th, tw) /\
    (forall ch i j, ch < 3 ->
       nth j (nth i (nth ch (transpose_201 r) []) []) 0%Q
       = nth ch (nth j (nth i r []) []) 0%Q).
Proof.
  intros Hd Himg Hmass Hcal Hshape Hh0 Hw0 Hth Htw.
  pose proof (has_shape3_channels _ _ _ _ Hshape Hh0 Hw0) as Hch.
  destruct (sk_resize_shape t 3 th tw NDArray (or_introl eq_refl) Hch) as (r & Hr & Hrs).
  pose proof (transpose_201_shape _ _ _ _ Hrs Hth Htw) as Hts.
  set (w1 := mkWorld (<[sample := <["image" := NDArray (A3 r)]> d]> (heap w)) (torch_rng w)).
  eexists (fresh (dom (heap w1))), _, r.
  split.
  - unfold Compose_call. cbn [transforms call_all].
    rewrite (mbind_Ok _ _ w w1 sample)
      by (rewrite (call_Resize w sample d (NDArray (A3 t)) th tw Hd Himg Hth Htw), Hr; done).
    erewrite mbind_Ok; [reflexivity|].
    apply (call_ToTensor w1 sample (<["image" := NDArray (A3 r)]> d) r m c).
    + apply lookup_insert_eq.
    + apply lookup_insert_eq.
    + by rewrite lookup_insert_ne.
    + by rewrite lookup_insert_ne.
  - split; [done|]. split; [done|].
    split; [apply lookup_insert_eq|]. split; [done|]. split.
    + destruct Hts as [Hl Hall]. unfold shape3.
      destruct (transpose_201 r) as [|plane planes]; [simpl in Hl; lia|].
      apply Forall_cons in Hall as [[Hp Hlines] _]. simpl.
      destruct plane as [|line plane]; [simpl in Hp; lia|].
      apply Forall_cons in Hlines as [Hline _]. simpl in *. congruence.
    + intros ch i j Hlt. apply transpose_201_entry.
      by rewrite (has_shape3_channels _ _ _ _ Hrs Hth Htw).
Qed.

(** ** Frame rules for the transforms *)

Lemma post_bind {A B : Type} (c : M A) (k : A -> M B) (w : World) (Q : B -> World -> Prop) :
  post c w (fun a w1 => post (k a) w1 Q) -> post (mbind c k) w Q.
Proof.
  unfold post, mbind. intros Hc b w' Hrun.
  destruct (c w) as [[e|a] w1] eqn:Ec; [discriminate|]. by eapply Hc.
Qed.

Lemma post_ret {A : Type} (a : A) (w : World) (Q : A -> World -> Prop) :
  Q a w -> post (ret a) w Q.
Proof. unfold post, ret. by intros HQ a' w' [= <- <-]. Qed.

Lemma post_lift {A : Type} (r : result A) (w : World) (Q : A -> World -> Prop) :
  (forall a, r = Ok a -> Q a w) -> post (lift r) w Q.
Proof. unfold post, lift. intros HQ a w' [= -> <-]. by apply HQ. Qed.

Lemma post_load (loc : nat) (key : string) (w : World) (Q : value -> World -> Prop) :
  (forall v, obj w loc !! key = Some v -> Q v w) -> post (load loc key) w Q.
Proof.
  unfold post, load, dict_get. intros HQ v w' Hrun.
  destruct (obj w loc !! key) as [v'|] eqn:Hv; [|discriminate].
  injection Hrun as <- <-. by apply HQ.
Qed.

Lemma post_store (loc : nat) (key : string) (v : value) (w : World)
    (Q : unit -> World -> Prop) :
  Q tt (mkWorld (<[loc := <[key := v]> (obj w loc)]> (heap w)) (torch_rng w)) ->
  post (store loc key v) w Q.
Proof. unfold post, store. by intros HQ [] w' [= <-]. Qed.

Lemma post_random_flip `{External} (flip : value -> result value) (p : Q) (img : value)
    (w : World) (Q : value -> World -> Prop) :
  (forall v, Q v (mkWorld (heap w) (S (torch_rng w)))) ->
  post (random_flip flip p img) w Q.
Proof.
  intros HQ. unfold random_flip. apply post_bind.
  unfold post at 1, torch_rand. intros r w1 [= <- <-].
  destruct (Qlt_le_dec _ p); [apply post_lift|apply post_ret]; auto.
Qed.

Lemma only_assigns_refl (keys : list string) (sample : nat) (w : World) :
  only_assigns keys sample 0 w w.
Proof. unfold only_assigns. rewrite Nat.add_0_r. naive_solver. Qed.

Lemma only_assigns_store (keys : list string) (sample n : nat) (w w1 : World)
    (key : string) (v : value) :
  key ∈ keys ->
  only_assigns keys sample n w w1 ->
  only_assigns keys sample n w
    (mkWorld (<[sample := <[key := v]> (obj w1 sample)]> (heap w1)) (torch_rng w1)).
Proof.
  intros Hkey (Hrng & Hframe & Hkeys & Hsome).
  split; [done|]. split; [|split].
  - intros loc Hloc. simpl. rewrite lookup_insert_ne by done. by apply Hframe.
  - intros k Hk. unfold obj at 1. simpl. rewrite lookup_insert_eq. simpl.
    rewrite lookup_insert_ne by (intros ->; done). by apply Hkeys.
  - intros _. simpl. rewrite lookup_insert_eq. by eexists.
Qed.

Lemma only_assigns_draw (keys : list string) (sample n : nat) (w w1 : World) :
  only_assigns keys sample n w w1 ->
  only_assigns keys sample (n + 1) w (mkWorld (heap w1) (S (torch_rng w1))).
Proof.
  intros (Hrng & Hframe & Hkeys & Hsome).
  split; [simpl; lia|]. by split; [|split].
Qed.

(** The five transforms that assign into the sample they are given. *)
Lemma call_in_place `{External} (t : Transform) (sample : nat) (w : World) :
  t <> ToTensor ->
  post (call t sample) w
       (fun out w' => out = sample /\ only_assigns (assigned t) sample (draws t) w w').
Proof.
  intros Hnt. pose proof (only_assigns_refl (assigned t) sample w) as Hinv.
  destruct t; [| | | |done|]; unfold call.
  - apply post_bind, post_lift. intros hw _.
    apply post_bind, post_load. intros image _.
    apply post_bind, post_lift. intros resized _.
    apply post_bind, post_store, post_ret. split; [done|].
    apply only_assigns_store; [set_solver|done].
  - apply post_bind, post_load. intros image _.
    apply post_bind, post_lift. intros cropped _.
    apply post_bind, post_store, post_ret. split; [done|].
    apply only_assigns_store; [set_solver|done].
  - apply post_bind, post_load. intros image _.
    apply post_bind, post_random_flip. intros flipped.
    apply post_bind, post_store, post_ret. split; [done|].
    apply (only_assigns_store _ _ _ _ (mkWorld (heap w) (S (torch_rng w))));
      [set_solver|]. by apply (only_assigns_draw _ _ 0).
  - apply post_bind, post_load. intros image _.
    apply post_bind, post_random_flip. intros flipped.
    apply post_bind, post_store, post_ret. split; [done|].
    apply (only_assigns_store _ _ _ _ (mkWorld (heap w) (S (torch_rng w))));
      [set_solver|]. by apply (only_assigns_draw _ _ 0).
  - apply post_bind, post_load. intros mass0 _.
    apply post_bind, post_store.
    apply post_bind, post_load. intros calories0 _.
    apply post_bind, post_store.
    apply post_bind, post_load. intros image _.
    apply post_bind, post_lift. intros normalized _.
    apply post_bind, post_store, post_ret. split; [done|].
    do 3 (apply only_assigns_store; [set_solver|]). done.
Qed.

(** [ToTensor] builds a new dict and writes nowhere else. *)
Lemma call_ToTensor_fresh `{External} (sample : nat) (w : World) :
  post (call ToTensor sample) w
       (fun out w' => heap w !! out = None /\
                      torch_rng w' = torch_rng w /\
                      forall loc, loc <> out -> heap w' !! loc = heap w !! loc).
Proof.
  unfold call.
  apply post_bind, post_load. intros image0 _.
  apply post_bind, post_lift. intros image _.
  apply post_bind, post_lift. intros timage _.
  apply post_bind, post_load. intros mass0 _.
  apply post_bind, post_lift. intros tmass _.
  apply post_bind, post_load. intros calories0 _.
  apply post_bind, post_lift. intros tcalories _.
  unfold post, alloc. intros out w' [= <- <-]. simpl.
  split; [apply not_elem_of_dom, is_fresh|]. split; [done|].
  intros loc Hloc. by rewrite lookup_insert_ne.
Qed.

Lemma post_random_flip_value `{External} (flip : value -> result value) (p : Q) (img : value)
    (w : World) (Q : value -> World -> Prop) :
  (forall v, (if Qlt_le_dec (ext_rand (torch_rng w)) p then flip img = Ok v else v = img) ->
             Q v (mkWorld (heap w) (S (torch_rng w)))) ->
  post (random_flip flip p img) w Q.
Proof.
  intros HQ. unfold random_flip. apply post_bind.
  unfold post at 1, torch_rand. intros r w1 [= <- <-].
  specialize (HQ). destruct (Qlt_le_dec _ p) as [Hlt|Hge].
  - apply post_lift. intros v Hv. by apply HQ.
  - apply post_ret. by apply HQ.
Qed.

Lemma obj_heap (w : World) (loc : nat) (d : gmap string value) :
  heap w !! loc = Some d -> obj w loc = d.
Proof. intros Hd. unfold obj. by rewrite Hd. Qed.

Lemma transform_resize_Ok `{External} (image resized : value) (new_h new_w : nat) :
  transform_resize image new_h new_w = Ok resized ->
  0 < new_h /\ 0 < new_w /\ resized = sk_resize image new_h new_w.
Proof.
  unfold transform_resize.
  destruct new_h; [discriminate|]. destruct new_w; [discriminate|].
  simpl. intros [= <-]. repeat split; lia.
Qed.

(** What the five in-place transforms write. *)
Lemma call_assigns `{External} (t : Transform) (sample : nat) (w : World)
    (d : gmap string value) :
  t <> ToTensor -> heap w !! sample = Some d ->
  post (call t sample) w
       (fun out w' => exists d', heap w' !! sample = Some d' /\
                                 assigned_values t (torch_rng w) d d').
Proof.
  intros Hnt Hd. pose proof (obj_heap w sample d Hd) as Hobj.
  destruct t; [| | | |done|]; unfold call.
  - apply post_bind, post_lift. intros [new_h new_w] Hhw.
    apply post_bind, post_load. intros image Himg.
    apply post_bind, post_lift. intros resized Hres.
    apply post_bind, post_store, post_ret.
    apply transform_resize_Ok in Hres as (Hh & Hw & ->).
    eexists. split; [apply lookup_insert_eq|].
    rewrite Hobj in *. by exists new_h, new_w, image.
  - apply post_bind, post_load. intros image Himg.
    apply post_bind, post_lift. intros cropped Hc.
    apply post_bind, post_store, post_ret.
    eexists. split; [apply lookup_insert_eq|].
    rewrite Hobj in *. by exists image, cropped.
  - apply post_bind, post_load. intros image Himg.
    apply post_bind, post_random_flip_value. intros flipped Hf.
    apply post_bind, post_store, post_ret.
    eexists. split; [apply lookup_insert_eq|].
    unfold obj in *. simpl. rewrite Hd in *. simpl in *. by exists image, flipped.
  - apply post_bind, post_load. intros image Himg.
    apply post_bind, post_random_flip_value. intros flipped Hf.
    apply post_bind, post_store, post_ret.
    eexists. split; [apply lookup_insert_eq|].
    unfold obj in *. simpl. rewrite Hd in *. simpl in *. by exists image, flipped.
  - apply post_bind, post_load. intros mass0 Hm.
    apply post_bind, post_store.
    apply post_bind, post_load. intros calories0 Hc.
    apply post_bind, post_store.
    apply post_bind, post_load. intros image Hi.
    apply post_bind, post_lift. intros normalized Hn.
    apply post_bind, post_store, post_ret.
    eexists. split; [apply lookup_insert_eq|].
    unfold obj in *. simpl in *. rewrite Hd in *. simpl in *.
    rewrite !lookup_insert_eq in *. simpl in *.
    rewrite lookup_insert_ne in Hc by done.
    rewrite !lookup_insert_ne in Hi by done.
    by exists mass0, calories0, image, normalized.
Qed.

(** What a successful [ToTensor] was given and what it built. *)
Lemma call_ToTensor_inv `{External} (sample out : nat) (w w' : World) :
  call ToTensor sample w = (Ok out, w') ->
  exists t m c,
    obj w sample !! "image" = Some (NDArray (A3 t)) /\
    obj w sample !! "mass" = Some (NDArray m) /\
    obj w sample !! "calories" = Some (NDArray c) /\
    out = fresh (dom (heap w)) /\
    w' = mkWorld (<[out := <["image" := Tensor (A3 (transpose_201 t))]>
                              (<["mass" := Tensor m]> (<["calories" := Tensor c]> ∅))]>
                    (heap w)) (torch_rng w).
Proof.
  unfold call, mbind, lift, load, alloc, dict_get.
  destruct (obj w sample !! "image") as [[[|t]|]|]; simpl; try discriminate.
  destruct (obj w sample !! "mass") as [[m|]|]; simpl; try discriminate.
  destruct (obj w sample !! "calories") as [[c|]|]; simpl; try discriminate.
  intros [= <- <-]. by exists t, m, c.
Qed.

Lemma assigned_values_present `{External} (t : Transform) (rng : nat)
    (d d' : gmap string value) :
  assigned_values t rng d d' -> forall k, k ∈ assigned t -> is_Some (d' !! k).
Proof.
  destruct t; simpl.
  - intros (h & w0 & img & _ & _ & _ & _ & ->) k Hk.
    apply list_elem_of_singleton in Hk as ->. rewrite lookup_insert_eq. by eexists.
  - intros (img & c & _ & _ & ->) k Hk.
    apply list_elem_of_singleton in Hk as ->. rewrite lookup_insert_eq. by eexists.
  - intros (img & f & _ & _ & ->) k Hk.
    apply list_elem_of_singleton in Hk as ->. rewrite lookup_insert_eq. by eexists.
  - intros (img & f & _ & _ & ->) k Hk.
    apply list_elem_of_singleton in Hk as ->. rewrite lookup_insert_eq. by eexists.
  - intros _ k Hk. by apply elem_of_nil in Hk.
  - intros (m0 & c0 & img & n & _ & _ & _ & _ & ->) k Hk.
    repeat (apply elem_of_cons in Hk as [->|Hk]);
      [| |rewrite lookup_insert_eq; by eexists|by apply elem_of_nil in Hk].
    + do 2 (rewrite lookup_insert_ne by done). rewrite lookup_insert_eq. by eexists.
    + rewrite lookup_insert_ne by done. rewrite lookup_insert_eq. by eexists.
Qed.

(** C8 (amended). Only [ToTensor] returns a new sample and leaves its input
    untouched: the dict it was given stays as it was and the new dict holds
    the transposed image and the two targets as tensors. [Resize],
    [CenterCrop], [RandomHorizontalFlip], [RandomVerticalFlip] and
    [Normalize] assign into the dict they are given and return that same
    dict: ['image'] is overwritten with the resized, cropped, flipped or
    normalised image (by [Normalize] also ['mass'] and ['calories'] with the
    rescaled targets), every other key and every other object is left as it
    was. No transform keeps state of its own between calls; the two flips
    each take one draw from the process-wide generator. *)
Theorem transforms_assign_in_place `{External} (t : Transform) (w w' : World)
    (sample out : nat) (d : gmap string value) :
  heap w !! sample = Some d ->
  call t sample w = (Ok out, w') ->
  torch_rng w' = torch_rng w + draws t /\
  match t with
  | ToTensor =>
      heap w !! out = None /\ out <> sample /\
      (forall loc, loc <> out -> heap w' !! loc = heap w !! loc) /\
      heap w' !! sample = Some d /\
      exists d', heap w' !! out = Some d' /\ tensor_sample d d'
  | _ =>
      out = sample /\
      (forall loc, loc <> sample -> heap w' !! loc = heap w !! loc) /\
      exists d', heap w' !! sample = Some d' /\
                 (forall k, k ∉ assigned t -> d' !! k = d !! k) /\
                 (forall k, k ∈ assigned t -> is_Some (d' !! k)) /\
                 assigned_values t (torch_rng w) d d'
  end.
Proof.
  intros Hd Hcall.
  assert (Hin : t <> ToTensor ->
                torch_rng w' = torch_rng w + draws t /\
                out = sample /\
                (forall loc, loc <> sample -> heap w' !! loc = heap w !! loc) /\
                exists d', heap w' !! sample = Some d' /\
                           (forall k, k ∉ assigned t -> d' !! k = d !! k) /\
                           (forall k, k ∈ assigned t -> is_Some (d' !! k)) /\
                           assigned_values t (torch_rng w) d d').
  { intros Hnt.
    destruct (call_in_place t sample w Hnt out w' Hcall)
      as (-> & Hrng & Hframe & Hkeys & Hsome).
    destruct (call_assigns t sample w d Hnt Hd sample w' Hcall) as (d' & Hd' & Hval).
    split; [done|]. split; [done|]. split; [done|].
    exists d'. split; [done|]. split; [|split; [|done]].
    - intros k Hk. specialize (Hkeys k Hk). unfold obj in Hkeys.
      by rewrite Hd', Hd in Hkeys.
    - by eapply assigned_values_present. }
  destruct t; try (destruct Hin as (? & ? & ? & ?); done).
  destruct (call_ToTensor_fresh sample w out w' Hcall) as (Hnew & Hrng & Hframe).
  assert (Hne : out <> sample) by (intros ->; by rewrite Hd in Hnew).
  simpl. rewrite Nat.add_0_r. split; [done|]. split; [done|]. split; [done|].
  split; [done|]. split; [by rewrite Hframe|].
  destruct (call_ToTensor_inv sample out w w' Hcall) as (t & m & c & Hi & Hm & Hc & _ & ->).
  rewrite (obj_heap w sample d Hd) in Hi, Hm, Hc.
  eexists. split; [apply lookup_insert_eq|]. by exists t, m, c.
Qed.

Lemma transforms_assign_in_place_witness :
  heap raw_world !! 0 = Some raw_sample /\
  exists w',
    call (H := plain) (Resize (PTuple [1; 1])) 0 raw_world = (Ok 0, w') /\
    torch_rng w' = 0 /\
    exists d', heap w' !! 0 = Some d' /\
               d' !! "mass" = raw_sample !! "mass" /\
               is_Some (d' !! "image") /\
               assigned_values (H := plain) (Resize (PTuple [1; 1])) 0 raw_sample d'.
Proof.
  assert (Hd : heap raw_world !! 0 = Some raw_sample) by reflexivity.
  split; [exact Hd|].
  destruct (call (H := plain) (Resize (PTuple [1; 1])) 0 raw_world) as [r w'] eqn:Hcall.
  assert (Hr : fst (call (H := plain) (Resize (PTuple [1; 1])) 0 raw_world) = Ok 0)
    by (vm_compute; reflexivity).
  rewrite Hcall in Hr. simpl in Hr. subst r. exists w'. split; [reflexivity|].
  destruct (transforms_assign_in_place (H := plain) (Resize (PTuple [1; 1]))
              raw_world w' 0 0 raw_sample Hd Hcall)
    as (Hrng & _ & _ & d' & Hd' & Hkeys & Hset & Hval).
  split; [exact Hrng|]. exists d'. split; [exact Hd'|]. split; [|split; [|exact Hval]].
  - apply Hkeys. simpl. apply not_elem_of_cons. split; [discriminate|apply not_elem_of_nil].
  - apply Hset. simpl. by left.
Defined.

(** C8 as worded fails, whatever the libraries compute: [Resize((1, 1))] on
    the raw sample returns the dict it was given, whose [2 x 2 x 3] image it
    has replaced by a [1 x 1 x 3] one. *)
Lemma resize_overwrites_input :
  shape3 raw_image = (2, 2, 3) /\
  obj raw_world 0 !! "image" = Some (NDArray (A3 raw_image)) /\
  forall E : External,
    exists w' resized,
      call (H := E) (Resize (PTuple [1; 1])) 0 raw_world = (Ok 0, w') /\
      obj w' 0 !! "image" = Some (NDArray (A3 resized)) /\
      shape3 resized = (1, 1, 3) /\
      ~ spec_pure (H := E) (Resize (PTuple [1; 1])).
Proof.
  assert (Hd : heap raw_world !! 0 = Some raw_sample) by reflexivity.
  assert (Himg : raw_sample !! "image" = Some (NDArray (A3 raw_image)))
    by (vm_compute; reflexivity).
  split; [reflexivity|]. split; [by rewrite (obj_heap _ _ _ Hd)|].
  intros E.
  pose proof (call_Resize (H := E) raw_world 0 raw_sample (NDArray (A3 raw_image)) 1 1
                Hd Himg ltac:(lia) ltac:(lia)) as Hcall.
  eexists _, _. split; [exact Hcall|]. split.
  { unfold obj. cbn [heap]. rewrite lookup_insert_eq. cbn [from_option id].
    rewrite lookup_insert_eq. reflexivity. }
  split; [reflexivity|].
  intros Hpure.
  destruct (Hpure raw_world _ 0 0 ltac:(by eexists) Hcall) as [Hne _].
  by apply Hne.
Qed.

(** C9 (amended). Nothing checks the order of a pipeline. [Compose] keeps
    any list of transforms as given, so building a pipeline from constructed
    transforms always succeeds, also when [ToTensor] does not precede
    [Normalize]; building fails only with the exception of an element's own
    constructor. The transforms are applied, in list order, when a sample is
    processed. *)
Theorem pipeline_order_unchecked (ts : list Transform) :
  Compose_init ts = Ok (mkCompose ts) /\
  build_pipeline (map Ok ts) = Ok (mkCompose ts) /\
  (forall elems : list (result Transform),
      match build_pipeline elems with
      | inl e => Raise e ∈ elems
      | inr c => elems = map Ok (transforms c)
      end) /\
  (forall (E : External) (sample : nat) (w : World),
      Compose_call (mkCompose ts) sample w = call_all ts sample w).
Proof.
  assert (Hall : forall elems : list (result Transform),
             match construct_all elems with
             | inl e => Raise e ∈ elems
             | inr l => elems = map Ok l
             end).
  { induction elems as [|[e|t] elems IH]; simpl; [done|by left|].
    destruct (construct_all elems) as [e|l]; simpl.
    - by right.
    - by rewrite IH. }
  split; [done|]. split.
  - unfold build_pipeline.
    assert (Hts : construct_all (map Ok ts) = Ok ts).
    { induction ts as [|t ts IH]; simpl; [done|]. by rewrite IH. }
    by rewrite Hts.
  - split; [|done]. intros elems. unfold build_pipeline.
    specialize (Hall elems). by destruct (construct_all elems).
Qed.

(** C9 as worded fails: the pipeline [Normalize, ToTensor] is built without
    any exception. *)
Lemma misordered_pipeline_is_built :
  spec_ordered false misordered = false /\
  build_pipeline (map Ok misordered) = Ok (mkCompose misordered) /\
  ~ spec_order_checked misordered (build_pipeline (map Ok misordered)).
Proof.
  split; [reflexivity|]. split; [reflexivity|].
  intros Hchecked. destruct (Hchecked eq_refl) as (e & He & _). discriminate He.
Qed.

Lemma resize_to_tensor_shape_witness :
  heap raw_world !! 0 = Some raw_sample /\
  has_shape3 2 2 3 raw_image /\
  exists out w' r,
    Compose_call (H := plain) (mkCompose [Resize (PTuple [1; 2]); ToTensor]) 0 raw_world
    = (Ok out, w') /\
    sk_resize (H := plain) (NDArray (A3 raw_image)) 1 2 = NDArray (A3 r) /\
    shape3 (transpose_201 r) = (3, 1, 2).
Proof.
  assert (Hd : heap raw_world !! 0 = Some raw_sample) by reflexivity.
  assert (Hs : has_shape3 2 2 3 raw_image)
    by (split; [reflexivity|repeat constructor]).
  split; [exact Hd|]. split; [exact Hs|].
  destruct (resize_to_tensor_shape (H := plain) raw_world 0 raw_sample raw_image
              (A2 [[(201#2)%Q]]) (A2 [[250%Q]]) 2 2 1 2 Hd)
    as (out & w' & r & Hcall & Hr & _ & _ & _ & Hshape & _);
    [vm_compute; reflexivity|vm_compute; reflexivity|vm_compute; reflexivity
    |exact Hs|lia|lia|lia|lia|].
  exists out, w', r. split; [exact Hcall|]. split; [exact Hr|exact Hshape].
Defined.

(** Under the library double, the misordered pipeline fails only once a
    sample is processed, after [Normalize] has already rescaled the mass. *)
Example misordered_fails_on_a_sample :
  fst (call_all (H := plain) misordered 0 raw_world)
  = Raise (TypeError "img should be Tensor Image") /\
  obj (snd (call_all (H := plain) misordered 0 raw_world)) 0 !! "mass"
  <> obj raw_world 0 !! "mass".
Proof. split; [vm_compute; reflexivity|vm_compute; discriminate]. Qed.

(** Fractions are proportions; a negative number is no split specification.
    Given one, the slices count from the end of the index and overlap. *)
Example negative_fraction_overlaps :
  split_index (fun _ => 0) four_rows (mkSplit (-1#2) (1#2))
  = mkSplitIndex [1; 2] [] [1; 2; 3; 0].
Proof. vm_compute. reflexivity. Qed.

(** ** The contents of the metadata index *)

Section IndexContents.
Context `{External}.
Variables (fs : FileSystem) (root : string).

Lemma md_rows_snoc (md : Metadata) (d m : string) (c : Z) :
  md_aligned md ->
  md_rows (mkMetadata (md_dish_id md ++ [d]) (md_mass md ++ [m]) (md_calories md ++ [c]))
  = md_rows md ++ [mkDishRow d m c].
Proof.
  intros [Hm Hc]. unfold md_rows. simpl.
  rewrite zip_with_app by lia. rewrite zip_with_app by (rewrite length_zip_with; lia).
  done.
Qed.

Lemma read_row_step (md md' : Metadata) (line : string) :
  md_aligned md -> read_row fs root md line = Ok md' ->
  md_aligned md' /\
  md_rows md'
  = md_rows md ++ (if has_image fs root line
                   then match line_record line with Some r => [r] | None => [] end
                   else []) /\
  (has_image fs root line = true -> is_Some (line_record line)).
Proof.
  intros Hal. unfold read_row, has_image, line_record.
  destruct (str_split "," line) as [|d [|p1 [|p2 tl]]]; simpl; try discriminate;
    destruct (fs_exists fs (frame_path root d)) eqn:Himg; simpl;
    try (intros [= <-]; split; [done|split; [by rewrite app_nil_r|done]]);
    try discriminate.
  - destruct (ext_int_float p1); simpl; discriminate.
  - destruct (ext_int_float p1) as [e|c]; simpl; [discriminate|].
    intros [= <-]. split; [|split; [|by eexists]].
    + destruct Hal as [Hm Hc]. split; simpl; rewrite !length_app; simpl; lia.
    + by apply (md_rows_snoc md d p2 c).
Qed.

Lemma read_rows_contents (md md' : Metadata) (lines : list string) :
  md_aligned md -> read_rows fs root md lines = Ok md' ->
  md_aligned md' /\
  map Some (drop (length (md_rows md)) (md_rows md'))
  = map line_record (filter (fun l => has_image fs root l = true) lines) /\
  take (length (md_rows md)) (md_rows md') = md_rows md.
Proof.
  revert md. induction lines as [|line lines IH]; intros md Hal; simpl.
  - intros [= <-]. rewrite drop_all, take_ge by lia. done.
  - destruct (read_row fs root md line) as [e|md1] eqn:Hrow; simpl; [discriminate|].
    intros Hrest.
    destruct (read_row_step md md1 line Hal Hrow) as (Hal1 & Hrows1 & Hsome).
    destruct (IH md1 Hal1 Hrest) as (Hal' & Hdrop & Htake).
    split; [done|].
    assert (Hsplit : md_rows md' = md_rows md1 ++ drop (length (md_rows md1)) (md_rows md'))
      by (rewrite <- Htake at 1; by rewrite take_drop).
    destruct (has_image fs root line) eqn:Himg.
    + rewrite filter_cons_True by done.
      destruct (Hsome eq_refl) as [r Hr]. rewrite Hr in Hrows1.
      rewrite Hsplit, Hrows1.
      rewrite <- app_assoc. rewrite drop_app_length, take_app_length.
      split; [|done]. simpl. rewrite Hr. f_equal.
      rewrite <- Hdrop. rewrite Hrows1. done.
    + rewrite filter_cons_False by (rewrite Himg; discriminate).
      rewrite app_nil_r in Hrows1. rewrite <- Hrows1. done.
Qed.

Lemma read_rows_aligned_error (md : Metadata) (lines : list string) (e : pyexn) :
  read_rows fs root md lines = Raise e ->
  e = IndexError \/ exists p, ext_int_float p = Raise e.
Proof.
  revert md. induction lines as [|line lines IH]; intros md; simpl; [discriminate|].
  destruct (read_row fs root md line) as [e'|md1] eqn:Hrow; simpl; [|by apply IH].
  intros [= ->]. unfold read_row in Hrow.
  destruct (str_split "," line) as [|d [|p1 [|p2 tl]]]; simpl in Hrow;
    try (injection Hrow as <-; by left);
    destruct (fs_exists fs (frame_path root d)); simpl in Hrow;
    try discriminate; try (injection Hrow as <-; by left).
  - destruct (ext_int_float p1) as [e1|c] eqn:Hc; simpl in Hrow; injection Hrow as <-.
    + right. by exists p1.
    + by left.
  - destruct (ext_int_float p1) as [e1|c] eqn:Hc; simpl in Hrow; [|discriminate].
    injection Hrow as <-. right. by exists p1.
Qed.

Lemma from_dict_aligned (md : Metadata) :
  md_aligned md -> from_dict md = Ok (zip (seq 0 (length (md_rows md))) (md_rows md)).
Proof.
  intros [Hm Hc]. unfold from_dict.
  rewrite Hm, Hc, !Nat.eqb_refl. simpl. do 2 f_equal.
  unfold md_rows. rewrite !length_zip_with. f_equal. lia.
Qed.

Lemma zip_seq_index (rows : list DishRow) (k : nat) :
  df_index (zip (seq k (length rows)) rows) = seq k (length rows) /\
  map snd (zip (seq k (length rows)) rows) = rows.
Proof.
  unfold df_index. revert k.
  induction rows as [|r rows IH]; intros k; simpl; [done|].
  destruct (IH (S k)) as [-> ->]. done.
Qed.

(** X1. When both metadata files can be read and the build succeeds, the
    index holds exactly one record per line whose frame exists, in file
    order, the lines of the first file before those of the second; each
    record is made of the line's first field, its third field as it stands
    and its converted second field; the index labels are 0, 1, 2, ... *)
Theorem create_nutrition_df_contents (l1 l2 : list string) (df : DataFrame) :
  fs_readlines fs (path_join root ["metadata"; "dish_metadata_cafe1.csv"]) = Some l1 ->
  fs_readlines fs (path_join root ["metadata"; "dish_metadata_cafe2.csv"]) = Some l2 ->
  create_nutrition_df fs root = Ok df ->
  map Some (map snd df)
  = map line_record (filter (fun l => has_image fs root l = true) (l1 ++ l2)) /\
  df_index df = seq 0 (length df).
Proof.
  intros H1 H2. unfold create_nutrition_df, csv_files. cbn [read_csvs].
  unfold read_csv. rewrite H1.
  destruct (read_rows fs root empty_metadata l1) as [e|md1] eqn:Hr1; [discriminate|].
  cbn [bind Ok]. rewrite H2.
  destruct (read_rows fs root md1 l2) as [e|md2] eqn:Hr2; [discriminate|].
  cbn [bind Ok].
  assert (Hal0 : md_aligned empty_metadata) by done.
  destruct (read_rows_contents _ _ _ Hal0 Hr1) as (Hal1 & Hd1 & _).
  destruct (read_rows_contents _ _ _ Hal1 Hr2) as (Hal2 & Hd2 & Ht2).
  rewrite (from_dict_aligned md2 Hal2). intros [= <-].
  destruct (zip_seq_index (md_rows md2) 0) as [Hidx Hsnd].
  rewrite Hsnd. split.
  - rewrite filter_app, map_app, <- Hd1, <- Hd2.
    change (md_rows empty_metadata) with (@nil DishRow). rewrite drop_0.
    rewrite <- map_app. f_equal.
    rewrite <- Ht2 at 1. by rewrite take_drop.
  - rewrite Hidx. by rewrite length_zip_with, length_seq, Nat.min_id.
Qed.

(** X2. When both metadata files can be read, the build can fail only at a
    row: with an [IndexError] from a row with too few fields, or with the
    exception of a calories conversion. The final frame construction never
    fails, the three columns always having one length. *)
Theorem create_nutrition_df_errors (l1 l2 : list string) (e : pyexn) :
  fs_readlines fs (path_join root ["metadata"; "dish_metadata_cafe1.csv"]) = Some l1 ->
  fs_readlines fs (path_join root ["metadata"; "dish_metadata_cafe2.csv"]) = Some l2 ->
  create_nutrition_df fs root = Raise e ->
  e = IndexError \/ exists p, ext_int_float p = Raise e.
Proof.
  intros H1 H2.
  unfold create_nutrition_df, csv_files. cbn [read_csvs]. unfold read_csv.
  rewrite H1.
  destruct (read_rows fs root empty_metadata l1) as [e1|md1] eqn:Hr1.
  { intros [= <-]. by eapply read_rows_aligned_error. }
  cbn [bind Ok]. rewrite H2.
  destruct (read_rows fs root md1 l2) as [e2|md2] eqn:Hr2.
  { intros [= <-]. by eapply read_rows_aligned_error. }
  cbn [bind Ok].
  assert (Hal0 : md_aligned empty_metadata) by done.
  destruct (read_rows_contents _ _ _ Hal0 Hr1) as (Hal1 & _).
  destruct (read_rows_contents _ _ _ Hal1 Hr2) as (Hal2 & _).
  rewrite (from_dict_aligned md2 Hal2). discriminate.
Qed.
End IndexContents.

Lemma create_nutrition_df_contents_witness :
  exists df,
    create_nutrition_df (H := plain) unimaged_fs "data" = Ok df /\
    map Some (map snd df)
    = map (line_record (H := plain))
          (filter (fun l => has_image unimaged_fs "data" l = true)
                  ((two_dishes ++ [unimaged_line]) ++ [])) /\
    df_index df = [0; 1].
Proof.
  destruct (create_nutrition_df (H := plain) unimaged_fs "data") as [e|df] eqn:Hc.
  - vm_compute in Hc. discriminate Hc.
  - exists df. split; [reflexivity|].
    destruct (create_nutrition_df_contents (H := plain) unimaged_fs "data"
                (two_dishes ++ [unimaged_line]) [] df eq_refl eq_refl Hc) as [Hrows Hidx].
    split; [exact Hrows|]. rewrite Hidx.
    vm_compute in Hc. injection Hc as <-. reflexivity.
Defined.

Lemma create_nutrition_df_errors_witness :
  fs_readlines short_fs (path_join "data" ["metadata"; "dish_metadata_cafe1.csv"])
  = Some (two_dishes ++ [short_line]) /\
  fs_readlines short_fs (path_join "data" ["metadata"; "dish_metadata_cafe2.csv"]) = Some [] /\
  create_nutrition_df (H := plain) short_fs "data" = Raise IndexError /\
  (IndexError = IndexError \/ exists p, plain_int_float p = Raise IndexError).
Proof.
  assert (Hc : create_nutrition_df (H := plain) short_fs "data" = Raise IndexError)
    by (vm_compute; reflexivity).
  split; [reflexivity|]. split; [reflexivity|]. split; [exact Hc|].
  exact (create_nutrition_df_errors (H := plain) short_fs "data"
           (two_dishes ++ [short_line]) [] IndexError eq_refl eq_refl Hc).
Defined.

(** ** Where the frame is looked up *)

(** X3. A dish id that starts with a separator makes the frame path
    independent of the dataset root: the lookup goes to
    [<dish_id>/camera_A/1.jpg] wherever the dataset lives. *)
Theorem frame_path_absolute_dish (root_dir dish : string) :
  startswith_sep dish = true ->
  frame_path root_dir dish = path_join dish ["camera_A"; "1.jpg"].
Proof.
  intros Hd. unfold frame_path.
  rewrite (path_join_cons root_dir "imagery"), (path_join_cons _ "side_angles"),
    (path_join_cons _ dish).
  assert (Hstep : forall p, path_join p [dish] = dish).
  { intros p. unfold path_join. simpl. by rewrite Hd. }
  rewrite Hstep. by rewrite (path_join_cons dish "camera_A").
Qed.

Lemma frame_path_absolute_dish_witness :
  startswith_sep "/tmp/x" = true /\
  frame_path "data" "/tmp/x" = "/tmp/x/camera_A/1.jpg".
Proof.
  split; [reflexivity|].
  rewrite (frame_path_absolute_dish "data" "/tmp/x" eq_refl). reflexivity.
Defined.

Lemma frame_path_plain_witness :
  frame_path "data" "D1" = "data/imagery/side_angles/D1/camera_A/1.jpg".
Proof.
  rewrite (frame_path_plain "data" "D1"); [reflexivity|discriminate|reflexivity
                                           |discriminate|reflexivity|reflexivity].
Defined.

(** ** The split at the edges *)



(** X4. For fractions that are not negative, whatever their sum,
    [split_dataframe] returns exactly when both truncated binary64 products
    [a = int(n*f)] and [b = int(n*g)] are defined, and the three frames then
    still partition the input: train gets [min(a, n)] records, validation
    [min(b, n - a)] of what is left, and test the rest, so fractions summing
    to more than 1 shorten validation and test instead of raising. When a
    product is infinite or a NaN, [int] raises [OverflowError] or
    [ValueError] and so does the split. *)
Theorem split_dataframe_clamped (draw : nat -> nat) (df : DataFrame) (split : Split64) :
  NoDup (df_index df) ->
  nonneg64 (train64 split) -> nonneg64 (validation64 split) ->
  let n := length df in
  match scaled64 n (train64 split), scaled64 n (validation64 split) with
  | inr a, inr b =>
      exists train val test,
        split_dataframe64 draw df split = Ok (train, val, test) /\
        (0 <= a)%Z /\ (0 <= b)%Z /\
        length train = Z.to_nat a `min` n /\
        length val = Z.to_nat b `min` (n - Z.to_nat a) /\
        length test = n - (Z.to_nat a + Z.to_nat b) /\
        train ++ val ++ test ≡ₚ df
  | inl e, _ | inr _, inl e =>
      split_dataframe64 draw df split = Raise e /\
      (e = OverflowError \/ e = ValueError "cannot convert float NaN to integer")
  end.
Proof.
  intros Hnd Hf Hg. cbv zeta.
  assert (Herr : forall f e, scaled64 (length df) f = Raise e ->
                   e = OverflowError \/ e = ValueError "cannot convert float NaN to integer").
  { intros f e. unfold scaled64, int_mul_float, float_of_int, float_int, float_value.
    destruct (binary_normalize _ _ _ _ _); cbn [bind Ok];
      try (intros [= <-]; by left);
      destruct (SFmul _ _ _ _); cbn [bind Ok]; try discriminate;
      intros [= <-]; first [by left|by right]. }
  pose proof (split_dataframe64_raise draw df split) as Hrun.
  destruct (scaled64 (length df) (train64 split)) as [e|a] eqn:Ha;
    [split; [exact Hrun|exact (Herr _ _ Ha)]|].
  destruct (scaled64 (length df) (validation64 split)) as [e|b] eqn:Hb;
    [split; [exact Hrun|exact (Herr _ _ Hb)]|].
  clear Hrun.
  pose proof (scaled64_nonneg _ _ _ Hf Ha) as Ha0.
  pose proof (scaled64_nonneg _ _ _ Hg Hb) as Hb0.
  destruct (split_frames64 draw df split a b Hnd Ha Hb Ha0 Hb0)
    as (train & val & test & Hs & Htr & Hva & Hte & Hsl & Hall).
  exists train, val, test. split; [done|]. split; [done|]. split; [done|].
  rewrite <- (df_index_length train), <- (df_index_length val), <- (df_index_length test).
  rewrite Htr, Hva, Hte, !length_take, !length_drop, Hsl.
  split; [lia|]. split; [lia|]. split; [lia|done].
Qed.

Lemma split_dataframe_clamped_witness :
  NoDup (df_index four_rows) /\ nonneg64 0.75 /\
  exists train val test,
    split_dataframe64 (fun _ => 0) four_rows (mkSplit64 0.75 0.75) = Ok (train, val, test) /\
    length train = 3 /\ length val = 1 /\ length test = 0.
Proof.
  assert (Hnd : NoDup (df_index four_rows))
    by (apply (bool_decide_unpack _); vm_compute; reflexivity).
  assert (Hf : nonneg64 0.75) by reflexivity.
  split; [exact Hnd|]. split; [exact Hf|].
  pose proof (split_dataframe_clamped (fun _ => 0) four_rows (mkSplit64 0.75 0.75) Hnd Hf Hf)
    as H.
  cbv zeta in H.
  assert (Ha : scaled64 (length four_rows) 0.75 = Ok 3%Z) by (vm_compute; reflexivity).
  cbn [train64 validation64] in H. rewrite Ha in H.
  destruct H as (train & val & test & Hs & _ & _ & H1 & H2 & H3 & _).
  exists train, val, test. split; [exact Hs|]. by rewrite H1, H2, H3.
Defined.

(** Two records with a validation fraction of [1e308]: the product is
    infinite and [int] raises. *)
Example oversized_fraction_raises :
  split_dataframe64 (fun _ => 0) demo_rows (mkSplit64 1 1e308) = Raise OverflowError.
Proof. vm_compute. reflexivity. Qed.

(** ** Transforms at the edges *)

(** X9. [Resize] works only with a pair of positive sizes: for an output
    size that the constructor admits, a call on a sample with an image
    resizes it when the size is a 2-tuple of positive ints and raises
    [OverflowError] when one of the two is zero; it raises [TypeError] when
    the size is an int (which the assertion and the docstring allow) and
    [ValueError] for a tuple of any other length. In the failing cases the
    sample is not touched. *)
Theorem resize_output_size `{External} (o : pyobj) (sample : nat) (w : World)
    (d : gmap string value) (img : value) :
  Resize_init o = Ok (Resize o) ->
  heap w !! sample = Some d -> d !! "image" = Some img ->
  match o with
  | PTuple [new_h; new_w] =>
      (0 < new_h -> 0 < new_w ->
       call (Resize o) sample w
       = (Ok sample,
          mkWorld (<[sample := <["image" := sk_resize img new_h new_w]> d]> (heap w))
                  (torch_rng w))) /\
      (new_h = 0 \/ new_w = 0 -> call (Resize o) sample w = (Raise OverflowError, w))
  | PInt _ =>
      call (Resize o) sample w
      = (Raise (TypeError "cannot unpack non-iterable int object"), w)
  | _ => exists msg, call (Resize o) sample w = (Raise (ValueError msg), w)
  end.
Proof.
  intros Hinit Hd Himg.
  destruct o as [n|xs|xs]; [reflexivity| |discriminate Hinit].
  destruct xs as [|h [|w0 [|x xs]]].
  - eexists; reflexivity.
  - eexists; reflexivity.
  - split; [intros Hh Hw; by apply call_Resize|by apply (call_Resize_zero w sample d img)].
  - eexists; reflexivity.
Qed.

Lemma resize_output_size_witness :
  Resize_init (PInt 299) = Ok (Resize (PInt 299)) /\
  call (H := plain) (Resize (PInt 299)) 0 raw_world
  = (Raise (TypeError "cannot unpack non-iterable int object"), raw_world).
Proof.
  split; [reflexivity|].
  exact (resize_output_size (H := plain) (PInt 299) 0 raw_world raw_sample
           (NDArray (A3 raw_image)) eq_refl eq_refl eq_refl).
Defined.

(** X10. [ToTensor] is all or nothing: when it raises (a key is missing, the
    image is not a three-axis ndarray, a field is already a tensor) the heap
    and the generator are exactly as before the call. *)
Theorem to_tensor_failure_writes_nothing `{External} (sample : nat) (w w' : World)
    (e : pyexn) :
  call ToTensor sample w = (Raise e, w') -> w' = w.
Proof.
  unfold call, mbind, lift, load, alloc, dict_get.
  destruct (obj w sample !! "image") as [[[|t]|]|]; simpl; try (by intros [= _ <-]).
  destruct (obj w sample !! "mass") as [[m|]|]; simpl; try (by intros [= _ <-]).
  destruct (obj w sample !! "calories") as [[c|]|]; simpl; by intros [= _ <-].
Qed.

Lemma to_tensor_failure_writes_nothing_witness :
  exists e w',
    call (H := plain) ToTensor 7 raw_world = (Raise e, w') /\ w' = raw_world.
Proof.
  destruct (call (H := plain) ToTensor 7 raw_world) as [[e|out] w'] eqn:Hcall.
  - exists e, w'. split; [reflexivity|].
    exact (to_tensor_failure_writes_nothing (H := plain) 7 raw_world w' e Hcall).
  - apply (f_equal fst) in Hcall. vm_compute in Hcall. discriminate Hcall.
Defined.

(** X11. [ToTensor] cannot be applied twice: on the sample a first
    [ToTensor] returned, a second one raises [TypeError] (the image is
    already a tensor) and changes nothing. *)
Theorem to_tensor_twice_fails `{External} (sample out : nat) (w w' : World) :
  call ToTensor sample w = (Ok out, w') ->
  call ToTensor out w'
  = (Raise (TypeError "transpose() received an invalid combination of arguments"), w').
Proof.
  intros Hcall.
  destruct (call_ToTensor_inv sample out w w' Hcall) as (t & m & c & _ & _ & _ & _ & ->).
  unfold call, mbind, lift, load, dict_get, obj. simpl.
  rewrite lookup_insert_eq. simpl. by rewrite lookup_insert_eq.
Qed.

Lemma to_tensor_twice_fails_witness :
  exists out w',
    call (H := plain) ToTensor 0 raw_world = (Ok out, w') /\
    call (H := plain) ToTensor out w'
    = (Raise (TypeError "transpose() received an invalid combination of arguments"), w').
Proof.
  destruct (call (H := plain) ToTensor 0 raw_world) as [[e|out] w'] eqn:Hcall.
  - apply (f_equal fst) in Hcall. vm_compute in Hcall. discriminate Hcall.
  - exists out, w'. split; [reflexivity|].
    exact (to_tensor_twice_fails (H := plain) 0 out raw_world w' Hcall).
Defined.

(** X12. [Normalize] is not atomic: when the image normalisation raises,
    the exception leaves the sample with its mass and calories already
    divided by their maxima and its image as it was. *)
Theorem normalize_failure_keeps_rescaled_targets `{External} (sample : nat) (w : World)
    (d : gmap string value) (mass0 calories0 image : value)
    (means stds : list Q) (mass_max calories_max : Q) (e : pyexn) :
  heap w !! sample = Some d ->
  d !! "mass" = Some mass0 -> d !! "calories" = Some calories0 ->
  d !! "image" = Some image ->
  ext_normalize image means stds = Raise e ->
  exists w',
    call (Normalize means stds mass_max calories_max) sample w = (Raise e, w') /\
    heap w' !! sample
    = Some (<["calories" := value_div calories0 calories_max]>
              (<["mass" := value_div mass0 mass_max]> d)) /\
    (forall loc, loc <> sample -> heap w' !! loc = heap w !! loc) /\
    torch_rng w' = torch_rng w.
Proof.
  intros Hd Hmass Hcal Himg Hnorm. eexists. split.
  - unfold call, mbind, lift, load, store, dict_get, obj. simpl.
    rewrite Hd. simpl. rewrite Hmass. simpl.
    rewrite lookup_insert_eq. simpl.
    rewrite lookup_insert_ne by done. rewrite Hcal. simpl.
    rewrite lookup_insert_eq. simpl.
    rewrite lookup_insert_ne by done. rewrite lookup_insert_ne by done.
    rewrite Himg. simpl. rewrite Hnorm. reflexivity.
  - simpl. split; [by rewrite lookup_insert_eq|]. split; [|done].
    intros loc Hloc. by rewrite !lookup_insert_ne.
Qed.

Lemma normalize_failure_keeps_rescaled_targets_witness :
  exists w',
    call (H := plain) (Normalize [0; 0; 0]%Q [1; 1; 1]%Q 1000 4000) 0 raw_world
    = (Raise (TypeError "img should be Tensor Image"), w') /\
    heap w' !! 0
    = Some (<["calories" := value_div (NDArray (A2 [[250%Q]])) 4000]>
              (<["mass" := value_div (NDArray (A2 [[(201#2)%Q]])) 1000]> raw_sample)).
Proof.
  destruct (normalize_failure_keeps_rescaled_targets (H := plain) 0 raw_world raw_sample
              (NDArray (A2 [[(201#2)%Q]])) (NDArray (A2 [[250%Q]])) (NDArray (A3 raw_image))
              [0; 0; 0]%Q [1; 1; 1]%Q 1000 4000 (TypeError "img should be Tensor Image")
              eq_refl eq_refl eq_refl eq_refl eq_refl)
    as (w' & Hcall & Hheap & _).
  exists w'. split; [exact Hcall|exact Hheap].
Defined.

(** ** Pipelines and the heap *)

Lemma call_all_frame `{External} (ts : list Transform) (sample cur out : nat)
    (w wc w' : World) :
  (cur = sample \/ heap w !! cur = None) ->
  (forall loc, loc <> sample -> is_Some (heap w !! loc) -> heap wc !! loc = heap w !! loc) ->
  is_Some (heap wc !! sample) ->
  call_all ts cur wc = (Ok out, w') ->
  (out = sample \/ heap w !! out = None) /\
  (forall loc, loc <> sample -> is_Some (heap w !! loc) -> heap w' !! loc = heap w !! loc) /\
  is_Some (heap w' !! sample).
Proof.
  revert cur wc. induction ts as [|t ts IH]; intros cur wc Hcur Hframe Hsome; simpl.
  - unfold ret. by intros [= <- <-].
  - unfold mbind. destruct (call t cur wc) as [[e|cur'] w1] eqn:Hcall; [discriminate|].
    intros Hrest.
    assert (Hdec : t = ToTensor \/ t <> ToTensor)
      by (destruct t; (by left) || (by right)).
    destruct Hdec as [->|Hnt].
    + destruct (call_ToTensor_fresh cur wc cur' w1 Hcall) as (Hnew & _ & Hfr).
      assert (Hne : cur' <> sample).
      { intros ->. rewrite Hnew in Hsome. by destruct Hsome. }
      apply (IH cur' w1); [| |by rewrite Hfr|done].
      * right. destruct (heap w !! cur') as [d|] eqn:Hd; [|done].
        rewrite <- (Hframe cur' Hne) in Hd by (by rewrite Hd). congruence.
      * intros loc Hloc Hl. rewrite Hfr; [by apply Hframe|].
        intros ->. rewrite <- (Hframe cur' Hne Hl) in Hl. rewrite Hnew in Hl.
        by destruct Hl.
    + destruct (call_in_place t cur wc Hnt cur' w1 Hcall)
        as (-> & _ & Hfr & _ & Hkeep).
      apply (IH cur w1); [done| | |done].
      * intros loc Hloc Hl. rewrite Hfr; [by apply Hframe|].
        intros ->. destruct Hcur as [->|Hnone]; [done|].
        rewrite Hnone in Hl. by destruct Hl.
      * destruct (decide (cur = sample)) as [->|Hne]; [by apply Hkeep|].
        by rewrite Hfr.
Qed.

(** X13. A pipeline touches only the sample it is given and the samples it
    creates on the way: whatever transforms it is made of, every other
    object that was on the heap is unchanged when it returns, and the sample
    returned is the one given or a new object. *)
Theorem pipeline_touches_only_its_sample `{External} (c : Compose) (sample out : nat)
    (w w' : World) :
  is_Some (heap w !! sample) ->
  Compose_call c sample w = (Ok out, w') ->
  (out = sample \/ heap w !! out = None) /\
  (forall loc, loc <> sample -> is_Some (heap w !! loc) -> heap w' !! loc = heap w !! loc).
Proof.
  intros Hsome Hcall. unfold Compose_call in Hcall.
  destruct (call_all_frame (transforms c) sample sample out w w w') as (Hout & Hfr & _);
    auto.
Qed.

Lemma pipeline_touches_only_its_sample_witness :
  is_Some (heap two_samples !! 0) /\
  exists out w',
    Compose_call (H := plain) (mkCompose [Resize (PTuple [1; 1]); ToTensor]) 0 two_samples
    = (Ok out, w') /\
    heap w' !! 1 = heap two_samples !! 1.
Proof.
  assert (Hs : is_Some (heap two_samples !! 0)) by (by eexists).
  split; [exact Hs|].
  destruct (Compose_call (H := plain) (mkCompose [Resize (PTuple [1; 1]); ToTensor]) 0
              two_samples) as [[e|out] w'] eqn:Hcall.
  - apply (f_equal fst) in Hcall. vm_compute in Hcall. discriminate Hcall.
  - exists out, w'. split; [reflexivity|].
    destruct (pipeline_touches_only_its_sample (H := plain) _ 0 out two_samples w' Hs Hcall)
      as [_ Hfr].
    apply Hfr; [discriminate|by eexists].
Defined.

(** ** Reading samples from the dataset *)

Lemma iloc_out_of_range (df : DataFrame) (idx : Z) :
  (idx < - Z.of_nat (length df) \/ Z.of_nat (length df) <= idx)%Z ->
  iloc df idx = Raise IndexError.
Proof.
  intros Hidx. unfold iloc.
  destruct (Z.ltb_spec idx (- Z.of_nat (length df))); [done|].
  destruct (Z.leb_spec (Z.of_nat (length df)) idx); [done|lia].
Qed.

Lemma iloc_in_range (df : DataFrame) (idx : Z) :
  (0 <= idx < Z.of_nat (length df))%Z ->
  exists lbl row, df !! Z.to_nat idx = Some (lbl, row) /\ iloc df idx = Ok row.
Proof.
  intros Hidx. unfold iloc.
  destruct (Z.ltb_spec idx (- Z.of_nat (length df))); [lia|].
  destruct (Z.leb_spec (Z.of_nat (length df)) idx); [lia|]. simpl.
  destruct (Z.ltb_spec idx 0); [lia|].
  destruct (lookup_lt_is_Some_2 df (Z.to_nat idx)) as [[lbl row] Hrow]; [lia|].
  exists lbl, row. by rewrite Hrow.
Qed.

Lemma iloc_negative (df : DataFrame) (idx : Z) :
  (- Z.of_nat (length df) <= idx < 0)%Z ->
  iloc df idx = iloc df (idx + Z.of_nat (length df)).
Proof.
  intros Hidx. unfold iloc.
  destruct (Z.ltb_spec idx (- Z.of_nat (length df))); [lia|].
  destruct (Z.leb_spec (Z.of_nat (length df)) idx); [lia|].
  destruct (Z.ltb_spec (idx + Z.of_nat (length df)) (- Z.of_nat (length df))); [lia|].
  destruct (Z.leb_spec (Z.of_nat (length df)) (idx + Z.of_nat (length df))); [lia|].
  simpl.
  destruct (Z.ltb_spec idx 0); [|lia].
  destruct (Z.ltb_spec (idx + Z.of_nat (length df)) 0); [lia|]. done.
Qed.

Section Samples.
Context `{External} `{Decoders}.

(** X14. An index outside [-len, len) raises [IndexError] before any file
    is opened or any sample built: the heap is as it was. *)
Theorem getitem_out_of_range (self : Nutrition5kDataset.t) (idx : Z) (w : World) :
  (idx < - Z.of_nat (Nutrition5kDataset.len self)
   \/ Z.of_nat (Nutrition5kDataset.len self) <= idx)%Z ->
  Nutrition5kDataset.getitem self idx w = (Raise IndexError, w).
Proof.
  intros Hidx. unfold Nutrition5kDataset.getitem, mbind, lift.
  by rewrite (iloc_out_of_range _ _ Hidx).
Qed.

(** X15. A negative index counts from the end: for [-len <= idx < 0],
    reading [idx] is reading [idx + len]. *)
Theorem getitem_negative_index (self : Nutrition5kDataset.t) (idx : Z) (w : World) :
  (- Z.of_nat (Nutrition5kDataset.len self) <= idx < 0)%Z ->
  Nutrition5kDataset.getitem self idx w
  = Nutrition5kDataset.getitem self (idx + Z.of_nat (Nutrition5kDataset.len self)) w.
Proof.
  intros Hidx. unfold Nutrition5kDataset.getitem.
  by rewrite (iloc_negative _ _ Hidx).
Qed.

(** X16. Without a transform, reading position [idx] of the frame builds a
    new dict holding the decoded image as an ndarray and the row's mass and
    calories as [1 x 1] ndarrays, the calories being the row's integer; no
    other object changes and nothing is cached. *)
Theorem getitem_raw_sample (self : Nutrition5kDataset.t) (idx : Z) (w : World)
    (lbl : nat) (row : DishRow) (image : array) (mass1 : Q) :
  Nutrition5kDataset.transform self = None ->
  (0 <= idx)%Z ->
  Nutrition5kDataset.dish_calories self !! Z.to_nat idx = Some (lbl, row) ->
  dec_image (frame_path (Nutrition5kDataset.root_dir self) (dish_id row)) = Ok image ->
  dec_float (mass row) = Ok mass1 ->
  let sample := fresh (dom (heap w)) in
  heap w !! sample = None /\
  Nutrition5kDataset.getitem self idx w
  = (Ok sample,
     mkWorld (<[sample := <["image" := NDArray image]>
                            (<["mass" := NDArray (A2 [[mass1]])]>
                               (<["calories" := NDArray (A2 [[inject_Z (calories row)]])]> ∅))]>
                (heap w))
             (torch_rng w)).
Proof.
  intros Htr Hidx Hrow Himg Hmass. cbv zeta.
  split; [apply not_elem_of_dom, is_fresh|].
  assert (Hlt : (0 <= idx < Z.of_nat (length (Nutrition5kDataset.dish_calories self)))%Z).
  { apply lookup_lt_Some in Hrow. lia. }
  destruct (iloc_in_range _ _ Hlt) as (lbl' & row' & Hrow' & Hiloc).
  rewrite Hrow in Hrow'. injection Hrow' as <- <-.
  unfold Nutrition5kDataset.getitem, mbind, lift, alloc, ret.
  rewrite Hiloc. cbn [Ok]. rewrite Himg. cbn [Ok]. rewrite Hmass. cbn [Ok].
  by rewrite Htr.
Qed.

(** X17. Whatever the transform, a successful read returns an object that
    was not on the heap before and leaves every object that was there
    unchanged: the in-place transforms act on the dict just built, never on
    a sample handed out earlier. *)
Theorem getitem_returns_new_object (self : Nutrition5kDataset.t) (idx : Z)
    (w w' : World) (out : nat) :
  Nutrition5kDataset.getitem self idx w = (Ok out, w') ->
  heap w !! out = None /\
  (forall loc, is_Some (heap w !! loc) -> heap w' !! loc = heap w !! loc).
Proof.
  unfold Nutrition5kDataset.getitem, mbind, lift.
  destruct (iloc (Nutrition5kDataset.dish_calories self) idx) as [e|row]; [discriminate|].
  destruct (dec_image _) as [e|image]; [discriminate|].
  destruct (dec_float _) as [e|mass1]; [discriminate|].
  unfold alloc at 1.
  set (sample := fresh (dom (heap w))).
  set (d := <["image" := NDArray image]> _).
  set (w1 := mkWorld (<[sample := d]> (heap w)) (torch_rng w)).
  assert (Hnew : heap w !! sample = None) by apply not_elem_of_dom, is_fresh.
  assert (Hold : forall loc, is_Some (heap w !! loc) -> loc <> sample).
  { intros loc Hl ->. rewrite Hnew in Hl. by destruct Hl. }
  destruct (Nutrition5kDataset.transform self) as [c|].
  - intros Hcall. unfold Compose_call in Hcall.
    destruct (call_all_frame (transforms c) sample sample out w1 w1 w')
      as (Hout & Hfr & _); [by left|done|by (simpl; rewrite lookup_insert_eq)|done|].
    split.
    + destruct Hout as [->|Hnone]; [done|].
      destruct (decide (out = sample)) as [->|Hne]; [done|].
      simpl in Hnone. by rewrite lookup_insert_ne in Hnone.
    + intros loc Hl. pose proof (Hold loc Hl) as Hne.
      rewrite Hfr; [by (simpl; rewrite lookup_insert_ne)|done|].
      simpl. by rewrite lookup_insert_ne.
  - unfold ret. intros [= <- <-]. split; [done|].
    intros loc Hl. simpl. rewrite lookup_insert_ne; [done|].
    intros Heq. by apply (Hold loc Hl).
Qed.

(** X18. Without a transform a failed read (a bad index, an image that does
    not decode, a mass that is no number) leaves the heap as it was. *)
Theorem getitem_failure_writes_nothing (self : Nutrition5kDataset.t) (idx : Z)
    (w w' : World) (e : pyexn) :
  Nutrition5kDataset.transform self = None ->
  Nutrition5kDataset.getitem self idx w = (Raise e, w') -> w' = w.
Proof.
  intros Htr. unfold Nutrition5kDataset.getitem, mbind, lift, alloc, ret.
  destruct (iloc (Nutrition5kDataset.dish_calories self) idx) as [e1|row];
    [by intros [= _ <-]|].
  destruct (dec_image _) as [e1|image]; [by intros [= _ <-]|].
  destruct (dec_float _) as [e1|mass1]; [by intros [= _ <-]|].
  rewrite Htr. discriminate.
Qed.
End Samples.

Lemma getitem_out_of_range_witness :
  Nutrition5kDataset.getitem (H := plain) (H0 := plain_decoders) demo_dataset 2 raw_world
  = (Raise IndexError, raw_world).
Proof.
  apply (getitem_out_of_range (H := plain) (H0 := plain_decoders) demo_dataset 2 raw_world).
  right. vm_compute. discriminate.
Defined.

Lemma getitem_negative_index_witness :
  Nutrition5kDataset.getitem (H := plain) (H0 := plain_decoders) demo_dataset (-1) raw_world
  = Nutrition5kDataset.getitem (H := plain) (H0 := plain_decoders) demo_dataset 1 raw_world.
Proof.
  apply (getitem_negative_index (H := plain) (H0 := plain_decoders) demo_dataset (-1)
           raw_world).
  split; vm_compute; [discriminate|reflexivity].
Defined.

Lemma getitem_raw_sample_witness :
  exists sample w',
    Nutrition5kDataset.getitem (H := plain) (H0 := plain_decoders) demo_dataset 0 raw_world
    = (Ok sample, w') /\
    heap raw_world !! sample = None /\
    obj w' sample !! "calories" = Some (NDArray (A2 [[250%Q]])).
Proof.
  destruct (getitem_raw_sample (H := plain) (H0 := plain_decoders) demo_dataset 0 raw_world
              0 (mkDishRow "D1" "100.5" 250) (A3 raw_image) (100 + (5 # 10))%Q
              eq_refl ltac:(lia) eq_refl eq_refl eq_refl) as [Hnew Hget].
  eexists _, _. split; [exact Hget|]. split; [exact Hnew|].
  unfold obj. simpl. rewrite lookup_insert_eq. simpl.
  rewrite lookup_insert_ne by discriminate. rewrite lookup_insert_ne by discriminate.
  apply lookup_insert_eq.
Defined.

Lemma getitem_returns_new_object_witness :
  exists out w',
    Nutrition5kDataset.getitem (H := plain) (H0 := plain_decoders) demo_dataset_resized 0
      raw_world = (Ok out, w') /\
    heap raw_world !! out = None /\
    heap w' !! 0 = heap raw_world !! 0.
Proof.
  destruct (Nutrition5kDataset.getitem (H := plain) (H0 := plain_decoders)
              demo_dataset_resized 0 raw_world) as [[e|out] w'] eqn:Hget.
  - apply (f_equal fst) in Hget. vm_compute in Hget. discriminate Hget.
  - exists out, w'. split; [reflexivity|].
    destruct (getitem_returns_new_object (H := plain) (H0 := plain_decoders)
                demo_dataset_resized 0 raw_world w' out Hget) as [Hnew Hfr].
    split; [exact Hnew|]. apply Hfr. by eexists.
Defined.

Lemma getitem_failure_writes_nothing_witness :
  exists e w',
    Nutrition5kDataset.getitem (H := plain) (H0 := plain_decoders) demo_dataset 9 raw_world
    = (Raise e, w') /\ w' = raw_world.
Proof.
  destruct (Nutrition5kDataset.getitem (H := plain) (H0 := plain_decoders)
              demo_dataset 9 raw_world) as [[e|out] w'] eqn:Hget.
  - exists e, w'. split; [reflexivity|].
    exact (getitem_failure_writes_nothing (H := plain) (H0 := plain_decoders)
             demo_dataset 9 raw_world w' e eq_refl Hget).
  - apply (f_equal fst) in Hget. vm_compute in Hget. discriminate Hget.
Defined.

(** ** Sizing the splits in train.py *)

(** Three sizes that are not negative and sum to [n] are split as given,
    also when they sum to 1 and [random_split] reads them as fractions. *)
Lemma random_split_sizes (perm : list nat) (n : nat) (a b : Z) :
  (0 <= a)%Z -> (0 <= b)%Z -> (a + b <= Z.of_nat n)%Z ->
  random_split perm n [a; b; (Z.of_nat n - a - b)%Z]
  = Ok (subsets perm 0%Z [a; b; (Z.of_nat n - a - b)%Z]).
Proof.
  intros Ha Hb Hab. unfold random_split.
  assert (Hsum : fold_right Z.add 0%Z [a; b; (Z.of_nat n - a - b)%Z] = Z.of_nat n)
    by (simpl; lia).
  rewrite Hsum.
  destruct (Z.eqb_spec (Z.of_nat n) 1) as [Hn|Hn].
  - assert (Hin : existsb (fun frac => (frac <? 0)%Z || (1 <? frac)%Z)
                    [a; b; (Z.of_nat n - a - b)%Z] = false).
    { simpl. rewrite !orb_false_r.
      repeat (apply orb_false_intro); try (apply Z.ltb_ge; lia). }
    rewrite Hin. cbn [bind Ok map]. rewrite Hn, !Z.mul_1_l.
    rewrite <- Hn at 1. rewrite Hsum, Hn. reflexivity.
  - cbn [bind Ok]. rewrite Hsum, Z.eqb_refl. reflexivity.
Qed.

(** The subsets for sizes that are not negative and fit the dataset. *)
Lemma make_splits_segments (config : Config) (perm : list nat) (n_videos : nat)
    (a b : Z) :
  sized64 (train64 (split config)) n_videos = Ok a ->
  sized64 (validation64 (split config)) n_videos = Ok b ->
  (0 <= a)%Z -> (0 <= b)%Z -> (a + b <= Z.of_nat n_videos)%Z ->
  perm ≡ₚ seq 0 n_videos ->
  exists s,
    make_splits config perm n_videos = Ok s /\
    train_set s = take (Z.to_nat a) perm /\
    val_set s = take (Z.to_nat b) (drop (Z.to_nat a) perm) /\
    test_set s = drop (Z.to_nat a + Z.to_nat b) perm /\
    train_set s ++ val_set s ++ test_set s = perm /\
    NoDup (train_set s ++ val_set s ++ test_set s) /\
    length (test_set s) = n_videos - Z.to_nat a - Z.to_nat b.
Proof.
  intros Hsa Hsb Ha Hb Hab Hperm.
  assert (Hlen : length perm = n_videos)
    by (by rewrite (Permutation_length Hperm), length_seq).
  unfold make_splits. rewrite Hsa, Hsb. cbn [bind Ok].
  rewrite (random_split_sizes perm n_videos a b Ha Hb Hab). cbn [bind Ok subsets].
  eexists. split; [reflexivity|]. cbn [train_set val_set test_set].
  assert (H1 : py_slice perm (Some (0 + a - a)%Z) (Some (0 + a)%Z) = take (Z.to_nat a) perm).
  { rewrite py_slice_middle by lia.
    replace (Z.to_nat (0 + a - a)) with 0 by lia. rewrite drop_0. f_equal. lia. }
  assert (H2 : py_slice perm (Some (0 + a + b - b)%Z) (Some (0 + a + b)%Z)
               = take (Z.to_nat b) (drop (Z.to_nat a) perm)).
  { rewrite py_slice_middle by lia. f_equal; [lia|f_equal; lia]. }
  assert (H3 : py_slice perm
                 (Some (0 + a + b + (Z.of_nat n_videos - a - b)
                        - (Z.of_nat n_videos - a - b))%Z)
                 (Some (0 + a + b + (Z.of_nat n_videos - a - b))%Z)
               = drop (Z.to_nat a + Z.to_nat b) perm).
  { rewrite py_slice_middle by lia.
    replace (Z.to_nat (0 + a + b + (Z.of_nat n_videos - a - b)
                       - (Z.of_nat n_videos - a - b))) with (Z.to_nat a + Z.to_nat b) by lia.
    apply take_ge. rewrite length_drop. lia. }
  rewrite H1, H2, H3.
  assert (Htile : take (Z.to_nat a) perm ++ take (Z.to_nat b) (drop (Z.to_nat a) perm)
                  ++ drop (Z.to_nat a + Z.to_nat b) perm = perm).
  { replace (drop (Z.to_nat a + Z.to_nat b) perm)
      with (drop (Z.to_nat b) (drop (Z.to_nat a) perm))
      by (rewrite drop_drop; f_equal; lia).
    by rewrite !take_drop. }
  split; [done|]. split; [done|]. split; [done|]. split; [done|].
  split; [rewrite Htile, Hperm; apply NoDup_seq|].
  rewrite length_drop. lia.
Qed.

(** X20. In [train.py], for a dataset of [n < 2^52] records, finite
    fractions [0 <= f], [0 <= g] with [f + g <= 1] and a permutation of the
    [n] dataset positions, the truncated binary64 products [a = int(f*n)]
    and [b = int(g*n)] are defined with [a + b <= n], and the three subsets
    are consecutive segments of the permutation of sizes [a], [b] and
    [n - a - b]: together they are the whole permutation, so every position
    falls in exactly one subset. *)
Theorem make_splits_partition (config : Config) (perm : list nat) (n_videos : nat) :
  (Z.of_nat n_videos < 2 ^ 52)%Z ->
  valid_split64 (split config) ->
  perm ≡ₚ seq 0 n_videos ->
  exists a b s,
    sized64 (train64 (split config)) n_videos = Ok a /\
    sized64 (validation64 (split config)) n_videos = Ok b /\
    (0 <= a)%Z /\ (0 <= b)%Z /\ (a + b <= Z.of_nat n_videos)%Z /\
    make_splits config perm n_videos = Ok s /\
    train_set s = take (Z.to_nat a) perm /\
    val_set s = take (Z.to_nat b) (drop (Z.to_nat a) perm) /\
    test_set s = drop (Z.to_nat a + Z.to_nat b) perm /\
    train_set s ++ val_set s ++ test_set s = perm /\
    NoDup (train_set s ++ val_set s ++ test_set s) /\
    length (test_set s) = n_videos - Z.to_nat a - Z.to_nat b.
Proof.
  intros Hn Hvalid Hperm.
  destruct (scaled64_valid n_videos (split config) Hn Hvalid)
    as (a & b & Ha & Hb & Ha0 & Hb0 & Hab).
  rewrite <- sized64_scaled64 in Ha, Hb.
  destruct (make_splits_segments config perm n_videos a b Ha Hb Ha0 Hb0 Hab Hperm)
    as (s & Hs & Hrest).
  exists a, b, s. split; [done|]. split; [done|]. split; [done|]. split; [done|].
  split; [done|]. split; [done|]. exact Hrest.
Qed.

Lemma make_splits_partition_witness :
  (Z.of_nat 10 < 2 ^ 52)%Z /\
  valid_split64 (split ten_config) /\
  seq 0 10 ≡ₚ seq 0 10 /\
  exists s,
    make_splits ten_config (seq 0 10) 10 = Ok s /\
    train_set s ++ val_set s ++ test_set s = seq 0 10 /\
    length (train_set s) = 6 /\ length (test_set s) = 2.
Proof.
  assert (Hn : (Z.of_nat 10 < 2 ^ 52)%Z) by (vm_compute; reflexivity).
  assert (Hv : valid_split64 (split ten_config)).
  { eexists _, _. split; [vm_compute; reflexivity|]. split; [vm_compute; reflexivity|].
    split; [apply Qle_bool_imp_le; vm_compute; reflexivity|].
    split; apply Qle_bool_imp_le; vm_compute; reflexivity. }
  split; [exact Hn|]. split; [exact Hv|]. split; [reflexivity|].
  destruct (make_splits_partition ten_config (seq 0 10) 10 Hn Hv (reflexivity _))
    as (a & b & s & Ha & Hb & _ & _ & _ & Hs & Htr & _ & _ & Htile & _ & Hlen).
  exists s. split; [exact Hs|]. split; [exact Htile|].
  assert (a = 6%Z) as -> by (vm_compute in Ha; by injection Ha).
  assert (b = 2%Z) as -> by (vm_compute in Hb; by injection Hb).
  split; [by rewrite Htr|]. by rewrite Hlen.
Defined.

(** On a dataset of one record a train fraction of 2 gives the sizes
    [2, 0, -1]: they sum to 1, are read as fractions, and are refused. *)
Example one_record_oversized_fraction :
  make_splits (mkConfig "data" (mkSplit64 2 0) 2 2 true) [0] 1
  = Raise (ValueError "Fraction is not between 0 and 1").
Proof. vm_compute. reflexivity. Qed.

(** ** The epoch loop *)

Lemma epoch_loop_every_epoch (st : LoopState) (epoch : nat) (history : list (float * float)) :
  let st' := epoch_loop false st epoch history in
  checkpoints st' = checkpoints st ++ seq epoch (length history) /\
  best_val_loss st' = default (best_val_loss st) (last (map snd history)) /\
  best_training_loss st'
  = last_training_below_validation history (best_training_loss st).
Proof.
  revert st epoch. induction history as [|[t v] history IH]; intros st epoch.
  - simpl. by rewrite app_nil_r.
  - cbn [epoch_loop]. cbv zeta.
    destruct (IH (epoch_end false st epoch t v) (S epoch)) as (Hck & Hbv & Hbt).
    rewrite Hck, Hbv, Hbt. clear IH Hck Hbv Hbt.
    unfold epoch_end. rewrite orb_true_r. cbn [best_val_loss checkpoints best_training_loss].
    destruct (PrimFloat.ltb t v) eqn:Htv;
      cbn [best_val_loss checkpoints best_training_loss map snd fst length seq
           last_training_below_validation fold_left]; rewrite ?Htv.
    + split; [rewrite <- app_assoc; reflexivity|]. split; [|reflexivity].
      rewrite last_cons. by destruct (last (map snd history)).
    + split; [rewrite <- app_assoc; reflexivity|]. split; [|reflexivity].
      rewrite last_cons. by destruct (last (map snd history)).
Qed.

(** X21. With [save_best_model_only] off a checkpoint is written at every
    epoch, the final "best" validation loss is simply the validation loss
    of the last epoch, and the final "best" training loss is the training
    loss of the last epoch whose training loss was below its own validation
    loss ([inf] when there is none). *)
Theorem epoch_loop_without_best_only (history : list (float * float)) :
  let st := epoch_loop false loop_init 0 history in
  checkpoints st = seq 0 (length history) /\
  best_val_loss st = default infinity (last (map snd history)) /\
  best_training_loss st = last_training_below_validation history infinity.
Proof. exact (epoch_loop_every_epoch loop_init 0 history). Qed.

Lemma epoch_loop_last_checkpoint (sbo : bool) (st : LoopState) (past history : list (float * float)) :
  match last (checkpoints st) with
  | Some e => snd <$> past !! e = Some (best_val_loss st)
  | None => best_val_loss st = infinity
  end ->
  let st' := epoch_loop sbo st (length past) history in
  match last (checkpoints st') with
  | Some e => snd <$> (past ++ history) !! e = Some (best_val_loss st')
  | None => best_val_loss st' = infinity
  end.
Proof.
  revert st past. induction history as [|[t v] history IH]; intros st past Hinv.
  - simpl. by rewrite app_nil_r.
  - cbn [epoch_loop]. cbv zeta.
    replace (past ++ (t, v) :: history) with ((past ++ [(t, v)]) ++ history)
      by (by rewrite <- app_assoc).
    replace (S (length past)) with (length (past ++ [(t, v)]))
      by (rewrite length_app; simpl; lia).
    apply IH. unfold epoch_end.
    destruct (PrimFloat.ltb v (best_val_loss st) || negb sbo).
    + assert (Hnew : match last (checkpoints st ++ [length past]) with
                     | Some e => snd <$> (past ++ [(t, v)]) !! e = Some v
                     | None => v = infinity
                     end).
      { rewrite last_snoc. rewrite lookup_app_r by lia.
        by rewrite Nat.sub_diag. }
      cbn [best_val_loss checkpoints].
      destruct (PrimFloat.ltb t v); cbn [best_val_loss checkpoints]; exact Hnew.
    + assert (Hold : match last (checkpoints st) with
                     | Some e => snd <$> (past ++ [(t, v)]) !! e = Some (best_val_loss st)
                     | None => best_val_loss st = infinity
                     end).
      { destruct (last (checkpoints st)) as [e|]; [|done].
        destruct (past !! e) as [tv|] eqn:He; [|done].
        by rewrite (lookup_app_l_Some _ _ _ _ He). }
      destruct (PrimFloat.ltb t (best_val_loss st)); cbn [best_val_loss checkpoints];
        exact Hold.
Qed.

(** X22. Under either checkpoint policy the final "best" validation loss is
    the validation loss of the epoch of the last checkpoint written, and
    [inf] when no checkpoint was written: the newest checkpoint file is the
    model the reported best validation loss belongs to. *)
Theorem best_val_loss_is_last_checkpoint (sbo : bool) (history : list (float * float)) :
  let st := epoch_loop sbo loop_init 0 history in
  match last (checkpoints st) with
  | Some e => snd <$> history !! e = Some (best_val_loss st)
  | None => best_val_loss st = infinity
  end.
Proof. exact (epoch_loop_last_checkpoint sbo loop_init [] history eq_refl). Qed.

(** ** When the index is built *)

Section IndexBuilt.
Context `{External}.
Variables (fs : FileSystem) (root : string).

Lemma read_rows_succeed (md : Metadata) (lines : list string) :
  Forall (fun l => is_Some (line_record l))
         (filter (fun l => has_image fs root l = true) lines) ->
  exists md', read_rows fs root md lines = Ok md'.
Proof.
  revert md. induction lines as [|line lines IH]; intros md Hall; simpl; [by eexists|].
  destruct (has_image fs root line) eqn:Himg.
  - rewrite filter_cons_True in Hall by done.
    apply Forall_cons in Hall as [[r Hr] Hall].
    unfold has_image in Himg. unfold line_record in Hr. unfold read_row.
    destruct (str_split "," line) as [|d [|p1 [|p2 tl]]]; try discriminate.
    simpl. rewrite Himg. simpl.
    destruct (ext_int_float p1) as [e|c]; [discriminate|]. simpl. by apply IH.
  - rewrite filter_cons_False in Hall by (rewrite Himg; discriminate).
    rewrite read_row_without_image by done. simpl. by apply IH.
Qed.

(** X23. The build succeeds whenever both metadata files can be read and
    every line whose frame exists has at least three fields and a second
    field that converts; lines without a frame may be malformed in any
    way. *)
Theorem create_nutrition_df_succeeds (l1 l2 : list string) :
  fs_readlines fs (path_join root ["metadata"; "dish_metadata_cafe1.csv"]) = Some l1 ->
  fs_readlines fs (path_join root ["metadata"; "dish_metadata_cafe2.csv"]) = Some l2 ->
  Forall (fun l => is_Some (line_record l))
         (filter (fun l => has_image fs root l = true) (l1 ++ l2)) ->
  exists df, create_nutrition_df fs root = Ok df /\
             length df = length (filter (fun l => has_image fs root l = true) (l1 ++ l2)).
Proof.
  intros H1 H2 Hall.
  rewrite filter_app in Hall. apply Forall_app in Hall as [Hall1 Hall2].
  destruct (read_rows_succeed empty_metadata l1 Hall1) as [md1 Hr1].
  destruct (read_rows_succeed md1 l2 Hall2) as [md2 Hr2].
  assert (Hal0 : md_aligned empty_metadata) by done.
  destruct (read_rows_contents fs root _ _ _ Hal0 Hr1) as (Hal1 & Hd1 & _).
  destruct (read_rows_contents fs root _ _ _ Hal1 Hr2) as (Hal2 & Hd2 & Ht2).
  exists (zip (seq 0 (length (md_rows md2))) (md_rows md2)). split.
  - unfold create_nutrition_df, csv_files. cbn [read_csvs]. unfold read_csv.
    rewrite H1, Hr1. cbn [bind Ok]. rewrite H2, Hr2. cbn [bind Ok].
    by apply from_dict_aligned.
  - rewrite length_zip_with, length_seq, Nat.min_id.
    rewrite filter_app, length_app.
    rewrite <- (length_map line_record (filter _ l1)), <- Hd1.
    rewrite <- (length_map line_record (filter _ l2)), <- Hd2.
    rewrite !length_map, !length_drop.
    change (md_rows empty_metadata) with (@nil DishRow). simpl.
    assert (length (md_rows md1) <= length (md_rows md2)); [|lia].
    rewrite <- Ht2. rewrite length_take. lia.
Qed.
End IndexBuilt.

Lemma create_nutrition_df_succeeds_witness :
  exists df,
    create_nutrition_df (H := plain) unimaged_fs "data" = Ok df /\ length df = 2.
Proof.
  destruct (create_nutrition_df_succeeds (H := plain) unimaged_fs "data"
              (two_dishes ++ [unimaged_line]) [] eq_refl eq_refl) as (df & Hdf & Hlen).
  - apply (bool_decide_unpack _). vm_compute. reflexivity.
  - exists df. split; [exact Hdf|]. rewrite Hlen. vm_compute. reflexivity.
Defined.

(** ** A two-axis image *)

(** X24. A sample whose image has two axes only (a greyscale frame) goes
    through [Resize] to positive sizes and then makes [ToTensor] raise
    [ValueError]: the pipeline of [train.py] fails on it, leaving the sample
    with its image already resized and no new sample built. *)
Theorem greyscale_fails_in_to_tensor `{External} (sample : nat) (w : World)
    (d : gmap string value) (m : list (list Q)) (new_h new_w : nat) :
  heap w !! sample = Some d ->
  d !! "image" = Some (NDArray (A2 m)) ->
  0 < new_h -> 0 < new_w ->
  exists r,
    sk_resize (NDArray (A2 m)) new_h new_w = NDArray (A2 r) /\
    length r = new_h /\ Forall (fun line => length line = new_w) r /\
    Compose_call (mkCompose [Resize (PTuple [new_h; new_w]); ToTensor]) sample w
    = (Raise (ValueError "axes don't match array"),
       mkWorld (<[sample := <["image" := NDArray (A2 r)]> d]> (heap w)) (torch_rng w)).
Proof.
  intros Hd Himg Hh Hw. eexists. split; [reflexivity|].
  split; [by rewrite length_map, length_seq|]. split.
  - apply Forall_map, Forall_forall. intros i _. by rewrite length_map, length_seq.
  - unfold Compose_call. cbn [transforms call_all].
    erewrite mbind_Ok by (by apply call_Resize).
    erewrite mbind_Raise; [reflexivity|].
    unfold call, mbind, lift, load, dict_get, obj. simpl.
    rewrite lookup_insert_eq. simpl. rewrite lookup_insert_eq. reflexivity.
Qed.

Lemma greyscale_fails_in_to_tensor_witness :
  fst (Compose_call (H := plain) (mkCompose [Resize (PTuple [1; 1]); ToTensor]) 0 grey_world)
  = Raise (ValueError "axes don't match array").
Proof.
  destruct (greyscale_fails_in_to_tensor (H := plain) 0 grey_world
              (<["image" := NDArray (A2 [[10; 20]; [30; 40]]%Q)]> raw_sample)
              [[10; 20]; [30; 40]]%Q 1 1 eq_refl eq_refl ltac:(lia) ltac:(lia))
    as (r & _ & _ & _ & Hcall).
  rewrite Hcall. reflexivity.
Defined.
